(** * Testability Refactoring Analyzer: rule evaluation, scoring and
      orchestration

    A shallow embedding of [testability_analyzer] (base.py, scoring.py,
    threshold_classifier.py, ast_utils.py, file_utils.py, rules/*.py,
    analyzer.py, and the thresholds of formatters/*.py).

    Python exceptions are values of [exception]; a computation that may
    raise returns [result A].  Syntax trees are the trees of CPython's
    [ast] module: a node has a class, a position, its string attributes and
    its child nodes, each child labelled with the field it sits in.  The
    recursive visit of the context builder takes the number of frames that
    the recursion limit leaves it, and raises RecursionError on a tree that
    needs more. *)

From Stdlib Require Import List ZArith Lia Bool String Ascii DecimalString.
From Stdlib Require Import Permutation.
Import ListNotations.
Open Scope string_scope.
Open Scope list_scope.
Open Scope Z_scope.

Set Implicit Arguments.

(* ------------------------------------------------------------------ *)
(** ** Exceptions and results *)

Module Py.

(** The exception classes that can reach the analyzer.  A constructor
    stands for its class and the subclasses that have no constructor of
    their own: [SyntaxError] for IndentationError and TabError too, [OSError]
    for FileNotFoundError, PermissionError and IsADirectoryError,
    [ValueError] for every ValueError but UnicodeDecodeError. *)
Inductive exception : Type :=
| AttributeError
| SyntaxError
| UnicodeDecodeError
| OSError
| ValueError
| RecursionError
| OtherError (class_name : string).

Inductive result (A : Type) : Type :=
| Ok (a : A)
| Raise (e : exception).

Arguments Ok {A} a.
Arguments Raise {A} e.

Definition bind {A B} (c : result A) (k : A -> result B) : result B :=
  match c with
  | Ok a => k a
  | Raise e => Raise e
  end.

Definition returns {A} (c : result A) : Prop := exists a, c = Ok a.

(** [for x in xs: acc = body(acc, x)], stopping at the first exception. *)
Fixpoint for_each {A S} (body : S -> A -> result S) (xs : list A) (acc : S)
  : result S :=
  match xs with
  | [] => Ok acc
  | x :: rest => bind (body acc x) (for_each body rest)
  end.

End Py.

Import Py.

Declare Scope py_scope.
Delimit Scope py_scope with py.
Notation "x <- c ;; k" := (bind c (fun x => k))
  (at level 61, c at next level, right associativity) : py_scope.
Open Scope py_scope.

(* ------------------------------------------------------------------ *)
(** ** The [ast] module *)

Module Ast.

(** Node classes.  The classes the analyzer tests for are constructors;
    every other class of the [ast] module is [Other] with its name. *)
Inductive ast_class : Type :=
| Module | FunctionDef | AsyncFunctionDef | ClassDef
| If | For | AsyncFor | While | Try | IfExp | Match
| match_case | ExceptHandler
| Import | ImportFrom | alias | Global
| Call | Name | Attribute | Assign
| Other (class_name : string).

Definition ast_class_eqb (a b : ast_class) : bool :=
  match a, b with
  | Module, Module | FunctionDef, FunctionDef
  | AsyncFunctionDef, AsyncFunctionDef | ClassDef, ClassDef
  | If, If | For, For | AsyncFor, AsyncFor | While, While | Try, Try
  | IfExp, IfExp | Match, Match | match_case, match_case
  | ExceptHandler, ExceptHandler | Import, Import
  | ImportFrom, ImportFrom | alias, alias | Global, Global
  | Call, Call | Name, Name | Attribute, Attribute | Assign, Assign => true
  | Other s, Other t => String.eqb s t
  | _, _ => false
  end.

(** A node.  [position] is the node's [lineno] attribute ([None] for the
    classes that carry no position: arguments, match_case, withitem,
    comprehension, operators and contexts).  [ident] is the node's string
    attribute: [name] of FunctionDef, AsyncFunctionDef, ClassDef and alias,
    [id] of Name, [attr] of Attribute, [module] of ImportFrom ([None] for
    [from . import x]).  [idents] is the [names] string list of Global.
    [fields] lists the child nodes in [_fields] order, each with the name
    of its field; a list-valued field contributes one entry per element. *)
#[warnings="-register-all"]
Inductive AST : Type :=
  Node { cls : ast_class;
         position : option Z;
         ident : option string;
         idents : list string;
         fields : list (string * AST) }.

(** [node.name], [node.id], [node.attr]: read on nodes of the classes
    that define them, after the [isinstance] test. *)
Definition name (n : AST) : string :=
  match ident n with Some s => s | None => "" end.

(** [node.lineno], read on statements and expressions only. *)
Definition lineno (n : AST) : Z :=
  match position n with Some l => l | None => 0 end.

(** [getattr(node, 'lineno', default)]. *)
Definition getattr_lineno (n : AST) (default : Z) : Z :=
  match position n with Some l => l | None => default end.

(** [ast.iter_child_nodes]. *)
Definition iter_child_nodes (n : AST) : list AST := map snd (fields n).

(** [node.<f>] for a list-valued field. *)
Definition field (f : string) (n : AST) : list AST :=
  map snd (filter (fun p => String.eqb (fst p) f) (fields n)).

(** [node.<f>] for a node-valued field. *)
Definition child (f : string) (n : AST) : option AST := hd_error (field f n).

Definition isinstance (n : AST) (classes : list ast_class) : bool :=
  existsb (ast_class_eqb (cls n)) classes.

Fixpoint size (n : AST) : nat :=
  match n with
  | Node _ _ _ _ fs =>
      S ((fix go (l : list (string * AST)) : nat :=
            match l with
            | [] => O
            | p :: r => (size (snd p) + go r)%nat
            end) fs)
  end.

Definition size_all (q : list AST) : nat :=
  fold_right (fun n acc => (size n + acc)%nat) O q.

(** [ast.walk]:
<<
    todo = deque([node])
    while todo:
        node = todo.popleft()
        todo.extend(iter_child_nodes(node))
        yield node
>>
    [fuel] bounds the number of iterations; [walk] runs it with the
    number of nodes of the tree, which [walk_from_more_fuel] shows to be
    enough. *)
Fixpoint walk_from (fuel : nat) (todo : list AST) : list AST :=
  match fuel, todo with
  | S fuel', node :: todo' =>
      node :: walk_from fuel' (todo' ++ iter_child_nodes node)
  | _, _ => []
  end.

Definition walk (node : AST) : list AST := walk_from (size node) [node].

End Ast.

Import Ast.

(* ------------------------------------------------------------------ *)
(** ** base.py: the result data model *)

Module Violation.
Record t : Type := mk {
  rule_name : string;
  description : string;
  points_deducted : Z;
  line_number : Z;
  function_name : string;
  is_red_flag : bool }.
End Violation.

Module FunctionScore.
Record t : Type := mk {
  name : string;
  line_number : Z;
  final_score : Z;
  violations : list Violation.t;
  baseline_score : Z }.
End FunctionScore.

Module ClassScore.
Record t : Type := mk {
  name : string;
  line_number : Z;
  constructor_violations : list Violation.t;
  method_scores : list FunctionScore.t }.
End ClassScore.

Module FileScore.
Record t : Type := mk {
  file_path : string;
  overall_score : Z;
  classification : string;
  function_scores : list FunctionScore.t;
  class_scores : list ClassScore.t;
  red_flags : list Violation.t }.
End FileScore.

(** [sum(v.points_deducted for v in violations)]. *)
Definition sum_points (violations : list Violation.t) : Z :=
  fold_right (fun v acc => Violation.points_deducted v + acc) 0 violations.

(** [min(xs)] of a non-empty list [x :: xs]. *)
Definition py_min (x : Z) (xs : list Z) : Z := fold_left Z.min xs x.

(** A [dict] with string keys, in insertion order. *)
Module Dict.

Definition t (V : Type) : Type := list (string * V).

(** [key in d]. *)
Definition has {V} (key : string) (d : t V) : bool :=
  existsb (fun entry => String.eqb (fst entry) key) d.

(** [d.get(key)]. *)
Definition get {V} (key : string) (d : t V) : option V :=
  option_map snd (find (fun entry => String.eqb (fst entry) key) d).

(** [d[key] = f(d[key])] for a key of [d]. *)
Definition update {V} (key : string) (f : V -> V) (d : t V) : t V :=
  map (fun entry => if String.eqb (fst entry) key
                    then (fst entry, f (snd entry)) else entry) d.

(** [d[key] = value]: a new key goes to the end, a key of [d] keeps its
    place. *)
Definition set {V} (key : string) (value : V) (d : t V) : t V :=
  if has key d then update key (fun _ => value) d else d ++ [(key, value)].

Definition keys {V} (d : t V) : list string := map fst d.

End Dict.

(** The dictionaries of [get_score_breakdown]. *)
Module ViolationDetail.
Record t : Type := mk {
  line : Z;
  function : string;
  description : string;
  points : Z }.
End ViolationDetail.

Module RuleBreakdown.
Record t : Type := mk {
  count : Z;
  total_points : Z;
  violations : list ViolationDetail.t }.
End RuleBreakdown.

Module ScoreBreakdown.
Record t : Type := mk {
  baseline_score : Z;
  total_deductions : Z;
  violations_by_rule : Dict.t RuleBreakdown.t;
  red_flag_count : Z;
  final_score : Z }.
End ScoreBreakdown.

(* ------------------------------------------------------------------ *)
(** ** scoring.py *)

Module ScoreCalculator.

Record t : Type := mk { baseline_score : Z; min_score : Z }.

Definition __init__ : t := {| baseline_score := 100; min_score := 0 |}.

Definition calculate_function_score (self : t) (function_name : string)
    (line_number : Z) (violations : list Violation.t) : FunctionScore.t :=
  let score := baseline_score self in
  let total_deduction := sum_points violations in
  let score := score - total_deduction in
  let score := Z.max score (min_score self) in
  {| FunctionScore.name := function_name;
     FunctionScore.line_number := line_number;
     FunctionScore.baseline_score := baseline_score self;
     FunctionScore.final_score := score;
     FunctionScore.violations := violations |}.

(** The constructor scores appended by the third loop of
    [aggregate_file_score]. *)
Definition constructor_scores (self : t) (class_scores : list ClassScore.t)
  : list Z :=
  flat_map
    (fun class_score =>
       let constructor_penalty :=
         sum_points (ClassScore.constructor_violations class_score) in
       if 0 <? constructor_penalty
       then [Z.max (baseline_score self - constructor_penalty) (min_score self)]
       else [])
    class_scores.

Definition all_scores (self : t) (function_scores : list FunctionScore.t)
    (class_scores : list ClassScore.t) : list Z :=
  (map FunctionScore.final_score function_scores
   ++ flat_map (fun class_score =>
                  map FunctionScore.final_score
                      (ClassScore.method_scores class_score))
               class_scores)
  ++ constructor_scores self class_scores.

Definition aggregate_file_score (self : t)
    (function_scores : list FunctionScore.t)
    (class_scores : list ClassScore.t) : Z :=
  match all_scores self function_scores class_scores with
  | [] => baseline_score self
  | x :: xs => py_min x xs
  end.

Definition detail_of (violation : Violation.t) : ViolationDetail.t :=
  {| ViolationDetail.line := Violation.line_number violation;
     ViolationDetail.function := Violation.function_name violation;
     ViolationDetail.description := Violation.description violation;
     ViolationDetail.points := Violation.points_deducted violation |}.

(** The three updates of [breakdown['violations_by_rule'][rule_name]]. *)
Definition add_to_group (violation : Violation.t) (group : RuleBreakdown.t)
  : RuleBreakdown.t :=
  {| RuleBreakdown.count := RuleBreakdown.count group + 1;
     RuleBreakdown.total_points :=
       RuleBreakdown.total_points group + Violation.points_deducted violation;
     RuleBreakdown.violations :=
       RuleBreakdown.violations group ++ [detail_of violation] |}.

(** One iteration of the loop of [get_score_breakdown]. *)
Definition breakdown_step (breakdown : ScoreBreakdown.t)
    (violation : Violation.t) : ScoreBreakdown.t :=
  let rule_name := Violation.rule_name violation in
  let by_rule := ScoreBreakdown.violations_by_rule breakdown in
  let by_rule :=
    if negb (Dict.has rule_name by_rule)
    then Dict.set rule_name (RuleBreakdown.mk 0 0 []) by_rule
    else by_rule in
  let by_rule := Dict.update rule_name (add_to_group violation) by_rule in
  {| ScoreBreakdown.baseline_score := ScoreBreakdown.baseline_score breakdown;
     ScoreBreakdown.total_deductions :=
       ScoreBreakdown.total_deductions breakdown;
     ScoreBreakdown.violations_by_rule := by_rule;
     ScoreBreakdown.red_flag_count :=
       if Violation.is_red_flag violation
       then ScoreBreakdown.red_flag_count breakdown + 1
       else ScoreBreakdown.red_flag_count breakdown;
     ScoreBreakdown.final_score := ScoreBreakdown.final_score breakdown |}.

Definition get_score_breakdown (self : t) (violations : list Violation.t)
  : ScoreBreakdown.t :=
  let breakdown :=
    {| ScoreBreakdown.baseline_score := baseline_score self;
       ScoreBreakdown.total_deductions := 0;
       ScoreBreakdown.violations_by_rule := [];
       ScoreBreakdown.red_flag_count := 0;
       ScoreBreakdown.final_score := baseline_score self |} in
  let breakdown := fold_left breakdown_step violations breakdown in
  let total_deductions := sum_points violations in
  {| ScoreBreakdown.baseline_score := ScoreBreakdown.baseline_score breakdown;
     ScoreBreakdown.total_deductions := total_deductions;
     ScoreBreakdown.violations_by_rule :=
       ScoreBreakdown.violations_by_rule breakdown;
     ScoreBreakdown.red_flag_count := ScoreBreakdown.red_flag_count breakdown;
     ScoreBreakdown.final_score :=
       Z.max (baseline_score self - total_deductions) (min_score self) |}.

End ScoreCalculator.

(* ------------------------------------------------------------------ *)
(** ** threshold_classifier.py *)

Module ThresholdClassifier.

(** The two dictionaries of bands, in insertion order. *)
Record t : Type := mk {
  file_bands : list (string * (Z * Z));
  function_bands : list (string * (Z * Z)) }.

Definition __init__ : t :=
  {| file_bands := [ ("Healthy", (80, 100));
                     ("Caution", (60, 79));
                     ("High Friction", (40, 59));
                     ("Refactor First", (0, 39)) ];
     function_bands := [ ("Easy", (75, 100));
                         ("Testable", (55, 74));
                         ("Hard", (35, 54));
                         ("Painful", (0, 34)) ] |}.

(** [for band_name, (min_score, max_score) in bands.items():
       if min_score <= score <= max_score: return band_name]. *)
Definition classify (bands : list (string * (Z * Z))) (score : Z) : string :=
  match find (fun band => let '(_, (min_score, max_score)) := band in
                          (min_score <=? score) && (score <=? max_score))
             bands with
  | Some (band_name, _) => band_name
  | None => "Unknown"
  end.

Definition classify_file_score (self : t) (score : Z) : string :=
  classify (file_bands self) score.

Definition classify_function_score (self : t) (score : Z) : string :=
  classify (function_bands self) score.

(** [self.red_flag_rules], the set that [__init__] assigns and that nothing
    changes afterwards. *)
Definition red_flag_rules (self : t) : list string :=
  [ "Constructor Side Effects";
    "Global State Mutation";
    "Non-Deterministic Time Usage";
    "Mixed I/O and Logic";
    "Exception-Driven Control Flow" ].

Definition file_recommendations : Dict.t (list string) :=
  [
    ("Healthy",
      [ "Maintain current testability practices";
        "Consider adding more unit tests for edge cases";
        "Document any complex business logic" ]);
    ("Caution",
      [ "Review functions with low scores for refactoring opportunities";
        "Extract complex logic into separate, testable functions";
        "Reduce dependencies on external systems";
        "Add comprehensive unit tests" ]);
    ("High Friction",
      [ "Prioritize refactoring of functions with red flags";
        "Break down large functions into smaller, focused ones";
        "Eliminate global state mutations";
        "Separate I/O operations from business logic";
        "Consider dependency injection for better testability" ]);
    ("Refactor First",
      [ "Major refactoring required before adding new features";
        "Focus on eliminating structural red flags first";
        "Consider rewriting complex functions from scratch";
        "Implement comprehensive integration tests";
        "Establish testability guidelines for the team" ]) ].

Definition function_recommendations : Dict.t (list string) :=
  [
    ("Easy",
      [ "Function is well-structured and testable";
        "Add edge case tests if not already present" ]);
    ("Testable",
      [ "Consider reducing parameter count if > 5";
        "Extract any remaining complex logic";
        "Add more comprehensive test coverage" ]);
    ("Hard",
      [ "Refactor to reduce complexity";
        "Eliminate side effects and global state usage";
        "Separate concerns (I/O vs logic)";
        "Reduce branching complexity" ]);
    ("Painful",
      [ "Complete rewrite recommended";
        "Break into multiple smaller functions";
        "Eliminate all non-deterministic behavior";
        "Remove all side effects from business logic" ]) ].

(** [recommendations.get(band, ["No specific recommendations available"])]. *)
Definition get_file_recommendations (self : t) (band : string) : list string :=
  match Dict.get band file_recommendations with
  | Some recommendations => recommendations
  | None => [ "No specific recommendations available" ]
  end.

Definition get_function_recommendations (self : t) (band : string)
  : list string :=
  match Dict.get band function_recommendations with
  | Some recommendations => recommendations
  | None => [ "No specific recommendations available" ]
  end.

(** [[v for v in violations if v.rule_name in self.red_flag_rules]]. *)
Definition detect_red_flags (self : t) (violations : list Violation.t)
  : list Violation.t :=
  filter (fun v => existsb (String.eqb (Violation.rule_name v))
                           (red_flag_rules self))
         violations.

Definition suggestions : Dict.t (list string) :=
  [
    ("External Dependency Count",
      [ "Use dependency injection to make dependencies explicit";
        "Create interfaces for external systems";
        "Mock external dependencies in tests" ]);
    ("Direct File I/O in Logic",
      [ "Separate file operations from business logic";
        "Use repository pattern for data access";
        "Pass file handles as parameters instead of opening inside functions" ]);
    ("Non-Deterministic Time Usage",
      [ "Inject time as a parameter for testing";
        "Use time abstraction layer";
        "Avoid time-based logic in business rules" ]);
    ("Randomness Usage",
      [ "Inject random number generator as parameter";
        "Use deterministic seeds for testing";
        "Separate random logic from business logic" ]);
    ("Global State Mutation",
      [ "Use dependency injection instead of globals";
        "Create stateless functions when possible";
        "Encapsulate state in objects with clear interfaces" ]);
    ("Mixed I/O and Logic",
      [ "Separate I/O operations from business logic";
        "Use command/query separation pattern";
        "Create pure functions for business logic" ]);
    ("Branch Explosion Risk",
      [ "Extract complex conditions into separate functions";
        "Use strategy pattern for complex branching";
        "Consider lookup tables instead of complex conditionals" ]);
    ("Exception-Driven Control Flow",
      [ "Use return values or status codes instead of exceptions";
        "Validate inputs before processing";
        "Handle expected errors without exceptions" ]);
    ("Constructor Side Effects",
      [ "Move side effects to separate methods";
        "Use factory pattern for complex initialization";
        "Keep constructors simple and focused" ]);
    ("Hidden Dependencies via Imports-in-Function",
      [ "Move imports to module level";
        "Document all dependencies explicitly";
        "Use dependency injection for better testability" ]);
    ("Excessive Parameter Count",
      [ "Group related parameters into objects";
        "Use configuration objects for many options";
        "Consider method chaining for complex operations" ]);
    ("Low Observability",
      [ "Add meaningful return values";
        "Include logging for important operations";
        "Add assertions for critical invariants";
        "Make side effects explicit and observable" ]) ].

(** One iteration of the loop of [get_refactoring_suggestions]:
    [suggestions.get(violation.rule_name, [])], kept when it is not empty. *)
Definition suggest (result : Dict.t (list string)) (violation : Violation.t)
  : Dict.t (list string) :=
  let rule_suggestions :=
    match Dict.get (Violation.rule_name violation) suggestions with
    | Some l => l
    | None => []
    end in
  match rule_suggestions with
  | [] => result
  | _ :: _ => Dict.set (Violation.rule_name violation) rule_suggestions result
  end.

Definition get_refactoring_suggestions (self : t)
    (violations : list Violation.t) : Dict.t (list string) :=
  fold_left suggest violations [].

End ThresholdClassifier.

(* ------------------------------------------------------------------ *)
(** ** ast_utils.py: the analysis context and the parser front *)

Module AnalysisContext.
Record t : Type := mk {
  imports : list string;
  global_variables : list string;
  functions : list string;
  classes : list string;
  current_function : option string;
  current_class : option string }.

Definition empty : t := mk [] [] [] [] None None.
End AnalysisContext.

(** [s.add(x)] on a set kept as a duplicate-free list. *)
Definition set_add (x : string) (s : list string) : list string :=
  if existsb (String.eqb x) s then s else s ++ [x].

Module ASTVisitor.
Import AnalysisContext.

Definition add_import (m : string) (c : t) : t :=
  mk (set_add m (imports c)) (global_variables c) (functions c) (classes c)
     (current_function c) (current_class c).
Definition add_global (g : string) (c : t) : t :=
  mk (imports c) (set_add g (global_variables c)) (functions c) (classes c)
     (current_function c) (current_class c).
Definition append_function (f : string) (c : t) : t :=
  mk (imports c) (global_variables c) (functions c ++ [f]) (classes c)
     (current_function c) (current_class c).
Definition append_class (k : string) (c : t) : t :=
  mk (imports c) (global_variables c) (functions c) (classes c ++ [k])
     (current_function c) (current_class c).
Definition set_current_function (f : option string) (c : t) : t :=
  mk (imports c) (global_variables c) (functions c) (classes c)
     f (current_class c).
Definition set_current_class (k : option string) (c : t) : t :=
  mk (imports c) (global_variables c) (functions c) (classes c)
     (current_function c) k.

(** The classes for which [getattr(self, 'visit_' + class name, ...)]
    finds a method: those of the methods that ASTVisitor defines, and
    Constant, whose [visit_Constant] NodeVisitor defines itself. *)
Definition has_visit_method (c : ast_class) : bool :=
  match c with
  | Import | ImportFrom | FunctionDef | AsyncFunctionDef | ClassDef
  | Global | Name | Try | ExceptHandler => true
  | Other class_name =>
      existsb (String.eqb class_name)
              [ "ListComp"; "SetComp"; "DictComp"; "GeneratorExp"; "Lambda";
                "With"; "AsyncWith"; "Constant" ]
  | _ => false
  end.

(** The statements of [visit_<Class>] before its call of [generic_visit].
    [visit_Name], [_visit_decorator] and the methods of the comprehensions,
    [Lambda], [Try], [ExceptHandler], [With] and [AsyncWith] leave the
    context as it is. *)
Definition enter (node : AST) (context : t) : t :=
  match cls node with
  | Import =>
      fold_left (fun ctx a => add_import (Ast.name a) ctx)
                (field "names" node) context
  | ImportFrom =>
      match ident node with
      | Some m => if String.eqb m "" then context
                  else add_import m context
      | None => context
      end
  | FunctionDef | AsyncFunctionDef =>
      set_current_function
        (Some (Ast.name node))
        (append_function (Ast.name node) context)
  | ClassDef =>
      set_current_class
        (Some (Ast.name node))
        (append_class (Ast.name node) context)
  | Global =>
      fold_left (fun ctx g => add_global g ctx) (idents node) context
  | _ => context
  end.

(** The statements of [visit_<Class>] after its call of [generic_visit]:
    [old_function] and [old_class] are read from the context that the
    method was called with. *)
Definition leave (node : AST) (before after : t) : t :=
  match cls node with
  | FunctionDef | AsyncFunctionDef =>
      set_current_function (current_function before) after
  | ClassDef =>
      set_current_class (current_class before) after
  | _ => after
  end.

(** The three Python functions that call each other during a visit. *)
Inductive method : Type :=
| visit_ | visit_Class | generic_visit.

(** A call of [method] on [node] when the interpreter's recursion limit
    leaves room for [frames] more frames: every call takes one, and a call
    for which none is left raises RecursionError.
<<
    def visit(self, node):
        method = 'visit_' + node.__class__.__name__
        visitor = getattr(self, method, self.generic_visit)
        return visitor(node)

    def generic_visit(self, node):
        for field, value in iter_fields(node):
            if isinstance(value, list):
                for item in value:
                    if isinstance(item, AST):
                        self.visit(item)
            elif isinstance(value, AST):
                self.visit(value)
>>
    [iter_fields] is a generator, so that [generic_visit] needs one more
    frame for it even on a node without children.  The other calls of the
    methods ([_visit_decorator], [set.add], [list.append]) need no more
    than one frame and come before a call of [generic_visit], which needs
    two, so that they raise only where [generic_visit] would.  (The methods
    of NodeVisitor are those of CPython 3.8 to 3.13.) *)
Fixpoint call (frames : nat) (m : method) (node : AST) (context : t)
  : result t :=
  match frames with
  | O => Raise RecursionError
  | S frames =>
      match m with
      | visit_ =>
          if has_visit_method (cls node)
          then call frames visit_Class node context
          else call frames generic_visit node context
      | visit_Class =>
          after <- call frames generic_visit node (enter node context);;
          Ok (leave node context after)
      | generic_visit =>
          match frames with
          | O => Raise RecursionError
          | S _ =>
              for_each (fun context item => call frames visit_ item context)
                       (iter_child_nodes node) context
          end
      end
  end.

(** [visitor.visit(node)]. *)
Definition visit (frames : nat) (node : AST) (context : t) : result t :=
  call frames visit_ node context.

End ASTVisitor.

(** [build_context(tree)]:
<<
    visitor = ASTVisitor()
    visitor.visit(tree)
    return visitor.context
>>
    [frames] is the number of frames that the recursion limit leaves to
    [visitor.visit(tree)] and the calls below it.  The visit is the only
    recursion of the analyzer on the tree: the rules and the analyzer read
    the tree through [ast.walk], which keeps a queue. *)
Definition build_context (frames : nat) (tree : AST)
  : result AnalysisContext.t :=
  ASTVisitor.visit frames tree AnalysisContext.empty.

(** What opening, reading and parsing a path does: the outside world maps a
    path to the parsed tree or to the exception that [open], [file.read] or
    [ast.parse] raises. *)
Definition world : Type := string -> result AST.

(** [parse_file]: [except (SyntaxError, UnicodeDecodeError)] prints a
    warning and returns [None]; any other exception propagates. *)
Definition parse_file (w : world) (file_path : string) : result (option AST) :=
  match w file_path with
  | Ok tree => Ok (Some tree)
  | Raise SyntaxError | Raise UnicodeDecodeError => Ok None
  | Raise e => Raise e
  end.

(* ------------------------------------------------------------------ *)
(** ** rules/: the rule interface and the rules *)

Module TestabilityRule.
(** The abstract base class of base.py: a name, a penalty and
    [evaluate(node, context)]. *)
Record t : Type := mk {
  rule_name : string;
  penalty_points : Z;
  evaluate : AST -> AnalysisContext.t -> result (list Violation.t) }.
End TestabilityRule.

Definition string_in (s : string) (l : list string) : bool :=
  existsb (String.eqb s) l.

(** [str(n)] of an integer. *)
Definition str_of_Z (z : Z) : string :=
  DecimalString.NilZero.string_of_int (Z.to_int z).

(** *** The names of the [ast] module

    A rule that writes [ast.X] looks [X] up in the module at that moment;
    a name the module does not define raises AttributeError.  The table is
    that of CPython 3.10 and later for the names the rules mention:
    there is no class [AsyncWhile] in any version. *)
Definition namespace : Type := string -> option ast_class.

Definition ast_module : namespace := fun attr =>
  match find (fun p => String.eqb (fst p) attr)
             [ ("Module", Module); ("FunctionDef", FunctionDef);
               ("AsyncFunctionDef", AsyncFunctionDef); ("ClassDef", ClassDef);
               ("If", If); ("For", For); ("AsyncFor", AsyncFor);
               ("While", While); ("Try", Try); ("IfExp", IfExp);
               ("Match", Match); ("match_case", match_case);
               ("ExceptHandler", ExceptHandler); ("Import", Import);
               ("ImportFrom", ImportFrom); ("alias", alias);
               ("Global", Global); ("Call", Call); ("Name", Name);
               ("Attribute", Attribute); ("Assign", Assign) ] with
  | Some p => Some (snd p)
  | None => None
  end.

Definition getattr (ast : namespace) (attr : string) : result ast_class :=
  match ast attr with
  | Some c => Ok c
  | None => Raise AttributeError
  end.

Definition hasattr (ast : namespace) (attr : string) : bool :=
  match ast attr with Some _ => true | None => false end.

(** The [ast] module with one more name, [AsyncWhile], for a class that no
    parsed node belongs to: what [branch_explosion_rule.py] takes the module
    to be. *)
Definition ast_module_with_AsyncWhile : namespace := fun attr =>
  if String.eqb attr "AsyncWhile" then Some (Other "AsyncWhile")
  else ast_module attr.

(** *** branch_explosion_rule.py *)
Module BranchExplosionRule.

Definition rule_name : string := "Branch Explosion Risk".
Definition penalty_points : Z := 2.
Definition _branch_threshold : Z := 3.

(** One iteration of the loop of [_count_branches]; the names of the
    [ast] module are looked up as the [if]/[elif] chain reaches them. *)
Definition count_child (ast : namespace) (branch_count : Z) (child : AST)
  : result Z :=
  c_If <- getattr ast "If";;
  if isinstance child [c_If] then
    let elifs := filter (fun elif_node => isinstance elif_node [c_If])
                        (field "orelse" child) in
    Ok (branch_count + 1 + Z.of_nat (List.length elifs))
  else
    c_For <- getattr ast "For";;
    c_AsyncFor <- getattr ast "AsyncFor";;
    if isinstance child [c_For; c_AsyncFor] then Ok (branch_count + 1)
    else
      c_While <- getattr ast "While";;
      c_AsyncWhile <- getattr ast "AsyncWhile";;
      if isinstance child [c_While; c_AsyncWhile] then Ok (branch_count + 1)
      else
        c_Try <- getattr ast "Try";;
        if isinstance child [c_Try] then
          Ok (branch_count + 1 + Z.of_nat (List.length (field "handlers" child)))
        else
          c_IfExp <- getattr ast "IfExp";;
          if isinstance child [c_IfExp] then Ok (branch_count + 1)
          else if hasattr ast "Match" then
            c_Match <- getattr ast "Match";;
            if isinstance child [c_Match] then
              Ok (branch_count + 1 + Z.of_nat (List.length (field "cases" child)))
            else Ok branch_count
          else Ok branch_count.

Definition _count_branches (ast : namespace) (node : AST) : result Z :=
  for_each (count_child ast) (walk node) 0.

Definition evaluate_in (ast : namespace) (node : AST)
    (context : AnalysisContext.t) : result (list Violation.t) :=
  c_FunctionDef <- getattr ast "FunctionDef";;
  c_AsyncFunctionDef <- getattr ast "AsyncFunctionDef";;
  if negb (isinstance node [c_FunctionDef; c_AsyncFunctionDef]) then Ok []
  else
    branch_count <- _count_branches ast node;;
    if _branch_threshold <? branch_count then
      let excess_branches := branch_count - _branch_threshold in
      let total_penalty := excess_branches * penalty_points in
      Ok [ {| Violation.rule_name := rule_name;
              Violation.description :=
                ("Excessive branching: " ++ str_of_Z branch_count
                 ++ " branches (threshold: " ++ str_of_Z _branch_threshold
                 ++ ")")%string;
              Violation.points_deducted := total_penalty;
              Violation.line_number := lineno node;
              Violation.function_name := Ast.name node;
              Violation.is_red_flag := false |} ]
    else Ok [].

Definition evaluate := evaluate_in ast_module.

Definition rule : TestabilityRule.t :=
  TestabilityRule.mk rule_name penalty_points evaluate.

End BranchExplosionRule.

(** *** hidden_imports_rule.py *)
Module HiddenImportsRule.

Definition rule_name : string :=
  "Hidden Dependencies via Imports-in-Function".
Definition penalty_points : Z := 5.

Definition _allowed_imports : list string :=
  [ "typing"; "collections"; "itertools"; "functools";
    "datetime"; "re"; "json"; "csv"; "math"; "random" ].

Definition external_indicators : list string :=
  [ "requests"; "numpy"; "pandas"; "scipy"; "matplotlib";
    "flask"; "django"; "fastapi"; "sqlalchemy"; "pytest";
    "click"; "black"; "pylint"; "mypy"; "setuptools" ].

(** [module_name.split('.')[0]]. *)
Fixpoint top_level_of (module_name : string) : string :=
  match module_name with
  | EmptyString => EmptyString
  | String c rest =>
      if Ascii.eqb c "."%char then EmptyString
      else String c (top_level_of rest)
  end.

Definition _is_external_dependency (module_name : string) : bool :=
  let top_level := top_level_of module_name in
  if string_in top_level _allowed_imports then false
  else string_in top_level external_indicators.

Definition _is_problematic_import (import_node : AST) : bool :=
  if isinstance import_node [Import] then
    existsb (fun a => _is_external_dependency (Ast.name a))
            (field "names" import_node)
  else if isinstance import_node [ImportFrom] then
    match ident import_node with
    | Some module_name =>
        negb (String.eqb module_name "")
        && _is_external_dependency module_name
    | None => false
    end
  else false.

Definition violation (node child : AST) : Violation.t :=
  {| Violation.rule_name := rule_name;
     Violation.description := "Hidden dependency via import inside function";
     Violation.points_deducted := penalty_points;
     Violation.line_number := lineno child;
     Violation.function_name := Ast.name node;
     Violation.is_red_flag := false |}.

(** The loop stops at the first problematic import ([break]). *)
Definition evaluate (node : AST) (context : AnalysisContext.t)
  : result (list Violation.t) :=
  if negb (isinstance node [FunctionDef; AsyncFunctionDef]) then Ok []
  else
    match find (fun child => isinstance child [Import; ImportFrom]
                             && _is_problematic_import child)
               (walk node) with
    | Some child => Ok [violation node child]
    | None => Ok []
    end.

Definition rule : TestabilityRule.t :=
  TestabilityRule.mk rule_name penalty_points evaluate.

End HiddenImportsRule.

(** *** constructor_side_effects_rule.py *)
Module ConstructorSideEffectsRule.

Definition rule_name : string := "Constructor Side Effects".
Definition penalty_points : Z := 15.

Definition file_ops := [ "open"; "write"; "read"; "remove"; "mkdir" ].
Definition network_ops := [ "connect"; "send"; "receive"; "request" ].
Definition db_ops := [ "execute"; "commit"; "cursor"; "connect" ].
Definition process_ops := [ "start"; "stop"; "kill"; "run" ].
Definition thread_ops := [ "start"; "join"; "lock"; "acquire" ].
Definition global_state := [ "register"; "unregister"; "update"; "modify" ].

Definition _side_effect_modules : list string :=
  [ "os"; "pathlib"; "shutil"; "requests"; "urllib"; "socket";
    "sqlite3"; "psycopg2"; "mysql"; "threading"; "multiprocessing";
    "logging"; "subprocess"; "sys" ].

Definition side_effect_methods : list string :=
  [ "open"; "write"; "read"; "connect"; "start"; "stop";
    "register"; "unregister"; "update"; "modify"; "execute";
    "commit"; "cursor"; "send"; "receive" ].

Definition _contains_side_effect_operation (node : AST) : bool :=
  (* function calls that might have side effects *)
  (isinstance node [Call]
   && match child "func" node with
      | Some func =>
          if isinstance func [Name] then
            string_in (Ast.name func) file_ops
            || string_in (Ast.name func) network_ops
            || string_in (Ast.name func) db_ops
            || string_in (Ast.name func) process_ops
            || string_in (Ast.name func) thread_ops
            || string_in (Ast.name func) global_state
          else if isinstance func [Attribute] then
            match child "value" func with
            | Some value =>
                isinstance value [Name]
                && (let module_name := Ast.name value in
                    let method_name := Ast.name func in
                    string_in module_name _side_effect_modules
                    || string_in method_name side_effect_methods)
            | None => false
            end
          else false
      | None => false
      end)
  (* assignments to global state *)
  || (isinstance node [Assign]
      && existsb
           (fun target =>
              isinstance target [Attribute]
              && match child "value" target with
                 | Some value =>
                     isinstance value [Name]
                     && string_in (Ast.name value)
                          [ "registry"; "cache"; "pool"; "manager"; "globals" ]
                 | None => false
                 end)
           (field "targets" node))
  (* imports in __init__ *)
  || isinstance node [Import; ImportFrom]
  (* thread/process creation *)
  || (isinstance node [Call]
      && match child "func" node with
         | Some func =>
             isinstance func [Name]
             && string_in (Ast.name func)
                  [ "Thread"; "Process"; "Pool"; "Lock"; "Semaphore" ]
         | None => false
         end).

Definition _has_constructor_side_effects (init_method : AST) : bool :=
  existsb _contains_side_effect_operation (walk init_method).

(** The test of the loop that looks for the [__init__] method. *)
Definition is_init (item : AST) : bool :=
  isinstance item [FunctionDef] && String.eqb (Ast.name item) "__init__".

Definition evaluate (node : AST) (context : AnalysisContext.t)
  : result (list Violation.t) :=
  if negb (isinstance node [ClassDef]) then Ok []
  else
    match find is_init (field "body" node) with
    | Some init_method =>
        if _has_constructor_side_effects init_method then
          Ok [ {| Violation.rule_name := rule_name;
                  Violation.description :=
                    "Constructor has side effects that make testing difficult";
                  Violation.points_deducted := penalty_points;
                  Violation.line_number := lineno init_method;
                  Violation.function_name := (Ast.name node ++ ".__init__")%string;
                  Violation.is_red_flag := true |} ]
        else Ok []
    | None => Ok []
    end.

Definition rule : TestabilityRule.t :=
  TestabilityRule.mk rule_name penalty_points evaluate.

End ConstructorSideEffectsRule.

(** *** time_usage_rule.py *)
Module TimeUsageRule.

Definition rule_name : string := "Non-Deterministic Time Usage".
Definition penalty_points : Z := 10.

Definition _time_functions : list string :=
  [ "time.time"; "time.sleep"; "time.monotonic"; "time.perf_counter";
    "time.process_time"; "time.thread_time"; "time.time_ns";
    "datetime.now"; "datetime.today"; "datetime.utcnow";
    "datetime.timestamp"; "date.today"; "datetime.datetime.now";
    "datetime.datetime.today"; "datetime.datetime.utcnow" ].

Definition _time_modules : list string := [ "time"; "datetime"; "date" ].

(** The test of the second loop of [_contains_time_operation]. *)
Definition imports_time_module (c : AST) : bool :=
  if isinstance c [Import] then
    existsb (fun a => string_in (Ast.name a) _time_modules) (field "names" c)
  else if isinstance c [ImportFrom] then
    match ident c with
    | Some m => negb (String.eqb m "") && string_in m _time_modules
    | None => false
    end
  else false.

Definition _contains_time_operation (node : AST) : bool :=
  (isinstance node [Call]
   && match child "func" node with
      | Some func =>
          if isinstance func [Name] then
            string_in (Ast.name func) _time_functions
          else if isinstance func [Attribute] then
            match child "value" func with
            | Some value =>
                if isinstance value [Name] then
                  let module_name := Ast.name value in
                  let method_name := Ast.name func in
                  string_in module_name _time_modules
                  && string_in (module_name ++ "." ++ method_name)%string
                               _time_functions
                else if isinstance value [Attribute] then
                  match child "value" value with
                  | Some inner =>
                      isinstance inner [Name]
                      && (let module_name := Ast.name inner in
                          let class_name := Ast.name value in
                          let method_name := Ast.name func in
                          string_in module_name _time_modules
                          && string_in (module_name ++ "." ++ class_name
                                        ++ "." ++ method_name)%string
                                       _time_functions)
                  | None => false
                  end
                else false
            | None => false
            end
          else false
      | None => false
      end)
  (* time module imports below the node *)
  || existsb imports_time_module (walk node).

Definition evaluate (node : AST) (context : AnalysisContext.t)
  : result (list Violation.t) :=
  if negb (isinstance node [FunctionDef; AsyncFunctionDef]) then Ok []
  else
    match find _contains_time_operation (walk node) with
    | Some c =>
        Ok [ {| Violation.rule_name := rule_name;
                Violation.description :=
                  "Non-deterministic time usage makes testing difficult";
                Violation.points_deducted := penalty_points;
                Violation.line_number := getattr_lineno c (lineno node);
                Violation.function_name := Ast.name node;
                Violation.is_red_flag := true |} ]
    | None => Ok []
    end.

Definition rule : TestabilityRule.t :=
  TestabilityRule.mk rule_name penalty_points evaluate.

End TimeUsageRule.

(** *** external_dependency_rule.py *)
Module ExternalDependencyRule.

Definition rule_name : string := "External Dependency Count".
Definition penalty_points : Z := 5.

(** [sub in s] on strings. *)
Fixpoint is_substring (sub s : string) : bool :=
  String.prefix sub s
  || match s with
     | EmptyString => false
     | String _ rest => is_substring sub rest
     end.

(** [_dependency_types], in insertion order: the key with
    [.replace('_', ' ').title()] applied, its functions and its modules. *)
Definition _dependency_types : list (string * (list string * list string)) :=
  [ ("File System",
     ([ "open"; "read"; "write"; "remove"; "mkdir"; "rmdir"; "exists";
        "isfile"; "isdir" ],
      [ "os"; "pathlib"; "shutil" ]));
    ("Environment", ([ "getenv"; "environ" ], [ "os" ]));
    ("Network",
     ([ "requests"; "urlopen"; "urllib.request"; "socket"; "connect" ],
      [ "requests"; "urllib"; "socket"; "http"; "https" ]));
    ("Os Level",
     ([ "subprocess"; "system"; "exec"; "popen" ],
      [ "subprocess"; "os"; "sys" ]));
    ("Singletons",
     ([ "getInstance"; "instance"; "current" ],
      [ "logging"; "threading"; "multiprocessing" ])) ].

(** A Call node built by [ast.parse] has no [import_context] attribute, so
    the first test of the source never returns. *)
Definition _classify_dependency (call_node : AST) : option string :=
  match child "func" call_node with
  | Some func =>
      if isinstance func [Name] then
        let func_name := Ast.name func in
        option_map fst
          (find (fun entry =>
                   let '(_, (functions, modules)) := entry in
                   string_in func_name functions
                   || existsb (fun module => is_substring module func_name)
                              modules)
                _dependency_types)
      else if isinstance func [Attribute] then
        match child "value" func with
        | Some value =>
            if isinstance value [Name] then
              let module_name := Ast.name value in
              option_map fst
                (find (fun entry =>
                         let '(_, (_, modules)) := entry in
                         string_in module_name modules)
                      _dependency_types)
            else None
        | None => None
        end
      else None
  | None => None
  end.

(** [detected_types]: the set of categories, kept in the order of first
    detection (Python leaves the order of a set unspecified). *)
Definition detect (detected : list string) (child : AST) : list string :=
  if isinstance child [Call] then
    match _classify_dependency child with
    | Some dep_type =>
        if String.eqb dep_type "" then detected
        else set_add dep_type detected
    | None => detected
    end
  else detected.

Definition detected_types (node : AST) : list string :=
  fold_left detect (walk node) [].

Definition violation (node : AST) (dep_type : string) : Violation.t :=
  {| Violation.rule_name := rule_name;
     Violation.description := ("External dependency: " ++ dep_type)%string;
     Violation.points_deducted := penalty_points;
     Violation.line_number := lineno node;
     Violation.function_name := Ast.name node;
     Violation.is_red_flag := false |}.

Definition evaluate (node : AST) (context : AnalysisContext.t)
  : result (list Violation.t) :=
  if negb (isinstance node [FunctionDef; AsyncFunctionDef]) then Ok []
  else Ok (map (violation node) (detected_types node)).

Definition rule : TestabilityRule.t :=
  TestabilityRule.mk rule_name penalty_points evaluate.

End ExternalDependencyRule.

(** *** The remaining rule classes

    file_io_rule.py, randomness_rule.py, global_state_rule.py,
    mixed_io_logic_rule.py, exception_control_flow_rule.py,
    parameter_count_rule.py and observability_rule.py.  Their names and
    penalties are those of the
    source; their [evaluate] methods, which nothing below looks into, are
    the fields of [rule_bodies]. *)
Definition evaluator : Type :=
  AST -> AnalysisContext.t -> result (list Violation.t).

Record rule_bodies : Type := {
  FileIORule_evaluate : evaluator;
  RandomnessRule_evaluate : evaluator;
  GlobalStateRule_evaluate : evaluator;
  MixedIOLogicRule_evaluate : evaluator;
  ExceptionControlFlowRule_evaluate : evaluator;
  ParameterCountRule_evaluate : evaluator;
  ObservabilityRule_evaluate : evaluator }.

Section RuleClasses.
Variable bodies : rule_bodies.

Definition FileIORule : TestabilityRule.t :=
  TestabilityRule.mk "Direct File I/O in Logic" 10
                     (FileIORule_evaluate bodies).
Definition RandomnessRule : TestabilityRule.t :=
  TestabilityRule.mk "Randomness Usage" 10 (RandomnessRule_evaluate bodies).
Definition GlobalStateRule : TestabilityRule.t :=
  TestabilityRule.mk "Global State Mutation" 10
                     (GlobalStateRule_evaluate bodies).
Definition MixedIOLogicRule : TestabilityRule.t :=
  TestabilityRule.mk "Mixed I/O and Logic" 8
                     (MixedIOLogicRule_evaluate bodies).
Definition ExceptionControlFlowRule : TestabilityRule.t :=
  TestabilityRule.mk "Exception-Driven Control Flow" 5
                     (ExceptionControlFlowRule_evaluate bodies).
Definition ParameterCountRule : TestabilityRule.t :=
  TestabilityRule.mk "Excessive Parameter Count" 5
                     (ParameterCountRule_evaluate bodies).
Definition ObservabilityRule : TestabilityRule.t :=
  TestabilityRule.mk "Low Observability" 5 (ObservabilityRule_evaluate bodies).
End RuleClasses.

(** *** String methods that the rules and file_utils.py call

    A Python [str] is the string of its UTF-8 bytes. *)
Module Str.

Definition lower_ascii (c : ascii) : ascii :=
  let n := nat_of_ascii c in
  if ((65 <=? n) && (n <=? 90))%nat then ascii_of_nat (n + 32) else c.

(** [s.lower()], as far as the ASCII characters of the result go: an ASCII
    capital becomes its small letter; U+0130 (bytes 196 176) becomes [i]
    followed by U+0307 (bytes 204 135) and U+212A (bytes 226 132 170)
    becomes [k]: these are the only two characters outside ASCII whose
    lowercase holds an ASCII character.  Every other character outside
    ASCII lowercases to characters outside ASCII, and its bytes are left as
    they are: the callers only compare the result with ASCII strings. *)
Fixpoint lower (s : string) : string :=
  match s with
  | EmptyString => EmptyString
  | String c1 rest1 =>
      match rest1 with
      | String c2 rest2 =>
          if Ascii.eqb c1 "196" && Ascii.eqb c2 "176"
          then String "i" (String "204" (String "135" (lower rest2)))
          else
            match rest2 with
            | String c3 rest3 =>
                if Ascii.eqb c1 "226" && Ascii.eqb c2 "132"
                   && Ascii.eqb c3 "170"
                then String "k" (lower rest3)
                else String (lower_ascii c1) (lower rest1)
            | EmptyString => String (lower_ascii c1) (lower rest1)
            end
      | EmptyString => String (lower_ascii c1) EmptyString
      end
  end.

(** The characters of the class [a-z0-9]. *)
Definition is_token_char (c : ascii) : bool :=
  let n := nat_of_ascii c in
  (((97 <=? n) && (n <=? 122)) || ((48 <=? n) && (n <=? 57)))%nat.

(** [[t for t in re.split(r"[^a-z0-9]+", s) if t]]: the maximal runs of
    characters of [a-z0-9]; [token] is the run being read. *)
Fixpoint tokens_from (s : string) (token : string) : list string :=
  match s with
  | EmptyString => if String.eqb token "" then [] else [token]
  | String c rest =>
      if is_token_char c then tokens_from rest (token ++ String c "")%string
      else (if String.eqb token "" then [] else [token])
           ++ tokens_from rest ""
  end.

Definition tokens (s : string) : list string := tokens_from s "".

(** [sub in s]. *)
Definition contains (s sub : string) : bool :=
  ExternalDependencyRule.is_substring sub s.

End Str.

(** *** file_io_rule.py *)
Module FileIO.

Definition rule_name : string := "Direct File I/O in Logic".
Definition penalty_points : Z := 10.

Definition _io_functions : list string :=
  [ "open"; "read"; "write"; "close"; "seek"; "tell";
    "remove"; "mkdir"; "rmdir"; "exists"; "isfile"; "isdir";
    "listdir"; "scandir"; "walk"; "glob"; "rglob" ].

Definition _io_modules : list string :=
  [ "os"; "pathlib"; "shutil"; "io"; "tempfile" ].

Definition _io_classes : list string :=
  [ "Path"; "PurePath"; "PosixPath"; "WindowsPath";
    "FileIO"; "TextIOWrapper"; "BufferedReader"; "BufferedWriter";
    "TemporaryFile"; "NamedTemporaryFile" ].

Definition io_indicators : list string :=
  [ "read"; "write"; "file"; "dir"; "path"; "io"; "temp" ].

Definition _is_io_function_name (function_name : string) : bool :=
  let name := Str.lower function_name in
  let tokens := Str.tokens name in
  existsb (fun indicator => string_in indicator tokens) io_indicators.

Definition _contains_io_operation (node : AST) : bool :=
  (* direct I/O function calls *)
  (isinstance node [Call]
   && match child "func" node with
      | Some func =>
          if isinstance func [Name] then
            string_in (Ast.name func) _io_functions
          else if isinstance func [Attribute] then
            match child "value" func with
            | Some value =>
                isinstance value [Name]
                && string_in (Ast.name value) _io_classes
            | None => false
            end
          else false
      | None => false
      end)
  (* I/O module usage below the node *)
  || existsb (fun child => isinstance child [Name]
                           && string_in (Ast.name child) _io_modules)
             (walk node).

Definition violation (node child : AST) : Violation.t :=
  {| Violation.rule_name := rule_name;
     Violation.description := "Direct file I/O in business logic";
     Violation.points_deducted := penalty_points;
     Violation.line_number := getattr_lineno child (lineno node);
     Violation.function_name := Ast.name node;
     Violation.is_red_flag := false |}.

Definition evaluate (node : AST) (context : AnalysisContext.t)
  : result (list Violation.t) :=
  if negb (isinstance node [FunctionDef; AsyncFunctionDef]) then Ok []
  else if _is_io_function_name (Ast.name node) then Ok []
  else
    match find _contains_io_operation (walk node) with
    | Some child => Ok [violation node child]
    | None => Ok []
    end.

End FileIO.

(** *** randomness_rule.py *)
Module Randomness.

Definition rule_name : string := "Randomness Usage".
Definition penalty_points : Z := 10.

Definition _random_functions : list string :=
  [ "random.random"; "random.randint"; "random.randrange"; "random.choice";
    "random.shuffle"; "random.sample"; "random.uniform"; "random.triangular";
    "random.betavariate"; "random.expovariate"; "random.gammavariate";
    "random.gauss"; "random.lognormvariate"; "random.normalvariate";
    "random.paretovariate"; "random.vonmisesvariate"; "random.weibullvariate";
    "random.getrandbits"; "random.seed"; "random.getstate"; "random.setstate";
    "numpy.random.random"; "numpy.random.randint"; "numpy.random.rand";
    "numpy.random.randn"; "numpy.random.choice"; "numpy.random.shuffle";
    "numpy.random.uniform"; "numpy.random.normal"; "numpy.random.binomial";
    "numpy.random.poisson"; "numpy.random.exponential";
    "secrets.randbelow"; "secrets.choice"; "secrets.token_bytes";
    "secrets.token_hex"; "secrets.token_urlsafe"; "secrets.compare_digest";
    "uuid.uuid1"; "uuid.uuid3"; "uuid.uuid4"; "uuid.uuid5";
    "os.urandom"; "os.getrandom" ].

Definition _random_modules : list string :=
  [ "random"; "numpy"; "secrets"; "uuid"; "os" ].

(** The test of the second loop of [_contains_random_operation]. *)
Definition imports_random_module (c : AST) : bool :=
  if isinstance c [Import] then
    existsb (fun a => string_in (Ast.name a) _random_modules) (field "names" c)
  else if isinstance c [ImportFrom] then
    match ident c with
    | Some m => negb (String.eqb m "") && string_in m _random_modules
    | None => false
    end
  else false.

Definition _contains_random_operation (node : AST) : bool :=
  (isinstance node [Call]
   && match child "func" node with
      | Some func =>
          if isinstance func [Name] then
            string_in (Ast.name func) [ "random"; "randint"; "choice"; "shuffle" ]
          else if isinstance func [Attribute] then
            match child "value" func with
            | Some value =>
                if isinstance value [Name] then
                  let module_name := Ast.name value in
                  let method_name := Ast.name func in
                  string_in module_name _random_modules
                  && string_in (module_name ++ "." ++ method_name)%string
                               _random_functions
                else if isinstance value [Attribute] then
                  match child "value" value with
                  | Some inner =>
                      isinstance inner [Name]
                      && (let module_name := Ast.name inner in
                          let class_name := Ast.name value in
                          let method_name := Ast.name func in
                          string_in module_name _random_modules
                          && string_in (module_name ++ "." ++ class_name
                                        ++ "." ++ method_name)%string
                                       _random_functions)
                  | None => false
                  end
                else false
            | None => false
            end
          else false
      | None => false
      end)
  (* random module imports below the node *)
  || existsb imports_random_module (walk node).

Definition violation (node child : AST) : Violation.t :=
  {| Violation.rule_name := rule_name;
     Violation.description :=
       "Randomness usage makes testing non-deterministic";
     Violation.points_deducted := penalty_points;
     Violation.line_number := getattr_lineno child (lineno node);
     Violation.function_name := Ast.name node;
     Violation.is_red_flag := true |}.

Definition evaluate (node : AST) (context : AnalysisContext.t)
  : result (list Violation.t) :=
  if negb (isinstance node [FunctionDef; AsyncFunctionDef]) then Ok []
  else
    match find _contains_random_operation (walk node) with
    | Some child => Ok [violation node child]
    | None => Ok []
    end.

End Randomness.

(** *** global_state_rule.py *)
Module GlobalState.

Definition rule_name : string := "Global State Mutation".
Definition penalty_points : Z := 10.

Definition _is_global_assignment (target : AST) (context : AnalysisContext.t)
  : bool :=
  if isinstance target [Name] then
    (* a known global variable *)
    string_in (Ast.name target) (AnalysisContext.global_variables context)
    (* a module-level import *)
    || existsb (fun import_name =>
                  String.eqb (Ast.name target)
                             (HiddenImportsRule.top_level_of import_name))
               (AnalysisContext.imports context)
  else if isinstance target [Attribute] then
    match child "value" target with
    | Some value =>
        isinstance value [Name]
        && string_in (Ast.name value) [ "os"; "sys"; "config"; "settings" ]
    | None => false
    end
  else false.

Definition _contains_global_mutation (node : AST)
    (context : AnalysisContext.t) : bool :=
  (* explicit global declarations *)
  isinstance node [Global]
  (* assignments to global variables *)
  || (isinstance node [Assign]
      && existsb (fun target => _is_global_assignment target context)
                 (field "targets" node))
  (* augmented assignments to globals *)
  || (isinstance node [Other "AugAssign"]
      && match child "target" node with
         | Some target =>
             isinstance target [Name]
             && string_in (Ast.name target)
                          (AnalysisContext.global_variables context)
         | None => false
         end)
  (* attributes of objects that might be global state *)
  || (isinstance node [Attribute]
      && match child "value" node with
         | Some value =>
             isinstance value [Name]
             && string_in (Ast.name value)
                          [ "os"; "sys"; "config"; "settings"; "globals" ]
         | None => false
         end)
  (* calls that modify global state *)
  || (isinstance node [Call]
      && match child "func" node with
         | Some func =>
             isinstance func [Attribute]
             && match child "value" func with
                | Some value =>
                    isinstance value [Name]
                    && string_in (Ast.name func)
                         [ "register"; "unregister"; "update"; "set";
                           "clear"; "append"; "extend" ]
                    && string_in (Ast.name value)
                         [ "registry"; "cache"; "pool"; "manager" ]
                | None => false
                end
         | None => false
         end).

Definition violation (node child : AST) : Violation.t :=
  {| Violation.rule_name := rule_name;
     Violation.description :=
       "Global state mutation makes testing unpredictable";
     Violation.points_deducted := penalty_points;
     Violation.line_number := getattr_lineno child (lineno node);
     Violation.function_name := Ast.name node;
     Violation.is_red_flag := true |}.

Definition evaluate (node : AST) (context : AnalysisContext.t)
  : result (list Violation.t) :=
  if negb (isinstance node [FunctionDef; AsyncFunctionDef]) then Ok []
  else
    match find (fun child => _contains_global_mutation child context)
               (walk node) with
    | Some child => Ok [violation node child]
    | None => Ok []
    end.

End GlobalState.

(** *** mixed_io_logic_rule.py *)
Module MixedIOLogic.

Definition rule_name : string := "Mixed I/O and Logic".
Definition penalty_points : Z := 8.

Definition file_ops : list string :=
  [ "open"; "read"; "write"; "close"; "seek"; "tell"; "remove"; "mkdir" ].
Definition console_ops : list string := [ "print"; "input"; "raw_input" ].

Definition _io_modules : list string :=
  [ "os"; "pathlib"; "shutil"; "io"; "tempfile";
    "requests"; "urllib"; "socket"; "http"; "https";
    "sqlite3"; "psycopg2"; "mysql"; "mongodb" ].

Definition io_indicators : list string :=
  [ "read"; "write"; "open"; "close";
    "fetch"; "send"; "receive"; "connect"; "download";
    "upload"; "import"; "export"; "print"; "display" ].

Definition _is_pure_io_function (node : AST) : bool :=
  if negb (isinstance node [FunctionDef; AsyncFunctionDef]) then false
  else
    let function_name := Str.lower (Ast.name node) in
    existsb (fun indicator => Str.contains function_name indicator)
            io_indicators.

(** One iteration of the loop of [_count_io_operations]. *)
Definition count_io (io_count : Z) (child_ : AST) : Z :=
  if isinstance child_ [Call] then
    match child "func" child_ with
    | Some func =>
        if isinstance func [Name] then
          if string_in (Ast.name func) file_ops
             || string_in (Ast.name func) console_ops
          then io_count + 1 else io_count
        else if isinstance func [Attribute] then
          match child "value" func with
          | Some value =>
              if isinstance value [Name]
                 && string_in (Ast.name value) _io_modules
              then io_count + 1 else io_count
          | None => io_count
          end
        else io_count
    | None => io_count
    end
  else io_count.

Definition _count_io_operations (node : AST) : Z :=
  fold_left count_io (walk node) 0.

(** One iteration of the loop of [_count_logic_operations]. *)
Definition count_logic (logic_count : Z) (child_ : AST) : Z :=
  if isinstance child_ [If; For; While; Try] then logic_count + 1
  else if isinstance child_ [Other "BinOp"] then
    match child "op" child_ with
    | Some op =>
        if isinstance op [ Other "Add"; Other "Sub"; Other "Mult";
                           Other "Div"; Other "Mod" ]
        then logic_count + 1 else logic_count
    | None => logic_count
    end
  else if isinstance child_ [Other "Compare"] then logic_count + 1
  else if isinstance child_ [Call] then
    match child "func" child_ with
    | Some func =>
        if isinstance func [Name]
           && negb (string_in (Ast.name func) file_ops)
           && negb (string_in (Ast.name func) console_ops)
        then logic_count + 1 else logic_count
    | None => logic_count
    end
  else logic_count.

Definition _count_logic_operations (node : AST) : Z :=
  fold_left count_logic (walk node) 0.

Definition violation (node : AST) : Violation.t :=
  {| Violation.rule_name := rule_name;
     Violation.description :=
       "Mixed I/O and business logic makes testing difficult";
     Violation.points_deducted := penalty_points;
     Violation.line_number := lineno node;
     Violation.function_name := Ast.name node;
     Violation.is_red_flag := true |}.

Definition evaluate (node : AST) (context : AnalysisContext.t)
  : result (list Violation.t) :=
  if negb (isinstance node [FunctionDef; AsyncFunctionDef]) then Ok []
  else if _is_pure_io_function node then Ok []
  else
    let io_operations := _count_io_operations node in
    let logic_operations := _count_logic_operations node in
    if (0 <? io_operations) && (0 <? logic_operations)
    then Ok [violation node]
    else Ok [].

End MixedIOLogic.

(** *** exception_control_flow_rule.py *)
Module ExceptionControlFlow.

Definition rule_name : string := "Exception-Driven Control Flow".
Definition penalty_points : Z := 5.

Definition _control_flow_exceptions : list string :=
  [ "ValueError"; "TypeError"; "KeyError"; "IndexError"; "AttributeError";
    "StopIteration"; "LookupError"; "RuntimeError"; "AssertionError" ].

(** [isinstance(stmt, ast.Expr) and isinstance(stmt.value, ast.Constant)]. *)
Definition is_constant_expr (stmt : AST) : bool :=
  isinstance stmt [Other "Expr"]
  && match child "value" stmt with
     | Some value => isinstance value [Other "Constant"]
     | None => false
     end.

Definition _is_empty_except_handler (handler : AST) : bool :=
  match field "body" handler with
  | [] => true
  | body =>
      if forallb (fun stmt => isinstance stmt [Other "Pass"]
                              || is_constant_expr stmt) body
      then (0 <? Z.of_nat (List.length body))
           && forallb (fun stmt => isinstance stmt [Other "Pass"; Other "Expr"])
                      body
      else false
  end.

(** The type of a handler is a Name, or a Tuple with a Name element, whose
    identifier is in [names]. *)
Definition catches_one_of (names : list string) (type : AST) : bool :=
  (isinstance type [Name] && string_in (Ast.name type) names)
  || (isinstance type [Other "Tuple"]
      && existsb (fun elt => isinstance elt [Name]
                             && string_in (Ast.name elt) names)
                 (field "elts" type)).

Definition _is_broad_exception_handler (handler : AST) : bool :=
  match child "type" handler with
  | None => true
  | Some type => catches_one_of [ "Exception"; "BaseException" ] type
  end.

Definition _uses_control_flow_exceptions (handler : AST) : bool :=
  match child "type" handler with
  | None => false
  | Some type => catches_one_of _control_flow_exceptions type
  end.

Definition _has_exception_based_loop (try_node : AST) : bool :=
  existsb (fun handler =>
             match child "type" handler with
             | Some type => isinstance type [Name]
                            && String.eqb (Ast.name type) "StopIteration"
             | None => false
             end)
          (field "handlers" try_node)
  || (let has_loop :=
        existsb (fun stmt => isinstance stmt [For; While])
                (field "body" try_node) in
      has_loop
      && existsb (fun handler =>
                    existsb (fun stmt => isinstance stmt
                                           [Other "Break"; Other "Continue"])
                            (field "body" handler))
                 (field "handlers" try_node)).

Definition _is_exception_driven_control_flow (try_node : AST) : bool :=
  existsb _is_empty_except_handler (field "handlers" try_node)
  || existsb _is_broad_exception_handler (field "handlers" try_node)
  || existsb _uses_control_flow_exceptions (field "handlers" try_node)
  || _has_exception_based_loop try_node.

Definition violation (node child : AST) : Violation.t :=
  {| Violation.rule_name := rule_name;
     Violation.description :=
       "Exception-driven control flow makes testing difficult";
     Violation.points_deducted := penalty_points;
     Violation.line_number := lineno child;
     Violation.function_name := Ast.name node;
     Violation.is_red_flag := true |}.

Definition evaluate (node : AST) (context : AnalysisContext.t)
  : result (list Violation.t) :=
  if negb (isinstance node [FunctionDef; AsyncFunctionDef]) then Ok []
  else
    match find (fun child => isinstance child [Try]
                             && _is_exception_driven_control_flow child)
               (walk node) with
    | Some child => Ok [violation node child]
    | None => Ok []
    end.

End ExceptionControlFlow.

(** *** parameter_count_rule.py *)
Module ParameterCount.

Definition rule_name : string := "Excessive Parameter Count".
Definition penalty_points : Z := 5.
Definition _parameter_threshold : Z := 5.
Definition _self_param_exempt : bool := true.

Definition _should_ignore_parameter (param_name : string) : bool :=
  _self_param_exempt && String.eqb param_name "self".

(** [for arg in <list>: if not self._should_ignore_parameter(arg.arg):
       effective_params += 1]. *)
Definition count_list (args : list AST) (effective_params : Z) : Z :=
  fold_left (fun effective_params arg =>
               if negb (_should_ignore_parameter (Ast.name arg))
               then effective_params + 1 else effective_params)
            args effective_params.

(** [if <arg> and not self._should_ignore_parameter(<arg>.arg):
       effective_params += 1] for [vararg] and [kwarg]. *)
Definition count_optional (arg : option AST) (effective_params : Z) : Z :=
  match arg with
  | Some arg => if negb (_should_ignore_parameter (Ast.name arg))
                then effective_params + 1 else effective_params
  | None => effective_params
  end.

(** [node.args] is the [arguments] node of the definition; its [arg] nodes
    carry the parameter name as their string attribute. *)
Definition _count_effective_parameters (node : AST) : Z :=
  if negb (isinstance node [FunctionDef; AsyncFunctionDef]) then 0
  else
    match child "args" node with
    | Some args =>
        let effective_params := 0 in
        let effective_params := count_list (field "args" args) effective_params in
        let effective_params :=
          count_list (field "posonlyargs" args) effective_params in
        let effective_params :=
          count_list (field "kwonlyargs" args) effective_params in
        let effective_params :=
          count_optional (child "vararg" args) effective_params in
        count_optional (child "kwarg" args) effective_params
    | None => 0
    end.

Definition violation (node : AST) (param_count : Z) : Violation.t :=
  {| Violation.rule_name := rule_name;
     Violation.description :=
       ("Excessive parameters: " ++ str_of_Z param_count
        ++ " (threshold: " ++ str_of_Z _parameter_threshold ++ ")")%string;
     Violation.points_deducted := penalty_points;
     Violation.line_number := lineno node;
     Violation.function_name := Ast.name node;
     Violation.is_red_flag := false |}.

Definition evaluate (node : AST) (context : AnalysisContext.t)
  : result (list Violation.t) :=
  if negb (isinstance node [FunctionDef; AsyncFunctionDef]) then Ok []
  else
    let param_count := _count_effective_parameters node in
    if _parameter_threshold <? param_count
    then Ok [violation node param_count]
    else Ok [].

End ParameterCount.

(** *** observability_rule.py *)
Module Observability.

Definition rule_name : string := "Low Observability".
Definition penalty_points : Z := 5.

Definition _has_return_statements (node : AST) : bool :=
  existsb (fun child_ => isinstance child_ [Other "Return"]
                         && match child "value" child_ with
                            | Some _ => true
                            | None => false
                            end)
          (walk node).

Definition is_logging_call (child_ : AST) : bool :=
  isinstance child_ [Call]
  && match child "func" child_ with
     | Some func =>
         if isinstance func [Attribute] then
           match child "value" func with
           | Some value =>
               isinstance value [Name]
               && (let module_name := Ast.name value in
                   let method_name := Ast.name func in
                   (String.eqb module_name "logging"
                    && string_in method_name
                         [ "debug"; "info"; "warning"; "error"; "critical" ])
                   || String.eqb module_name "print")
           | None => false
           end
         else if isinstance func [Name] then
           String.eqb (Ast.name func) "print"
         else false
     | None => false
     end.

Definition _has_logging_statements (node : AST) : bool :=
  existsb is_logging_call (walk node).

Definition _has_assertions (node : AST) : bool :=
  existsb (fun child_ => isinstance child_ [Other "Assert"]) (walk node).

Definition is_observable_call (child_ : AST) : bool :=
  isinstance child_ [Call]
  && match child "func" child_ with
     | Some func =>
         if isinstance func [Name] then
           string_in (Ast.name func) [ "write"; "print"; "save"; "commit" ]
         else if isinstance func [Attribute] then
           match child "value" func with
           | Some value =>
               isinstance value [Name]
               && string_in (Ast.name func)
                    [ "write"; "save"; "commit"; "send"; "publish" ]
           | None => false
           end
         else false
     | None => false
     end.

Definition _has_observable_side_effects (node : AST) : bool :=
  existsb is_observable_call (walk node).

Definition _calculate_observability_score (node : AST) : Z :=
  let score := 0 in
  let score := if _has_return_statements node then score + 1 else score in
  let score := if _has_logging_statements node then score + 1 else score in
  let score := if _has_assertions node then score + 1 else score in
  let score :=
    if _has_observable_side_effects node then score + 1 else score in
  score.

Definition violation (node : AST) : Violation.t :=
  {| Violation.rule_name := rule_name;
     Violation.description :=
       "Low observability: function lacks return values, logging, or assertions";
     Violation.points_deducted := penalty_points;
     Violation.line_number := lineno node;
     Violation.function_name := Ast.name node;
     Violation.is_red_flag := false |}.

Definition evaluate (node : AST) (context : AnalysisContext.t)
  : result (list Violation.t) :=
  if negb (isinstance node [FunctionDef; AsyncFunctionDef]) then Ok []
  else
    let observability_score := _calculate_observability_score node in
    if observability_score =? 0 then Ok [violation node] else Ok [].

End Observability.

(** The [evaluate] methods of the seven classes, as the source has them. *)
Definition source_bodies : rule_bodies :=
  {| FileIORule_evaluate := FileIO.evaluate;
     RandomnessRule_evaluate := Randomness.evaluate;
     GlobalStateRule_evaluate := GlobalState.evaluate;
     MixedIOLogicRule_evaluate := MixedIOLogic.evaluate;
     ExceptionControlFlowRule_evaluate := ExceptionControlFlow.evaluate;
     ParameterCountRule_evaluate := ParameterCount.evaluate;
     ObservabilityRule_evaluate := Observability.evaluate |}.

(** *** rule_registry.py *)
Module RuleRegistry.

Record t : Type := mk { _rules : list TestabilityRule.t }.

Definition __init__ (bodies : rule_bodies) : t :=
  {| _rules := [ FileIORule bodies;
                 TimeUsageRule.rule;
                 RandomnessRule bodies;
                 GlobalStateRule bodies;
                 MixedIOLogicRule bodies;
                 BranchExplosionRule.rule;
                 ExceptionControlFlowRule bodies;
                 ConstructorSideEffectsRule.rule;
                 HiddenImportsRule.rule;
                 ParameterCountRule bodies;
                 ObservabilityRule bodies ] |}.

Definition get_all_rules (self : t) : list TestabilityRule.t := _rules self.

Definition get_rule_by_name (self : t) (name : string)
  : option TestabilityRule.t :=
  find (fun rule => String.eqb (TestabilityRule.rule_name rule) name)
       (_rules self).

(** The rules whose name is in the list that [get_red_flag_rules] spells
    out. *)
Definition get_red_flag_rules (self : t) : list TestabilityRule.t :=
  filter (fun rule =>
            string_in (TestabilityRule.rule_name rule)
                      [ "Constructor Side Effects";
                        "Global State Mutation";
                        "Non-Deterministic Time Usage";
                        "Mixed I/O and Logic";
                        "Exception-Driven Control Flow" ])
         (_rules self).

End RuleRegistry.

(* ------------------------------------------------------------------ *)
(** ** file_utils.py *)

(** A [pathlib.Path], as far as the analyzer reads it: [str(path)] and
    [path.name], the last component. *)
Module Path.
Record t : Type := mk { str : string; name : string }.
End Path.

Module FileUtils.

Definition test_indicators : list string :=
  [ "test_"; "_test."; "tests_"; "_tests."; "conftest.py"; "__init__.py" ].

Definition is_likely_test_file (file_path : Path.t) : bool :=
  let name := Str.lower (Path.name file_path) in
  existsb (fun indicator => Str.contains name indicator) test_indicators.

Definition filter_non_test_files (file_paths : list Path.t) : list Path.t :=
  filter (fun path => negb (is_likely_test_file path)) file_paths.

End FileUtils.

(** What the file system answers: the list that
    [find_python_files(paths)] returns, and [path.is_file()]. *)
Record file_system : Type := {
  find_python_files : list string -> list Path.t;
  is_file : Path.t -> bool }.

(* ------------------------------------------------------------------ *)
(** ** analyzer.py *)

Module TestabilityAnalyzer.

Record t : Type := mk {
  score_calculator : ScoreCalculator.t;
  rule_registry : RuleRegistry.t;
  threshold_classifier : ThresholdClassifier.t }.

Definition __init__ (bodies : rule_bodies) : t :=
  {| score_calculator := ScoreCalculator.__init__;
     rule_registry := RuleRegistry.__init__ bodies;
     threshold_classifier := ThresholdClassifier.__init__ |}.

(** An analyzer as [__init__] builds it, with [rules] in its registry. *)
Definition with_rules (rules : list TestabilityRule.t) : t :=
  {| score_calculator := ScoreCalculator.__init__;
     rule_registry := {| RuleRegistry._rules := rules |};
     threshold_classifier := ThresholdClassifier.__init__ |}.

(** [for rule in self.rule_registry.get_all_rules():
       violations.extend(rule.evaluate(node, context))]
    on a list that already holds [violations]. *)
Definition extend_with_rules (self : t) (node : AST)
    (context : AnalysisContext.t) (violations : list Violation.t)
  : result (list Violation.t) :=
  for_each
    (fun violations rule =>
       rule_violations <- TestabilityRule.evaluate rule node context;;
       Ok (violations ++ rule_violations))
    (RuleRegistry.get_all_rules (rule_registry self)) violations.

(** [isinstance(node, (ast.FunctionDef, ast.AsyncFunctionDef))]. *)
Definition is_function (node : AST) : bool :=
  isinstance node [FunctionDef; AsyncFunctionDef].

(** [isinstance(item, ast.FunctionDef) and item.name == "__init__"]. *)
Definition is_constructor (item : AST) : bool :=
  isinstance item [FunctionDef] && String.eqb (Ast.name item) "__init__".

(** The body of the loops over functions and over methods: every rule is
    evaluated on [node], then [calculate_function_score(node.name,
    node.lineno, violations)]. *)
Definition score_of (self : t) (node : AST) (context : AnalysisContext.t)
  : result FunctionScore.t :=
  violations <- extend_with_rules self node context [];;
  Ok (ScoreCalculator.calculate_function_score
        (score_calculator self) (Ast.name node) (lineno node) violations).

(** [for node in ast.walk(tree)]: every function and async-function
    definition of the tree. *)
Definition _analyze_functions (self : t) (tree : AST)
    (context : AnalysisContext.t) : result (list FunctionScore.t) :=
  for_each
    (fun function_scores node =>
       if is_function node then
         function_score <- score_of self node context;;
         Ok (function_scores ++ [function_score])
       else Ok function_scores)
    (walk tree) [].

(** The items of a class body that the [elif] branch scores as methods. *)
Definition is_method (item : AST) : bool :=
  negb (is_constructor item) && is_function item.

(** The loop over [node.body] of one class. *)
Definition analyze_class_body (self : t) (node : AST)
    (context : AnalysisContext.t)
  : result (list Violation.t * list FunctionScore.t) :=
  for_each
    (fun acc item =>
       let '(constructor_violations, method_scores) := acc in
       if is_constructor item then
         constructor_violations <-
           extend_with_rules self item context constructor_violations;;
         Ok (constructor_violations, method_scores)
       else if is_function item then
         method_score <- score_of self item context;;
         Ok (constructor_violations, method_scores ++ [method_score])
       else Ok acc)
    (field "body" node) ([], []).

(** The body of the loop over classes: the loop over [node.body], then
    the [ClassScore] of its two lists. *)
Definition class_score_of (self : t) (node : AST)
    (context : AnalysisContext.t) : result ClassScore.t :=
  body <- analyze_class_body self node context;;
  Ok {| ClassScore.name := Ast.name node;
        ClassScore.line_number := lineno node;
        ClassScore.constructor_violations := fst body;
        ClassScore.method_scores := snd body |}.

(** [isinstance(node, ast.ClassDef)]. *)
Definition is_class (node : AST) : bool := isinstance node [ClassDef].

Definition _analyze_classes (self : t) (tree : AST)
    (context : AnalysisContext.t) : result (list ClassScore.t) :=
  for_each
    (fun class_scores node =>
       if is_class node then
         class_score <- class_score_of self node context;;
         Ok (class_scores ++ [class_score])
       else Ok class_scores)
    (walk tree) [].

(** The list [all_scores] that [analyze_file] builds. *)
Definition all_scores (function_scores : list FunctionScore.t)
    (class_scores : list ClassScore.t) : list Z :=
  let all_scores := map FunctionScore.final_score function_scores in
  let all_scores :=
    all_scores
    ++ flat_map (fun class_score =>
                   map FunctionScore.final_score
                       (ClassScore.method_scores class_score))
                class_scores in
  all_scores
  ++ flat_map (fun class_score =>
                 let constructor_penalty :=
                   sum_points (ClassScore.constructor_violations class_score) in
                 if 0 <? constructor_penalty
                 then [Z.max (100 - constructor_penalty) 0]
                 else [])
              class_scores.

Definition parse_error (file_path : string) : FileScore.t :=
  {| FileScore.file_path := file_path;
     FileScore.overall_score := 0;
     FileScore.classification := "Parse Error";
     FileScore.function_scores := [];
     FileScore.class_scores := [];
     FileScore.red_flags := [] |}.

(** [analyze_file] from the parsed tree on.  [frames] is passed on to
    [build_context]; an exception of [build_context] or of a rule is not
    caught. *)
Definition analyze_tree (frames : nat) (self : t) (file_path : string)
    (tree : AST) : result FileScore.t :=
  context <- build_context frames tree;;
  function_scores <- _analyze_functions self tree context;;
  class_scores <- _analyze_classes self tree context;;
  let overall_score :=
    match all_scores function_scores class_scores with
    | x :: xs => py_min x xs
    | [] => 100
    end in
  let classification :=
    ThresholdClassifier.classify_file_score
      (threshold_classifier self) overall_score in
  let red_flags :=
    flat_map (fun score => filter Violation.is_red_flag
                                  (FunctionScore.violations score))
             function_scores
    ++ flat_map ClassScore.constructor_violations class_scores in
  Ok {| FileScore.file_path := file_path;
        FileScore.overall_score := overall_score;
        FileScore.classification := classification;
        FileScore.function_scores := function_scores;
        FileScore.class_scores := class_scores;
        FileScore.red_flags := red_flags |}.

Definition analyze_file (w : world) (frames : nat) (self : t)
    (file_path : string) : result FileScore.t :=
  tree <- parse_file w file_path;;
  match tree with
  | None => Ok (parse_error file_path)
  | Some tree => analyze_tree frames self file_path tree
  end.

(** [analyze_directory]: the loop stops at the first exception that
    [analyze_file] raises. *)
Definition analyze_directory (w : world) (frames : nat) (os : file_system)
    (self : t) (directory_path : string) : result (list FileScore.t) :=
  let all_files := find_python_files os [directory_path] in
  let python_files := FileUtils.filter_non_test_files all_files in
  for_each
    (fun results file_path =>
       if is_file os file_path then
         result <- analyze_file w frames self (Path.str file_path);;
         Ok (results ++ [result])
       else Ok results)
    python_files [].

End TestabilityAnalyzer.

(* ------------------------------------------------------------------ *)
(** ** formatters/: the thresholds of the reports *)

Module JSONFormatter.


End JSONFormatter.

Module TextFormatter.

Definition _get_score_color (score : Z) : string :=
  if 80 <=? score then "green"
  else if 60 <=? score then "yellow"
  else if 40 <=? score then "magenta"
  else "red".

End TextFormatter.

(* ------------------------------------------------------------------ *)
(** ** Vocabulary of the statements *)

(** The data model's condition on a violation: the points deducted are a
    non-negative integer. *)
Definition deducts_nonneg (v : Violation.t) : Prop :=
  0 <= Violation.points_deducted v.

(** What the registered rules return on [node], rule by rule. *)
Definition rule_outcomes (self : TestabilityAnalyzer.t)
    (context : AnalysisContext.t) (node : AST)
    (vss : list (list Violation.t)) : Prop :=
  Forall2 (fun rule rv => TestabilityRule.evaluate rule node context = Ok rv)
          (RuleRegistry.get_all_rules (TestabilityAnalyzer.rule_registry self))
          vss.

(** Every registered rule returns on every function node of the tree. *)
Definition rules_return_on (self : TestabilityAnalyzer.t)
    (context : AnalysisContext.t) (tree : AST) : Prop :=
  forall rule node,
    In rule (RuleRegistry.get_all_rules (TestabilityAnalyzer.rule_registry self)) ->
    In node (walk tree) -> TestabilityAnalyzer.is_function node = true ->
    returns (TestabilityRule.evaluate rule node context).

(** Every violation a file score holds. *)
Definition violations_of (fs : FileScore.t) : list Violation.t :=
  flat_map FunctionScore.violations (FileScore.function_scores fs)
  ++ flat_map (fun c => ClassScore.constructor_violations c
                        ++ flat_map FunctionScore.violations
                                    (ClassScore.method_scores c))
              (FileScore.class_scores fs).

(** The categories a function is charged for by the External Dependency
    Count rule: those of its calls. *)
Definition category_of_some_call (node : AST) (dep_type : string) : Prop :=
  exists c, In c (walk node) /\ isinstance c [Call] = true
            /\ ExternalDependencyRule._classify_dependency c = Some dep_type.

(** The derived constructor scores that [analyze_file] appends, one for
    each class with a positive constructor penalty. *)
Definition constructor_part (class_scores : list ClassScore.t) : list Z :=
  flat_map (fun class_score =>
              let constructor_penalty :=
                sum_points (ClassScore.constructor_violations class_score) in
              if 0 <? constructor_penalty
              then [Z.max (100 - constructor_penalty) 0]
              else [])
           class_scores.

Module HiddenImports.

(** [c] is an import statement that names the module [m]: an alias of an
    [import] statement, or the module of a [from ... import]. *)
Definition imported_module (c : AST) (m : string) : Prop :=
  (cls c = Import /\ exists a, In a (field "names" c) /\ Ast.name a = m)
  \/ (cls c = ImportFrom /\ ident c = Some m /\ m <> "").

(** [c] imports a module whose top-level package is one of the listed
    external packages. *)
Definition imports_listed_package (c : AST) : Prop :=
  exists m, imported_module c m
            /\ In (HiddenImportsRule.top_level_of m)
                  HiddenImportsRule.external_indicators.

(** [c] imports a module whose top-level module is not allowed. *)
Definition imports_unlisted_module (c : AST) : Prop :=
  exists m, imported_module c m
            /\ ~ In (HiddenImportsRule.top_level_of m)
                    HiddenImportsRule._allowed_imports.

End HiddenImports.

Module WorstScore.

(** The derived constructor score: max(0, 100 - sum of constructor
    violation points). *)
Definition derived_constructor_score (c : ClassScore.t) : Z :=
  Z.max 0 (100 - sum_points (ClassScore.constructor_violations c)).

Definition has_constructor_violation (c : ClassScore.t) : bool :=
  match ClassScore.constructor_violations c with
  | [] => false
  | _ :: _ => true
  end.

(** The scores of a list of function scores and a list of class scores:
    the final score of every function score, the final score of every
    method score of the classes, and the derived constructor score of each
    class with at least one constructor violation.  The set of C1 is the
    pool of the scores of the top-level functions ([top_level_scores]
    below); the analyzer takes the minimum over the pool of
    [FileScore.function_scores]. *)
Definition pool (function_scores : list FunctionScore.t)
    (class_scores : list ClassScore.t) : list Z :=
  map FunctionScore.final_score function_scores
  ++ flat_map (fun c => map FunctionScore.final_score (ClassScore.method_scores c))
              class_scores
  ++ map derived_constructor_score
         (filter has_constructor_violation class_scores).

Definition is_minimum (m : Z) (l : list Z) : Prop :=
  In m l /\ forall y, In y l -> m <= y.

(** The minimum of the pool, or 100 when the pool is empty. *)
Definition worst_score (l : list Z) (m : Z) : Prop :=
  match l with
  | [] => m = 100
  | _ :: _ => is_minimum m l
  end.

End WorstScore.

(* ------------------------------------------------------------------ *)
(** ** Sources used as examples

    The trees [ast.parse] builds for small sources, most of them taken from
    the repository's tests. *)

Module Build.

Definition node (c : ast_class) (line : Z) (fs : list (string * AST)) : AST :=
  Node c (Some line) None [] fs.
Definition named (c : ast_class) (line : Z) (s : string)
    (fs : list (string * AST)) : AST :=
  Node c (Some line) (Some s) [] fs.
Definition bare (c : ast_class) (fs : list (string * AST)) : AST :=
  Node c None None [] fs.
Definition in_field (f : string) (l : list AST) : list (string * AST) :=
  map (pair f) l.

Definition load : AST := bare (Other "Load") [].
Definition store : AST := bare (Other "Store") [].
Definition name_ (line : Z) (id : string) : AST :=
  named Name line id [("ctx", load)].
Definition target (line : Z) (id : string) : AST :=
  named Name line id [("ctx", store)].
Definition constant (line : Z) : AST := node (Other "Constant") line [].
Definition attribute (line : Z) (value : AST) (attr : string) : AST :=
  named Attribute line attr [("value", value); ("ctx", load)].
Definition attribute_target (line : Z) (value : AST) (attr : string) : AST :=
  named Attribute line attr [("value", value); ("ctx", store)].
Definition call (line : Z) (func : AST) (args : list AST) : AST :=
  node Call line (("func", func) :: in_field "args" args).
Definition binop (line : Z) (op : string) (l r : AST) : AST :=
  node (Other "BinOp") line [("left", l); ("op", bare (Other op) []); ("right", r)].
Definition compare (line : Z) (op : string) (l r : AST) : AST :=
  node (Other "Compare") line
       [("left", l); ("ops", bare (Other op) []); ("comparators", r)].
Definition arg_ (line : Z) (a : string) : AST := named (Other "arg") line a [].
Definition arguments (line : Z) (args : list string) : AST :=
  bare (Other "arguments") (in_field "args" (map (arg_ line) args)).
Definition def_ (line : Z) (f : string) (args : list string) (body : list AST)
  : AST :=
  named FunctionDef line f (("args", arguments line args) :: in_field "body" body).
Definition class_ (line : Z) (k : string) (body : list AST) : AST :=
  named ClassDef line k (in_field "body" body).
Definition module_ (body : list AST) : AST := bare Module (in_field "body" body).
Definition return_ (line : Z) (value : AST) : AST :=
  node (Other "Return") line [("value", value)].
Definition expr_ (line : Z) (value : AST) : AST :=
  node (Other "Expr") line [("value", value)].
Definition assign (line : Z) (targets : list AST) (value : AST) : AST :=
  node Assign line (in_field "targets" targets ++ [("value", value)]).
Definition if_ (line : Z) (test : AST) (body orelse : list AST) : AST :=
  node If line (("test", test) :: in_field "body" body
                ++ in_field "orelse" orelse).
Definition import_ (line : Z) (modules : list string) : AST :=
  node Import line (in_field "names" (map (fun m => named alias line m []) modules)).
Definition with_ (line : Z) (context_expr : AST) (optional_vars : string)
    (body : list AST) : AST :=
  node (Other "With") line
       (("items", bare (Other "withitem")
                       [("context_expr", context_expr);
                        ("optional_vars", target line optional_vars)])
        :: in_field "body" body).

End Build.

Module Fixtures.
Import Build.

(** tests/test_rules.py, [test_simple_function]:
<<
def simple_function(x):
    if x > 0:
        return x
    return 0
>> *)
Definition simple_function : AST :=
  def_ 2 "simple_function" ["x"]
    [ if_ 3 (compare 3 "Gt" (name_ 3 "x") (constant 3))
          [ return_ 4 (name_ 4 "x") ] [];
      return_ 5 (constant 5) ].

(** A function with six [if] statements in a row. *)
Definition six_branches : AST :=
  def_ 1 "six_branches" ["x"]
    (map (fun line => if_ line (name_ line "x") [ return_ (line + 1) (constant (line + 1)) ] [])
         [2; 4; 6; 8; 10; 12]).

(** tests/test_rules.py, [test_constructor_with_side_effects]:
<<
class MyClass:
    def __init__(self):
        with open('config.txt', 'r') as f:
            self.config = f.read()
>> *)
Definition MyClass_init : AST :=
  def_ 3 "__init__" ["self"]
    [ with_ 4 (call 4 (name_ 4 "open") [constant 4; constant 4]) "f"
        [ assign 5 [attribute_target 5 (name_ 5 "self") "config"]
                 (call 5 (attribute 5 (name_ 5 "f") "read") []) ] ].

Definition MyClass : AST := class_ 2 "MyClass" [ MyClass_init ].

Definition MyClass_module : AST := module_ [ MyClass ].

(** tests/test_integration.py, [test_simple_codebase] (docstrings left out):
<<
def calculate_area(length, width):
    return length * width

def format_result(area):
    return f"Area: {area:.2f}"

class Rectangle:
    def __init__(self, length, width):
        self.length = length
        self.width = width

    def area(self):
        return calculate_area(self.length, self.width)
>> *)
Definition calculate_area : AST :=
  def_ 2 "calculate_area" ["length"; "width"]
    [ return_ 3 (binop 3 "Mult" (name_ 3 "length") (name_ 3 "width")) ].

Definition format_result : AST :=
  def_ 5 "format_result" ["area"]
    [ return_ 6 (node (Other "JoinedStr") 6
                      [("values", constant 6);
                       ("values", node (Other "FormattedValue") 6
                                       [("value", name_ 6 "area");
                                        ("format_spec",
                                         node (Other "JoinedStr") 6
                                              [("values", constant 6)])])]) ].

Definition Rectangle_init : AST :=
  def_ 9 "__init__" ["self"; "length"; "width"]
    [ assign 10 [attribute_target 10 (name_ 10 "self") "length"]
             (name_ 10 "length");
      assign 11 [attribute_target 11 (name_ 11 "self") "width"]
             (name_ 11 "width") ].

Definition Rectangle_area : AST :=
  def_ 13 "area" ["self"]
    [ return_ 14 (call 14 (name_ 14 "calculate_area")
                       [ attribute 14 (name_ 14 "self") "length";
                         attribute 14 (name_ 14 "self") "width" ]) ].

Definition Rectangle : AST :=
  class_ 8 "Rectangle" [ Rectangle_init; Rectangle_area ].

Definition simple_py : AST :=
  module_ [ calculate_area; format_result; Rectangle ].

(** A class whose method reads the clock, and whose constructor imports a
    package:
<<
class Job:
    def __init__(self):
        import requests
        self.session = requests.Session()

    def stamp(self):
        return time.time()
>> *)
Definition Job_init : AST :=
  def_ 2 "__init__" ["self"]
    [ import_ 3 ["requests"];
      assign 4 [attribute_target 4 (name_ 4 "self") "session"]
             (call 4 (attribute 4 (name_ 4 "requests") "Session") []) ].

Definition Job_stamp : AST :=
  def_ 6 "stamp" ["self"]
    [ return_ 7 (call 7 (attribute 7 (name_ 7 "time") "time") []) ].

Definition Job : AST := class_ 1 "Job" [ Job_init; Job_stamp ].

Definition job_py : AST := module_ [ Job ].

(** tests/test_rules.py, [test_hidden_import]:
<<
def process_data():
    import requests
    return requests.get('http://example.com')
>> *)
Definition process_data : AST :=
  def_ 2 "process_data" []
    [ import_ 3 ["requests"];
      return_ 4 (call 4 (attribute 4 (name_ 4 "requests") "get") [constant 4]) ].

(** A function that imports a module that is neither allowed nor listed:
<<
def list_home():
    import os
    return os.listdir('.')
>> *)
Definition list_home : AST :=
  def_ 1 "list_home" []
    [ import_ 2 ["os"];
      return_ 3 (call 3 (attribute 3 (name_ 3 "os") "listdir") [constant 3]) ].

(** A function whose only import is allowed:
<<
def dumps(x):
    import json
    return json.dumps(x)
>> *)
Definition dumps : AST :=
  def_ 1 "dumps" ["x"]
    [ import_ 2 ["json"];
      return_ 3 (call 3 (attribute 3 (name_ 3 "json") "dumps") [name_ 3 "x"]) ].

(** A function defined inside a function:
<<
def outer(x):
    def inner(a, b, c, d, e, f):
        return a
    return inner
>> *)
Definition inner : AST :=
  def_ 2 "inner" ["a"; "b"; "c"; "d"; "e"; "f"] [ return_ 3 (name_ 3 "a") ].

Definition outer : AST :=
  def_ 1 "outer" ["x"] [ inner; return_ 4 (name_ 4 "inner") ].

Definition nested_py : AST := module_ [ outer ].

(** The registry that [RuleRegistry.__init__] builds, with the Branch
    Explosion rule evaluated in an [ast] module that defines [AsyncWhile]:
    what the analyzer computes once that name resolves. *)
Definition rules_with_AsyncWhile : list TestabilityRule.t :=
  map (fun rule =>
         if String.eqb (TestabilityRule.rule_name rule)
                       BranchExplosionRule.rule_name
         then TestabilityRule.mk
                BranchExplosionRule.rule_name
                BranchExplosionRule.penalty_points
                (BranchExplosionRule.evaluate_in ast_module_with_AsyncWhile)
         else rule)
      (RuleRegistry.get_all_rules (RuleRegistry.__init__ source_bodies)).

(** An analyzer whose registry holds the rules that return on every node:
    the time, constructor and hidden-import rules, in registry order. *)
Definition returning_rules : list TestabilityRule.t :=
  [ TimeUsageRule.rule; ConstructorSideEffectsRule.rule; HiddenImportsRule.rule ].

Definition returning_analyzer : TestabilityAnalyzer.t :=
  TestabilityAnalyzer.with_rules returning_rules.

(** A world with a few files: four that parse, one with a syntax error,
    one that is not UTF-8; every other path cannot be opened. *)
Definition files : world := fun file_path =>
  if String.eqb file_path "simple.py" then Ok simple_py
  else if String.eqb file_path "job.py" then Ok job_py
  else if String.eqb file_path "my_class.py" then Ok MyClass_module
  else if String.eqb file_path "nested.py" then Ok nested_py
  else if String.eqb file_path "invalid.py" then Raise SyntaxError
  else if String.eqb file_path "latin1.py" then Raise UnicodeDecodeError
  else Raise OSError.

(** tests/test_scoring_validation.py, [test_multiple_violations_scoring] and
    [test_score_never_below_zero]. *)
Definition three_violations : list Violation.t :=
  [ Violation.mk "External Dependency Count" "File System dependency"
                 5 1 "test_func" false;
    Violation.mk "Direct File I/O in Logic" "File operation in logic"
                 10 2 "test_func" false;
    Violation.mk "Non-Deterministic Time Usage" "Time dependency"
                 10 3 "test_func" true ].

Definition thirty_violations : list Violation.t :=
  map (fun i => Violation.mk "External Dependency Count" "Violation"
                             5 (Z.of_nat i) "test_func" false)
      (seq 0 30).

End Fixtures.

(* ------------------------------------------------------------------ *)
(** ** Vocabulary of the further statements *)

(** The rule names of a list of violations, in order of first occurrence. *)
Definition rule_names (violations : list Violation.t) : list string :=
  fold_left (fun names v => set_add (Violation.rule_name v) names)
            violations [].

(** The violations of one rule, in the order of the list. *)
Definition violations_of_rule (rule_name : string)
    (violations : list Violation.t) : list Violation.t :=
  filter (fun v => String.eqb (Violation.rule_name v) rule_name) violations.

(** The group of one rule: how many violations, their points, their
    details. *)
Definition group_of (violations : list Violation.t) (rule_name : string)
  : RuleBreakdown.t :=
  let group := violations_of_rule rule_name violations in
  {| RuleBreakdown.count := Z.of_nat (List.length group);
     RuleBreakdown.total_points := sum_points group;
     RuleBreakdown.violations := map ScoreCalculator.detail_of group |}.

(** The sum of a quantity over the groups of a breakdown. *)
Definition sum_over_groups (quantity : RuleBreakdown.t -> Z)
    (by_rule : Dict.t RuleBreakdown.t) : Z :=
  fold_right (fun entry acc => quantity (snd entry) + acc) 0 by_rule.

(** The suggestions of a rule name; the empty list for an unknown name. *)
Definition suggestions_of (name : string) : list string :=
  match Dict.get name ThresholdClassifier.suggestions with
  | Some l => l
  | None => []
  end.

(** The file band that the text report's colour of a score stands for. *)
Definition band_of_color (color : string) : string :=
  if String.eqb color "green" then "Healthy"
  else if String.eqb color "yellow" then "Caution"
  else if String.eqb color "magenta" then "High Friction"
  else "Refactor First".

(** The nodes of a tree in depth-first order, a node before its children. *)
Fixpoint preorder (n : AST) : list AST :=
  match n with
  | Node _ _ _ _ fs =>
      n :: (fix go (l : list (string * AST)) : list AST :=
              match l with
              | [] => []
              | p :: r => preorder (snd p) ++ go r
              end) fs
  end.

(** The names of the parameters of a function definition: positional,
    positional-only, keyword-only, [*args] and [**kwargs]. *)
Definition parameter_names (node : AST) : list string :=
  match child "args" node with
  | Some args =>
      map Ast.name
          (field "args" args ++ field "posonlyargs" args
           ++ field "kwonlyargs" args
           ++ match child "vararg" args with Some a => [a] | None => [] end
           ++ match child "kwarg" args with Some a => [a] | None => [] end)
  | None => []
  end.

(** A [global] statement of the tree declares [g]. *)
Definition declared_global (tree : AST) (g : string) : Prop :=
  exists n, In n (walk tree) /\ cls n = Global /\ In g (idents n).

(** An import statement of the tree names the module [m]. *)
Definition imported_in (tree : AST) (m : string) : Prop :=
  exists n, In n (walk tree) /\ HiddenImports.imported_module n m.

(** The files that [analyze_directory] analyses: those of the listing that
    are no test files and that are regular files. *)
Definition analysed_files (os : file_system) (directory_path : string)
  : list Path.t :=
  filter (is_file os)
         (FileUtils.filter_non_test_files
            (find_python_files os [directory_path])).

(** The names of the rules whose violations are marked as red flags. *)
Definition marks_red_flags : list string :=
  [ "Non-Deterministic Time Usage"; "Randomness Usage";
    "Global State Mutation"; "Mixed I/O and Logic";
    "Exception-Driven Control Flow"; "Constructor Side Effects" ].

(** What a rule may report on a node: at most one violation, under the
    rule's name, for the rule's penalty, marked as a red flag or not by the
    rule alone, and only on the kind of node the rule is for: a class for
    the constructor rule, with the constructor as the function, and a
    function definition for every other rule. *)
Definition reports_as (rule : TestabilityRule.t) (node : AST)
    (vs : list Violation.t) : Prop :=
  (List.length vs <= 1)%nat
  /\ forall v, In v vs ->
       Violation.rule_name v = TestabilityRule.rule_name rule
       /\ Violation.points_deducted v = TestabilityRule.penalty_points rule
       /\ Violation.is_red_flag v
          = string_in (TestabilityRule.rule_name rule) marks_red_flags
       /\ if String.eqb (TestabilityRule.rule_name rule)
                        "Constructor Side Effects"
          then isinstance node [ClassDef] = true
               /\ Violation.function_name v
                  = (Ast.name node ++ ".__init__")%string
          else isinstance node [FunctionDef; AsyncFunctionDef] = true
               /\ Violation.function_name v = Ast.name node.

(** The parameters that the Excessive Parameter Count rule counts. *)
Definition effective_parameters (node : AST) : list string :=
  filter (fun param_name => negb (String.eqb param_name "self"))
         (parameter_names node).

(** More sources used as examples. *)
Module Examples.
Import Build.

(**
<<
def roll():
    return random.randint(1, 6)
>> *)
Definition roll : AST :=
  def_ 1 "roll" []
    [ return_ 2 (call 2 (attribute 2 (name_ 2 "random") "randint")
                      [constant 2; constant 2]) ].

(**
<<
def configure(host, port, user, password, timeout, retries):
    return host
>> *)
Definition configure : AST :=
  def_ 1 "configure" ["host"; "port"; "user"; "password"; "timeout"; "retries"]
    [ return_ 2 (name_ 2 "host") ].

(** The same parameters after [self]: a method. *)
Definition configure_method : AST :=
  def_ 1 "configure"
    ["self"; "host"; "port"; "user"; "password"; "timeout"]
    [ return_ 2 (name_ 2 "host") ].

(**
<<
def load(path):
    try:
        return parse(path)
    except:
        return None
>> *)
Definition load_handler : AST :=
  node ExceptHandler 4 (in_field "body" [ return_ 5 (constant 5) ]).

Definition load_try : AST :=
  node Try 2
    (in_field "body" [ return_ 3 (call 3 (name_ 3 "parse") [name_ 3 "path"]) ]
     ++ in_field "handlers" [ load_handler ]).

Definition load : AST := def_ 1 "load" ["path"] [ load_try ].

(**
<<
def setup():
    global counter
    counter = 0

def bump():
    counter = 1
>> *)
Definition setup : AST :=
  def_ 1 "setup" []
    [ Node Global (Some 2) None ["counter"] [];
      assign 3 [target 3 "counter"] (constant 3) ].

Definition bump_assign : AST := assign 6 [target 6 "counter"] (constant 6).

Definition bump : AST := def_ 5 "bump" [] [ bump_assign ].

(**
<<
def bump_pair():
    a, counter = 1, 2
>> *)
Definition bump_pair : AST :=
  def_ 5 "bump_pair" []
    [ assign 6 [ node (Other "Tuple") 6
                      (in_field "elts" [target 6 "a"; target 6 "counter"]) ]
             (node (Other "Tuple") 6
                   (in_field "elts" [constant 6; constant 6])) ].

Definition pair_py : AST := module_ [ setup; bump_pair ].

Definition counter_py : AST := module_ [ setup; bump ].

(** A directory with three modules, a test module and a package
    marker; one of the modules has a syntax error. *)
Definition listing : list Path.t :=
  [ Path.mk "simple.py" "simple.py";
    Path.mk "test_simple.py" "test_simple.py";
    Path.mk "__init__.py" "__init__.py";
    Path.mk "invalid.py" "invalid.py";
    Path.mk "job.py" "job.py" ].

Definition directory : file_system :=
  {| find_python_files := fun paths =>
       if list_eq_dec string_dec paths ["."] then listing else [];
     is_file := fun _ => true |}.

End Examples.

(** The context that a visit of [node] builds from [context] when no call
    runs out of frames: the statements of the node's method around the
    visits of the children. *)
Fixpoint completed_visit (node : AST) (context : AnalysisContext.t)
  : AnalysisContext.t :=
  match node with
  | Node _ _ _ _ fs =>
      ASTVisitor.leave node context
        ((fix go (l : list (string * AST)) (context : AnalysisContext.t)
            : AnalysisContext.t :=
            match l with
            | [] => context
            | p :: r => go r (completed_visit (snd p) context)
            end) fs (ASTVisitor.enter node context))
  end.

(** The completed visit of a list of nodes, one after the other. *)
Definition visit_all (nodes : list AST) (context : AnalysisContext.t)
  : AnalysisContext.t :=
  fold_left (fun ctx n => completed_visit n ctx) nodes context.

(** The context of a tree: what [build_context] returns when it returns. *)
Definition context_of (tree : AST) : AnalysisContext.t :=
  completed_visit tree AnalysisContext.empty.

(** The top-level function definitions of a module: the definitions among
    the statements of its body. *)
Definition top_level_functions (tree : AST) : list AST :=
  filter TestabilityAnalyzer.is_function (field "body" tree).

(** [scores] are the function scores of the top-level functions of the
    tree, in order. *)
Definition top_level_scores (self : TestabilityAnalyzer.t) (tree : AST)
    (scores : list FunctionScore.t) : Prop :=
  Forall2 (fun node s =>
             TestabilityAnalyzer.score_of self node (context_of tree) = Ok s)
          (top_level_functions tree) scores.

(** The context that a call of [m] builds from [context] when no call
    runs out of frames. *)
Definition completed (m : ASTVisitor.method) (node : AST)
    (context : AnalysisContext.t) : AnalysisContext.t :=
  match m with
  | ASTVisitor.visit_ | ASTVisitor.visit_Class => completed_visit node context
  | ASTVisitor.generic_visit => visit_all (iter_child_nodes node) context
  end.

(** The number of frames that the visit of a tree enters at its deepest:
    [visit], the node's method when it has one, [generic_visit], and then
    the deepest of [iter_fields] and the visits of the children. *)
Fixpoint frames_needed (n : AST) : nat :=
  match n with
  | Node c _ _ _ fs =>
      ((if ASTVisitor.has_visit_method c then 3 else 2)
       + (fix go (l : list (string * AST)) : nat :=
            match l with
            | [] => 1
            | p :: r => Nat.max (frames_needed (snd p)) (go r)
            end) fs)%nat
  end.

(** The same number for a call of one of the three functions. *)
Definition frames_of (m : ASTVisitor.method) (n : AST) : nat :=
  let below := fold_right Nat.max 1%nat (map frames_needed (iter_child_nodes n)) in
  match m with
  | ASTVisitor.visit_ => frames_needed n
  | ASTVisitor.visit_Class => S (S below)
  | ASTVisitor.generic_visit => S below
  end.

(** A chain of [n] nodes of class [c], each the only child of the one
    before it, above [leaf]. *)
Fixpoint chain (c : ast_class) (n : nat) (leaf : AST) : AST :=
  match n with
  | O => leaf
  | S n => Node c None None [] [("value", chain c n leaf)]
  end.

(** The modules that a node imports, and the names it declares global. *)
Definition modules_of (n : AST) : list string :=
  match cls n with
  | Import => map Ast.name (field "names" n)
  | ImportFrom =>
      match ident n with
      | Some m => if String.eqb m "" then [] else [m]
      | None => []
      end
  | _ => []
  end.

Definition globals_of (n : AST) : list string :=
  match cls n with
  | Global => idents n
  | _ => []
  end.

(** Membership in a list that computes. *)
Ltac in_list := vm_compute; repeat (first [now left | right]).

(** Case analysis on the tests and the searches of an [evaluate]. *)
Ltac rule_cases :=
  repeat match goal with
         | |- context [match find ?f ?l with _ => _ end] =>
             destruct (find f l) eqn:?
         | |- context [if ?b then _ else _] => destruct b eqn:?
         end.

(** The answer of an [evaluate] that is the empty list or one violation. *)
Ltac report :=
  rule_cases; eexists; (split; [reflexivity|]); unfold reports_as;
  (split; [simpl; lia|]);
  intros v Hv; simpl in Hv;
  first [ contradiction
        | destruct Hv as [<-|[]];
          match goal with
          | |- context [String.eqb ?a ?b] =>
              let r := eval vm_compute in (String.eqb a b) in
              change (String.eqb a b) with r
          end;
          cbv iota; repeat split;
          match goal with
          | H : negb ?b = false |- ?b = true => now apply negb_false_iff in H
          end ].

(** Case analysis on the integer comparisons of the goal. *)
Ltac case_bounds :=
  repeat match goal with
         | |- context [?a <=? ?b] => destruct (Z.leb_spec a b)
         | |- context [?a <? ?b] => destruct (Z.ltb_spec a b)
         end.

(* ------------------------------------------------------------------ *)
(** ** Facts about [ast.walk] *)

Section WalkFacts.

Lemma size_children (n : AST) :
  size n = S (size_all (iter_child_nodes n)).
Proof.
  destruct n as [c l i ids fs]; unfold iter_child_nodes; simpl.
  f_equal. induction fs as [|p r IH]; simpl; [reflexivity|].
  now rewrite IH.
Qed.

Lemma size_all_app (q r : list AST) :
  size_all (q ++ r) = (size_all q + size_all r)%nat.
Proof.
  induction q as [|x q IH]; simpl; [reflexivity|]. rewrite IH; lia.
Qed.

Lemma size_pos (n : AST) : (0 < size n)%nat.
Proof. rewrite size_children; lia. Qed.

(** With enough fuel the queue runs empty: more fuel changes nothing. *)
Lemma walk_from_more_fuel (fuel extra : nat) (todo : list AST) :
  (size_all todo <= fuel)%nat ->
  walk_from (fuel + extra) todo = walk_from fuel todo.
Proof.
  revert todo; induction fuel as [|fuel IH]; intros todo Hle.
  - destruct todo as [|x q]; simpl in *.
    + now destruct extra.
    + pose proof (size_pos x); lia.
  - destruct todo as [|x q]; simpl; [reflexivity|].
    f_equal. apply IH.
    simpl in Hle. rewrite size_all_app.
    rewrite (size_children x) in Hle. lia.
Qed.

(** Every queued node is yielded. *)
Lemma walk_from_queue (fuel : nat) (todo : list AST) (n : AST) :
  (size_all todo <= fuel)%nat -> In n todo -> In n (walk_from fuel todo).
Proof.
  revert todo; induction fuel as [|fuel IH]; intros todo Hle Hin.
  - destruct todo as [|x q]; [contradiction|].
    simpl in Hle. pose proof (size_pos x); lia.
  - destruct todo as [|x q]; [contradiction|]. simpl.
    destruct Hin as [->|Hin]; [now left|right].
    apply IH.
    + simpl in Hle. rewrite size_all_app.
      rewrite (size_children x) in Hle. lia.
    + apply in_or_app; now left.
Qed.

(** The children of a yielded node are yielded. *)
Lemma walk_from_children (fuel : nat) (todo : list AST) (n c : AST) :
  (size_all todo <= fuel)%nat ->
  In n (walk_from fuel todo) -> In c (iter_child_nodes n) ->
  In c (walk_from fuel todo).
Proof.
  revert todo; induction fuel as [|fuel IH]; intros todo Hle Hn Hc.
  - destruct todo; contradiction.
  - destruct todo as [|x q]; [contradiction|].
    assert (Hle' : (size_all (q ++ iter_child_nodes x) <= fuel)%nat).
    { simpl in Hle. rewrite size_all_app.
      rewrite (size_children x) in Hle. lia. }
    simpl in Hn |- *. right. destruct Hn as [->|Hn].
    + apply walk_from_queue; [exact Hle'|]. apply in_or_app; now right.
    + now apply IH.
Qed.

Lemma walk_head (node : AST) :
  exists rest, walk node = node :: rest.
Proof.
  unfold walk. destruct (size node) eqn:E.
  - pose proof (size_pos node); lia.
  - simpl. eauto.
Qed.

Lemma walk_self (node : AST) : In node (walk node).
Proof. destruct (walk_head node) as [r ->]; now left. Qed.

Lemma walk_children (node n c : AST) :
  In n (walk node) -> In c (iter_child_nodes n) -> In c (walk node).
Proof.
  unfold walk; apply walk_from_children. simpl; lia.
Qed.

Lemma field_child (f : string) (n c : AST) :
  In c (field f n) -> In c (iter_child_nodes n).
Proof.
  unfold field, iter_child_nodes. rewrite !in_map_iff.
  intros [p [Hp Hin]]. exists p. split; [exact Hp|].
  apply filter_In in Hin. tauto.
Qed.

Lemma walk_field (node n c : AST) (f : string) :
  In n (walk node) -> In c (field f n) -> In c (walk node).
Proof. intros Hn Hc. eapply walk_children; eauto using field_child. Qed.

End WalkFacts.

(* ------------------------------------------------------------------ *)
(** ** Facts about results and loops *)

Section ResultFacts.

Context {A B : Type}.

Lemma bind_Ok (c : result A) (k : A -> result B) (b : B) :
  bind c k = Ok b <-> exists a, c = Ok a /\ k a = Ok b.
Proof.
  destruct c as [a|e]; simpl; split.
  - intros H; eauto.
  - intros [a' [Ha H]]; now inversion Ha; subst.
  - discriminate.
  - intros [a' [Ha _]]; discriminate.
Qed.

Lemma bind_Raise (c : result A) (k : A -> result B) (e : exception) :
  c = Raise e -> bind c k = Raise e.
Proof. now intros ->. Qed.

End ResultFacts.

Lemma for_each_app {A S} (body : S -> A -> result S) (xs ys : list A) (acc : S) :
  for_each body (xs ++ ys) acc
  = bind (for_each body xs acc) (for_each body ys).
Proof.
  revert acc; induction xs as [|x xs IH]; intros acc; simpl; [reflexivity|].
  destruct (body acc x) as [acc'|e]; simpl; [apply IH|reflexivity].
Qed.

(** A loop that appends the outcome of [f] for the elements that pass
    [keep]: when it returns, it has appended one outcome per kept element,
    in order. *)
Lemma for_each_collect {A B} (keep : A -> bool) (f : A -> result B)
    (xs : list A) (acc out : list B) :
  for_each (fun acc x => if keep x then (b <- f x;; Ok (acc ++ [b]))
                         else Ok acc) xs acc = Ok out ->
  exists new, out = acc ++ new
              /\ Forall2 (fun x b => f x = Ok b) (filter keep xs) new.
Proof.
  revert acc; induction xs as [|x xs IH]; intros acc; simpl.
  - intros [= <-]. exists []. now rewrite app_nil_r.
  - destruct (keep x) eqn:K.
    + destruct (f x) as [b|e] eqn:F; simpl; [|discriminate].
      intros H. destruct (IH _ H) as [new [-> HF]].
      exists (b :: new). rewrite <- app_assoc. split; [reflexivity|].
      now constructor.
    + simpl. apply IH.
Qed.

(** The same loop returns as soon as [f] returns on every kept element. *)
Lemma for_each_collect_returns {A B} (keep : A -> bool) (f : A -> result B)
    (xs : list A) (acc : list B) :
  (forall x, In x xs -> keep x = true -> returns (f x)) ->
  returns (for_each (fun acc x => if keep x then (b <- f x;; Ok (acc ++ [b]))
                                  else Ok acc) xs acc).
Proof.
  revert acc; induction xs as [|x xs IH]; intros acc H; simpl.
  - now exists acc.
  - destruct (keep x) eqn:K.
    + destruct (H x (or_introl eq_refl) K) as [b ->]. simpl.
      apply IH. intros y Hy. apply H. now right.
    + simpl. apply IH. intros y Hy. apply H. now right.
Qed.

(* ------------------------------------------------------------------ *)
(** ** Facts about the visitor (ast_utils.py) *)

Section VisitorFacts.

Import AnalysisContext ASTVisitor.

Lemma visit_eq (n : AST) (c : t) :
  completed_visit n c = leave n c (visit_all (iter_child_nodes n) (enter n c)).
Proof.
  destruct n as [k l i ids fs].
  assert (G : forall ctx,
            (fix go (l : list (string * AST)) (context : t) : t :=
               match l with
               | [] => context
               | p :: r => go r (completed_visit (snd p) context)
               end) fs ctx
            = visit_all (map snd fs) ctx).
  { induction fs as [|p r IH]; intros ctx; [reflexivity|].
    cbn [map]. unfold visit_all. cbn [fold_left]. apply IH. }
  unfold iter_child_nodes. cbn [completed_visit fields]. now rewrite G.
Qed.

Lemma frames_needed_eq (n : AST) :
  frames_needed n
  = ((if has_visit_method (cls n) then 2 else 1)
     + frames_of generic_visit n)%nat.
Proof.
  destruct n as [k l i ids fs]. unfold frames_of, iter_child_nodes.
  cbn [frames_needed cls fields].
  assert (G : (fix go (l : list (string * AST)) : nat :=
                 match l with
                 | [] => 1%nat
                 | p :: r => Nat.max (frames_needed (snd p)) (go r)
                 end) fs
              = fold_right Nat.max 1%nat (map frames_needed (map snd fs))).
  { induction fs as [|p r IH]; [reflexivity|]. cbn [map fold_right].
    now rewrite IH. }
  rewrite G. destruct (has_visit_method k); lia.
Qed.

(** A class without a method of its own has no statements around the
    visit of the children. *)
Lemma no_method_enter (n : AST) (c : t) :
  has_visit_method (cls n) = false -> enter n c = c.
Proof. unfold enter. destruct (cls n); simpl; congruence. Qed.

Lemma no_method_leave (n : AST) (before after : t) :
  has_visit_method (cls n) = false -> leave n before after = after.
Proof. unfold leave. destruct (cls n); simpl; congruence. Qed.

Lemma for_each_fold {A S} (body : S -> A -> result S) (f : S -> A -> S)
    (xs : list A) (acc out : S) :
  (forall acc x out, In x xs -> body acc x = Ok out -> out = f acc x) ->
  for_each body xs acc = Ok out -> out = fold_left f xs acc.
Proof.
  revert acc; induction xs as [|x xs IH]; intros acc H; simpl.
  - now intros [= <-].
  - destruct (body acc x) as [acc'|e] eqn:E; simpl; [|discriminate].
    rewrite <- (H acc x acc' (or_introl eq_refl) E).
    apply IH. intros a y o Hy. apply H. now right.
Qed.

(** A loop whose body returns on an element or not whatever the state. *)
Lemma for_each_returns_iff {A S} (body : S -> A -> result S) (Q : A -> Prop)
    (xs : list A) (acc : S) :
  (forall acc x, In x xs -> returns (body acc x) <-> Q x) ->
  returns (for_each body xs acc) <-> Forall Q xs.
Proof.
  revert acc; induction xs as [|x xs IH]; intros acc H; simpl.
  - split; [constructor|]. intros _. now exists acc.
  - destruct (body acc x) as [acc'|e] eqn:E; simpl.
    + rewrite IH by (intros a y Hy; apply H; now right).
      split.
      * intros F. constructor; [|exact F].
        apply (H acc x (or_introl eq_refl)). rewrite E. now exists acc'.
      * now inversion 1.
    + split.
      * intros [o Ho]. discriminate.
      * inversion 1 as [|? ? Qx _]; subst.
        apply (H acc x (or_introl eq_refl)) in Qx. rewrite E in Qx.
        destruct Qx as [o Ho]. discriminate.
Qed.

Lemma for_each_raises {A S} (body : S -> A -> result S) (P : exception -> Prop)
    (xs : list A) (acc : S) (e : exception) :
  (forall acc x e, In x xs -> body acc x = Raise e -> P e) ->
  for_each body xs acc = Raise e -> P e.
Proof.
  revert acc; induction xs as [|x xs IH]; intros acc H; simpl.
  - discriminate.
  - destruct (body acc x) as [acc'|e'] eqn:E; simpl.
    + apply IH. intros a y o Hy. apply H. now right.
    + intros [= <-]. exact (H acc x e' (or_introl eq_refl) E).
Qed.

Lemma max_frames_le (l : list AST) (frames : nat) :
  (fold_right Nat.max 1 (map frames_needed l) <= frames)%nat
  <-> (1 <= frames)%nat /\ Forall (fun x => (frames_needed x <= frames)%nat) l.
Proof.
  induction l as [|x l IH]; cbn [map fold_right].
  - split; [intros H; split; [exact H|constructor]|tauto].
  - rewrite Nat.max_lub_iff, IH. split.
    + intros [Hx [H1 Hl]]. split; [exact H1|now constructor].
    + intros [H1 Hl]. inversion Hl; subst. tauto.
Qed.

(** When a call returns, it returns the context of the completed call. *)
Lemma call_Ok (frames : nat) :
  forall m n c out, call frames m n c = Ok out -> out = completed m n c.
Proof.
  induction frames as [|frames IH]; intros m n c out; cbn [call];
    [discriminate|].
  destruct m; cbn [completed].
  - destruct (has_visit_method (cls n)) eqn:M; intros H; apply IH in H.
    + exact H.
    + cbn [completed] in H. rewrite visit_eq.
      now rewrite no_method_enter, no_method_leave.
  - intros H. apply bind_Ok in H. destruct H as [after [H [= <-]]].
    apply IH in H. cbn [completed] in H. now rewrite visit_eq, H.
  - destruct frames as [|frames']; [discriminate|].
    apply for_each_fold. intros acc x o _ H. now apply IH in H.
Qed.

(** A call returns exactly when the recursion limit leaves it the frames
    that it needs. *)
Lemma call_returns_iff (frames : nat) :
  forall m n c, returns (call frames m n c) <-> (frames_of m n <= frames)%nat.
Proof.
  induction frames as [|frames IH]; intros m n c; cbn [call].
  - split.
    + intros [o Ho]. discriminate.
    + destruct m; cbn [frames_of]; [rewrite frames_needed_eq|..];
        cbn [frames_of]; try destruct (has_visit_method (cls n)); lia.
  - destruct m.
    + cbn [frames_of]. rewrite frames_needed_eq.
      destruct (has_visit_method (cls n)); rewrite IH; cbn [frames_of]; lia.
    + assert (E : returns (after <- call frames generic_visit n (enter n c);;
                           Ok (leave n c after))
                  <-> returns (call frames generic_visit n (enter n c))).
      { destruct (call frames generic_visit n (enter n c)) as [a|e]; simpl.
        - split; intros _; eexists; reflexivity.
        - split; intros [o Ho]; discriminate. }
      rewrite E, IH. cbn [frames_of]. lia.
    + cbn [frames_of]. destruct frames as [|frames'].
      * split; [intros [o Ho]; discriminate|].
        intros H. apply le_S_n in H. apply max_frames_le in H. lia.
      * rewrite (for_each_returns_iff
                   (fun context item => call (S frames') visit_ item context)
                   (fun x => (frames_needed x <= S frames')%nat)).
        -- rewrite <- Nat.succ_le_mono, max_frames_le. split; [|tauto].
           intros H. split; [lia|exact H].
        -- intros acc x _. apply IH.
Qed.

(** The only exception that a call raises is RecursionError. *)
Lemma call_Raise (frames : nat) :
  forall m n c e, call frames m n c = Raise e -> e = RecursionError.
Proof.
  induction frames as [|frames IH]; intros m n c e; cbn [call].
  - now intros [= <-].
  - destruct m.
    + destruct (has_visit_method (cls n)); apply IH.
    + destruct (call frames generic_visit n (enter n c)) as [a|e'] eqn:E;
        simpl; [discriminate|].
      intros [= <-]. exact (IH _ _ _ _ E).
    + destruct frames as [|frames']; [congruence|].
      apply (for_each_raises _ (fun e => e = RecursionError)).
      intros acc x e' _. apply IH.
Qed.

Lemma build_context_Ok (frames : nat) (tree : AST) (context : t) :
  build_context frames tree = Ok context -> context = context_of tree.
Proof. apply call_Ok. Qed.

Lemma build_context_returns_iff (frames : nat) (tree : AST) :
  returns (build_context frames tree) <-> (frames_needed tree <= frames)%nat.
Proof. apply (call_returns_iff frames visit_). Qed.

Lemma build_context_enough (frames : nat) (tree : AST) :
  (frames_needed tree <= frames)%nat ->
  build_context frames tree = Ok (context_of tree).
Proof.
  intros H. apply build_context_returns_iff in H. destruct H as [c H].
  rewrite H. f_equal. now apply build_context_Ok in H.
Qed.

Lemma build_context_Raise (frames : nat) (tree : AST) :
  (frames < frames_needed tree)%nat ->
  build_context frames tree = Raise RecursionError.
Proof.
  intros H. destruct (build_context frames tree) as [c|e] eqn:E.
  - assert (R : returns (build_context frames tree)) by (now exists c).
    apply build_context_returns_iff in R. lia.
  - f_equal. eapply call_Raise. exact E.
Qed.

Lemma frames_needed_chain (k : ast_class) (n : nat) (leaf : AST) :
  (2 * n + frames_needed leaf <= frames_needed (chain k n leaf))%nat.
Proof.
  induction n as [|n IH]; [simpl; lia|].
  cbn [chain]. rewrite (frames_needed_eq (Node _ _ _ _ _)).
  unfold frames_of, iter_child_nodes. cbn [fields map snd fold_right cls].
  destruct (has_visit_method k); lia.
Qed.

(** Whatever the recursion limit, some tree is too deep for it: a chain of
    as many nodes as there are frames left. *)
Lemma build_context_deep_tree (frames : nat) (k : ast_class) (leaf : AST) :
  build_context frames (chain k frames leaf) = Raise RecursionError.
Proof.
  apply build_context_Raise.
  pose proof (frames_needed_chain k frames leaf) as H.
  rewrite (frames_needed_eq leaf) in H. cbn [frames_of] in H.
  destruct (has_visit_method (cls leaf)); lia.
Qed.

End VisitorFacts.

(* ------------------------------------------------------------------ *)
(** ** Facts about scores *)

Section ScoreFacts.

Lemma sum_points_app (l r : list Violation.t) :
  sum_points (l ++ r) = sum_points l + sum_points r.
Proof.
  induction l as [|v l IH]; [reflexivity|].
  change (Violation.points_deducted v + sum_points (l ++ r)
          = Violation.points_deducted v + sum_points l + sum_points r).
  rewrite IH. lia.
Qed.

Lemma sum_points_nonneg (l : list Violation.t) :
  Forall deducts_nonneg l -> 0 <= sum_points l.
Proof.
  unfold sum_points, deducts_nonneg.
  induction 1 as [|v l Hv _ IH]; simpl; lia.
Qed.

Lemma py_min_le_init (xs : list Z) (x : Z) : py_min x xs <= x.
Proof.
  unfold py_min. revert x; induction xs as [|y ys IH]; intros x; simpl.
  - lia.
  - specialize (IH (Z.min x y)). lia.
Qed.

Lemma py_min_lower (xs : list Z) (x y : Z) :
  In y (x :: xs) -> py_min x xs <= y.
Proof.
  unfold py_min. revert x; induction xs as [|z zs IH]; intros x; simpl.
  - intros [->|[]]. lia.
  - pose proof (py_min_le_init zs (Z.min x z)) as P. unfold py_min in P.
    intros [E|[E|H]]; [lia|lia|]. apply IH. now right.
Qed.

Lemma py_min_In (xs : list Z) (x : Z) : In (py_min x xs) (x :: xs).
Proof.
  unfold py_min. revert x; induction xs as [|z zs IH]; intros x; simpl.
  - now left.
  - destruct (IH (Z.min x z)) as [H|H].
    + destruct (Z.min_spec x z) as [[_ E]|[_ E]];
        [left|right; left]; congruence.
    + auto.
Qed.

End ScoreFacts.

(* ------------------------------------------------------------------ *)
(** ** Facts about the orchestration *)

Section AnalyzerFacts.

Import TestabilityAnalyzer.

Variable self : t.
Variable context : AnalysisContext.t.

Let rules := RuleRegistry.get_all_rules (rule_registry self).

Lemma extend_loop_acc (node : AST) (rs : list TestabilityRule.t)
    (acc : list Violation.t) :
  for_each (fun violations rule =>
              rule_violations <- TestabilityRule.evaluate rule node context;;
              Ok (violations ++ rule_violations)) rs acc
  = (vs <- for_each (fun violations rule =>
                       rule_violations <- TestabilityRule.evaluate rule node context;;
                       Ok (violations ++ rule_violations)) rs [];;
     Ok (acc ++ vs)).
Proof.
  revert acc; induction rs as [|r rs IH]; intros acc; simpl.
  - now rewrite app_nil_r.
  - destruct (TestabilityRule.evaluate r node context) as [rv|e]; simpl;
      [|reflexivity].
    rewrite (IH (acc ++ rv)), (IH rv).
    destruct (for_each _ rs []) as [vs|e]; simpl; [|reflexivity].
    now rewrite app_assoc.
Qed.

Lemma extend_with_rules_acc (node : AST) (acc : list Violation.t) :
  extend_with_rules self node context acc
  = (vs <- extend_with_rules self node context [];; Ok (acc ++ vs)).
Proof. apply extend_loop_acc. Qed.

Lemma extend_loop_inv (node : AST) (rs : list TestabilityRule.t)
    (vs : list Violation.t) :
  for_each (fun violations rule =>
              rule_violations <- TestabilityRule.evaluate rule node context;;
              Ok (violations ++ rule_violations)) rs [] = Ok vs ->
  exists vss,
    Forall2 (fun rule rv => TestabilityRule.evaluate rule node context = Ok rv)
            rs vss
    /\ vs = List.concat vss.
Proof.
  revert vs; induction rs as [|r rs IH]; intros vs; simpl.
  - intros [= <-]. exists []. split; constructor.
  - destruct (TestabilityRule.evaluate r node context) as [rv|e] eqn:E; simpl;
      [|discriminate].
    rewrite extend_loop_acc.
    intros H. apply bind_Ok in H. destruct H as [vs' [H [= <-]]].
    destruct (IH _ H) as [vss [HF ->]].
    exists (rv :: vss). split; [now constructor|reflexivity].
Qed.

(** The violations of a construct are the registered rules' answers on it,
    concatenated in registry order. *)
Lemma extend_with_rules_inv (node : AST) (vs : list Violation.t) :
  extend_with_rules self node context [] = Ok vs ->
  exists vss, rule_outcomes self context node vss /\ vs = List.concat vss.
Proof. apply extend_loop_inv. Qed.

Lemma extend_loop_returns (node : AST) (rs : list TestabilityRule.t)
    (acc : list Violation.t) :
  (forall rule, In rule rs ->
                returns (TestabilityRule.evaluate rule node context)) ->
  returns (for_each
             (fun violations rule =>
                rule_violations <- TestabilityRule.evaluate rule node context;;
                Ok (violations ++ rule_violations)) rs acc).
Proof.
  revert acc; induction rs as [|r rs IH]; intros acc H; simpl.
  - now exists acc.
  - destruct (H r (or_introl eq_refl)) as [rv ->]. simpl.
    apply IH. intros rule Hr. apply H. now right.
Qed.

Lemma score_of_inv (node : AST) (s : FunctionScore.t) :
  score_of self node context = Ok s ->
  exists vs,
    extend_with_rules self node context [] = Ok vs
    /\ s = ScoreCalculator.calculate_function_score
             (score_calculator self) (Ast.name node) (lineno node) vs.
Proof.
  unfold score_of. intros H. apply bind_Ok in H.
  destruct H as [vs [H [= <-]]]. eauto.
Qed.

Lemma analyze_functions_inv (tree : AST) (function_scores : list FunctionScore.t) :
  _analyze_functions self tree context = Ok function_scores ->
  Forall2 (fun node s => score_of self node context = Ok s)
          (filter is_function (walk tree)) function_scores.
Proof.
  unfold _analyze_functions. intros H.
  apply (for_each_collect is_function
           (fun node => score_of self node context)) in H.
  destruct H as [new [-> H]]. exact H.
Qed.

Lemma analyze_classes_inv (tree : AST) (class_scores : list ClassScore.t) :
  _analyze_classes self tree context = Ok class_scores ->
  Forall2 (fun node c => class_score_of self node context = Ok c)
          (filter is_class (walk tree)) class_scores.
Proof.
  unfold _analyze_classes. intros H.
  apply (for_each_collect is_class
           (fun node => class_score_of self node context)) in H.
  destruct H as [new [-> H]]. exact H.
Qed.

Lemma class_body_loop_inv (items : list AST)
    (cv0 cv : list Violation.t) (ms0 ms : list FunctionScore.t) :
  for_each
    (fun acc item =>
       let '(constructor_violations, method_scores) := acc in
       if is_constructor item then
         constructor_violations <-
           extend_with_rules self item context constructor_violations;;
         Ok (constructor_violations, method_scores)
       else if is_function item then
         method_score <- score_of self item context;;
         Ok (constructor_violations, method_scores ++ [method_score])
       else Ok acc)
    items (cv0, ms0) = Ok (cv, ms) ->
  exists vss new,
    Forall2 (fun item vs => extend_with_rules self item context [] = Ok vs)
            (filter is_constructor items) vss
    /\ cv = cv0 ++ List.concat vss
    /\ Forall2 (fun item s => score_of self item context = Ok s)
               (filter is_method items) new
    /\ ms = ms0 ++ new.
Proof.
  revert cv0 ms0; induction items as [|item items IH]; intros cv0 ms0; simpl.
  - intros [= <- <-]. exists [], []. rewrite !app_nil_r.
    repeat split; constructor.
  - unfold is_method at 1. destruct (is_constructor item) eqn:C; simpl.
    + rewrite extend_with_rules_acc.
      destruct (extend_with_rules self item context []) as [vs|e] eqn:E;
        simpl; [|discriminate].
      intros H. destruct (IH _ _ H) as [vss [new [H1 [-> [H2 ->]]]]].
      exists (vs :: vss), new. simpl. rewrite <- app_assoc.
      repeat split; try assumption. now constructor.
    + destruct (is_function item) eqn:F; simpl.
      * destruct (score_of self item context) as [s|e] eqn:E; simpl;
          [|discriminate].
        intros H. destruct (IH _ _ H) as [vss [new [H1 [-> [H2 ->]]]]].
        exists vss, (s :: new). rewrite <- app_assoc.
        repeat split; try assumption. now constructor.
      * apply IH.
Qed.

Lemma class_score_of_inv (node : AST) (c : ClassScore.t) :
  class_score_of self node context = Ok c ->
  ClassScore.name c = Ast.name node
  /\ ClassScore.line_number c = lineno node
  /\ (exists vss,
        Forall2 (fun item vs => extend_with_rules self item context [] = Ok vs)
                (filter is_constructor (field "body" node)) vss
        /\ ClassScore.constructor_violations c = List.concat vss)
  /\ Forall2 (fun item s => score_of self item context = Ok s)
             (filter is_method (field "body" node))
             (ClassScore.method_scores c).
Proof.
  unfold class_score_of, analyze_class_body. intros H.
  apply bind_Ok in H. destruct H as [[cv ms] [H [= <-]]]. simpl.
  apply class_body_loop_inv in H.
  destruct H as [vss [new [H1 [-> [H2 ->]]]]]. simpl. eauto 6.
Qed.

Lemma score_of_returns (tree node : AST) :
  rules_return_on self context tree ->
  In node (walk tree) -> is_function node = true ->
  returns (score_of self node context).
Proof.
  intros H Hn Hf. unfold score_of.
  destruct (@extend_loop_returns node rules []) as [vs E].
  { intros rule Hr. now apply (H rule node). }
  unfold extend_with_rules. fold rules. rewrite E. simpl.
  now eexists.
Qed.

Lemma is_constructor_function (item : AST) :
  is_constructor item = true -> is_function item = true.
Proof.
  unfold is_constructor, is_function, isinstance. simpl.
  destruct (ast_class_eqb (cls item) FunctionDef); simpl; [reflexivity|].
  discriminate.
Qed.

Lemma class_body_loop_returns (items : list AST)
    (acc : list Violation.t * list FunctionScore.t) :
  (forall rule item, In rule rules -> In item items ->
                     is_function item = true ->
                     returns (TestabilityRule.evaluate rule item context)) ->
  returns
    (for_each
       (fun acc item =>
          let '(constructor_violations, method_scores) := acc in
          if is_constructor item then
            constructor_violations <-
              extend_with_rules self item context constructor_violations;;
            Ok (constructor_violations, method_scores)
          else if is_function item then
            method_score <- score_of self item context;;
            Ok (constructor_violations, method_scores ++ [method_score])
          else Ok acc)
       items acc).
Proof.
  revert acc; induction items as [|item items IH]; intros [cv ms] H; simpl.
  - now eexists.
  - assert (Hrest : forall rule it, In rule rules -> In it items ->
                      is_function it = true ->
                      returns (TestabilityRule.evaluate rule it context)).
    { intros rule it Hr Hi. apply H; [exact Hr|now right]. }
    assert (Hitem : is_function item = true ->
                    forall acc, returns (extend_with_rules self item context acc)).
    { intros F acc. apply extend_loop_returns.
      intros rule Hr. apply H; [exact Hr|now left|exact F]. }
    destruct (is_constructor item) eqn:C.
    + destruct (Hitem (is_constructor_function _ C) cv) as [cv' ->]. simpl.
      now apply IH.
    + destruct (is_function item) eqn:F.
      * unfold score_of. destruct (Hitem eq_refl []) as [vs ->]. simpl.
        now apply IH.
      * now apply IH.
Qed.

End AnalyzerFacts.

Section AnalyzeTree.

Import TestabilityAnalyzer.

Variable self : t.
Variable frames : nat.

Lemma analyze_tree_returns (file_path : string) (tree : AST) :
  returns (build_context frames tree) ->
  rules_return_on self (context_of tree) tree ->
  returns (analyze_tree frames self file_path tree).
Proof.
  intros [context B] H. unfold analyze_tree. rewrite B.
  apply build_context_Ok in B. subst context. cbn [bind].
  destruct (for_each_collect_returns is_function
              (fun node => score_of self node (context_of tree))
              (walk tree) []) as [function_scores E].
  { intros node Hn Hf. now apply (@score_of_returns self _ tree). }
  unfold _analyze_functions. rewrite E. simpl.
  destruct (for_each_collect_returns is_class
              (fun node => class_score_of self node (context_of tree))
              (walk tree) []) as [class_scores E'].
  { intros node Hn Hc. unfold class_score_of, analyze_class_body.
    destruct (@class_body_loop_returns self (context_of tree)
                (field "body" node) ([], [])) as [b ->].
    - intros rule item Hr Hi Hf. apply (H rule item Hr); [|exact Hf].
      eapply walk_field; eauto.
    - simpl. now eexists. }
  unfold _analyze_classes. rewrite E'. simpl. now eexists.
Qed.

(** An analysis that returns has built the context of the tree. *)
Lemma analyze_tree_context (file_path : string) (tree : AST) (fs : FileScore.t) :
  analyze_tree frames self file_path tree = Ok fs ->
  build_context frames tree = Ok (context_of tree).
Proof.
  unfold analyze_tree. intros H.
  apply bind_Ok in H. destruct H as [context [B _]].
  rewrite B. f_equal. now apply build_context_Ok in B.
Qed.

Lemma analyze_tree_inv (file_path : string) (tree : AST) (fs : FileScore.t) :
  analyze_tree frames self file_path tree = Ok fs ->
  exists function_scores class_scores,
    _analyze_functions self tree (context_of tree) = Ok function_scores
    /\ _analyze_classes self tree (context_of tree) = Ok class_scores
    /\ FileScore.function_scores fs = function_scores
    /\ FileScore.class_scores fs = class_scores
    /\ FileScore.overall_score fs
       = match all_scores function_scores class_scores with
         | x :: xs => py_min x xs
         | [] => 100
         end
    /\ FileScore.red_flags fs
       = flat_map (fun score => filter Violation.is_red_flag
                                       (FunctionScore.violations score))
                  function_scores
         ++ flat_map ClassScore.constructor_violations class_scores
    /\ FileScore.classification fs
       = ThresholdClassifier.classify_file_score
           (threshold_classifier self) (FileScore.overall_score fs)
    /\ FileScore.file_path fs = file_path.
Proof.
  intros H. pose proof (analyze_tree_context _ _ H) as B.
  unfold analyze_tree in H. rewrite B in H. cbn [bind] in H.
  apply bind_Ok in H. destruct H as [function_scores [E1 H]].
  apply bind_Ok in H. destruct H as [class_scores [E2 H]].
  injection H as <-. exists function_scores, class_scores. simpl.
  repeat split; assumption.
Qed.

(** With the frames that the visit needs, the analysis is the same however
    many more there are. *)
Lemma analyze_tree_enough (file_path : string) (tree : AST) :
  (frames_needed tree <= frames)%nat ->
  analyze_tree frames self file_path tree
  = analyze_tree (frames_needed tree) self file_path tree.
Proof.
  intros H. unfold analyze_tree.
  rewrite (@build_context_enough frames tree H).
  now rewrite (@build_context_enough (frames_needed tree) tree (le_n _)).
Qed.

(** The exception of a context builder that raises is the exception of the
    analysis. *)
Lemma analyze_tree_no_context (file_path : string) (tree : AST) :
  (frames < frames_needed tree)%nat ->
  analyze_tree frames self file_path tree = Raise RecursionError.
Proof.
  intros H. unfold analyze_tree.
  now rewrite build_context_Raise by exact H.
Qed.

End AnalyzeTree.

(** The analyzer that [__init__] builds is one of those the statements
    below range over. *)
Lemma init_is_with_rules (bodies : rule_bodies) :
  TestabilityAnalyzer.__init__ bodies
  = TestabilityAnalyzer.with_rules
      (RuleRegistry.get_all_rules (RuleRegistry.__init__ bodies)).
Proof. reflexivity. Qed.

Lemma analyze_file_parsed (w : world) (frames : nat)
    (self : TestabilityAnalyzer.t) (file_path : string) (tree : AST) :
  w file_path = Ok tree ->
  TestabilityAnalyzer.analyze_file w frames self file_path
  = TestabilityAnalyzer.analyze_tree frames self file_path tree.
Proof.
  unfold TestabilityAnalyzer.analyze_file, parse_file. now intros ->.
Qed.

(* ------------------------------------------------------------------ *)
(** ** The score of a function (scoring.py) *)

Section FunctionScoreClaims.

Import ScoreCalculator.

Lemma final_score_formula (function_name : string) (line_number : Z)
    (V : list Violation.t) :
  FunctionScore.final_score
    (calculate_function_score __init__ function_name line_number V)
  = Z.max 0 (100 - sum_points V).
Proof. simpl. apply Z.max_comm. Qed.

(** C2: for every violation list V, [calculate_function_score] produces a
    FunctionScore whose final score is max(0, 100 - sum of points_deducted
    over V) and is never negative; it is at most 100 as soon as the points
    deducted are non-negative, as the data model has them.  The FunctionScore
    keeps the name, the line, the baseline 100 and V itself. *)
Theorem calculate_function_score_clamped (function_name : string)
    (line_number : Z) (V : list Violation.t) :
  let score := calculate_function_score __init__ function_name line_number V in
  FunctionScore.final_score score = Z.max 0 (100 - sum_points V)
  /\ 0 <= FunctionScore.final_score score
  /\ (Forall deducts_nonneg V -> FunctionScore.final_score score <= 100)
  /\ FunctionScore.violations score = V
  /\ FunctionScore.baseline_score score = 100
  /\ FunctionScore.name score = function_name
  /\ FunctionScore.line_number score = line_number.
Proof.
  cbv zeta. rewrite final_score_formula.
  repeat split; try reflexivity; try lia.
  intros H. apply sum_points_nonneg in H. lia.
Qed.

End FunctionScoreClaims.

Lemma calculate_function_score_clamped_witness :
  FunctionScore.final_score
    (ScoreCalculator.calculate_function_score
       ScoreCalculator.__init__ "test_func" 1 Fixtures.three_violations) = 75
  /\ FunctionScore.final_score
       (ScoreCalculator.calculate_function_score
          ScoreCalculator.__init__ "test_func" 1 Fixtures.thirty_violations) = 0
  /\ FunctionScore.final_score
       (ScoreCalculator.calculate_function_score
          ScoreCalculator.__init__ "test_func" 1 Fixtures.three_violations) <= 100.
Proof.
  pose proof (calculate_function_score_clamped "test_func" 1 Fixtures.three_violations)
    as [H3 [_ [B3 _]]].
  pose proof (calculate_function_score_clamped "test_func" 1 Fixtures.thirty_violations)
    as [H30 _].
  split; [exact H3|]. split; [exact H30|].
  apply B3. unfold Fixtures.three_violations, deducts_nonneg.
  repeat constructor; simpl; lia.
Defined.

(* ------------------------------------------------------------------ *)
(** ** Parse failures (ast_utils.py, analyzer.py) *)

Section ParseFailureClaims.

Import TestabilityAnalyzer.

(** C3, as the code has it: when reading or parsing the file raises
    SyntaxError or UnicodeDecodeError, [analyze_file] returns the FileScore
    with overall_score 0, classification "Parse Error" and empty function,
    class and red-flag lists, whatever the registered rules are and however
    few frames the recursion limit leaves (no rule is run, nor the context
    builder); any other exception of the read, such as the OSError of a
    missing or unreadable file, leaves [analyze_file] as it was raised. *)
Theorem analyze_file_parse_failure (w : world) (frames : nat) (self : t)
    (file_path : string) :
  (w file_path = Raise SyntaxError \/ w file_path = Raise UnicodeDecodeError ->
   analyze_file w frames self file_path
   = Ok {| FileScore.file_path := file_path;
           FileScore.overall_score := 0;
           FileScore.classification := "Parse Error";
           FileScore.function_scores := [];
           FileScore.class_scores := [];
           FileScore.red_flags := [] |})
  /\ (forall e, w file_path = Raise e ->
                e <> SyntaxError -> e <> UnicodeDecodeError ->
                analyze_file w frames self file_path = Raise e).
Proof.
  split.
  - unfold analyze_file, parse_file. intros [-> | ->]; reflexivity.
  - unfold analyze_file, parse_file. intros e -> H1 H2.
    destruct e; try reflexivity; contradiction.
Qed.

End ParseFailureClaims.

Lemma analyze_file_parse_failure_witness :
  TestabilityAnalyzer.analyze_file
    Fixtures.files 0
    (TestabilityAnalyzer.with_rules [BranchExplosionRule.rule]) "invalid.py"
  = Ok (TestabilityAnalyzer.parse_error "invalid.py")
  /\ TestabilityAnalyzer.analyze_file
       Fixtures.files 0
       (TestabilityAnalyzer.with_rules [BranchExplosionRule.rule]) "missing.py"
     = Raise OSError.
Proof.
  destruct (analyze_file_parse_failure
              Fixtures.files 0
              (TestabilityAnalyzer.with_rules [BranchExplosionRule.rule])
              "invalid.py") as [H _].
  destruct (analyze_file_parse_failure
              Fixtures.files 0
              (TestabilityAnalyzer.with_rules [BranchExplosionRule.rule])
              "missing.py") as [_ H'].
  split.
  - apply H. left. reflexivity.
  - apply H'; [reflexivity | discriminate | discriminate].
Defined.

(** C3, as the claim states it, fails: on a path that cannot be opened the
    analyzer built by [__init__] returns no FileScore, whatever the bodies of
    its rules and the recursion limit. *)
Lemma analyze_file_missing_file_raises :
  Fixtures.files "missing.py" = Raise OSError
  /\ ~ (exists bodies frames,
          returns (TestabilityAnalyzer.analyze_file
                     Fixtures.files frames (TestabilityAnalyzer.__init__ bodies)
                     "missing.py")).
Proof.
  split; [reflexivity|].
  intros [bodies [frames [fs H]]]. discriminate H.
Qed.

(* ------------------------------------------------------------------ *)
(** ** The External Dependency Count rule *)

Section ExternalDependencyFacts.

Import ExternalDependencyRule.

Lemma string_in_In (x : string) (l : list string) :
  string_in x l = true <-> In x l.
Proof.
  unfold string_in. rewrite existsb_exists. split.
  - intros [y [Hy E]]. apply String.eqb_eq in E. now subst.
  - intros H. exists x. split; [exact H|apply String.eqb_refl].
Qed.

Lemma set_add_In (x y : string) (s : list string) :
  In y (set_add x s) <-> y = x \/ In y s.
Proof.
  unfold set_add. destruct (existsb (String.eqb x) s) eqn:E.
  - split; [now right|]. intros [->|H]; [|exact H].
    now apply string_in_In.
  - rewrite in_app_iff. simpl. intuition.
Qed.

Lemma set_add_NoDup (x : string) (s : list string) :
  NoDup s -> NoDup (set_add x s).
Proof.
  intros H. unfold set_add. destruct (existsb (String.eqb x) s) eqn:E.
  - exact H.
  - assert (Hx : ~ In x s).
    { intros Hin. apply string_in_In in Hin. unfold string_in in Hin.
      congruence. }
    clear E. induction H as [|y s Hy Hs IH]; simpl.
    + constructor; [intros []|constructor].
    + constructor.
      * rewrite in_app_iff. simpl. intros [H|[H|[]]]; [now apply Hy|].
        apply Hx. now left.
      * apply IH. intros H. apply Hx. now right.
Qed.

Lemma classify_nonempty (call_node : AST) (dep_type : string) :
  _classify_dependency call_node = Some dep_type -> dep_type <> "".
Proof.
  assert (Hfind : forall f e, find f _dependency_types = Some e -> fst e <> "").
  { intros f e H. apply find_some in H. destruct H as [H _].
    simpl in H. intuition; subst; discriminate. }
  unfold _classify_dependency.
  destruct (child "func" call_node) as [func|]; [|discriminate].
  destruct (isinstance func [Name]).
  - destruct (find _ _dependency_types) as [e|] eqn:E; [|discriminate].
    intros [= <-]. eapply Hfind; eauto.
  - destruct (isinstance func [Attribute]); [|discriminate].
    destruct (child "value" func) as [value|]; [|discriminate].
    destruct (isinstance value [Name]); [|discriminate].
    destruct (find _ _dependency_types) as [e|] eqn:E; [|discriminate].
    intros [= <-]. eapply Hfind; eauto.
Qed.

Lemma detect_spec (acc : list string) (x : AST) :
  NoDup acc ->
  NoDup (detect acc x)
  /\ forall t, In t (detect acc x) <->
                In t acc
                \/ (isinstance x [Call] = true
                    /\ _classify_dependency x = Some t).
Proof.
  intros Hacc. unfold detect.
  destruct (isinstance x [Call]) eqn:C.
  - destruct (_classify_dependency x) as [d|] eqn:D.
    + pose proof (classify_nonempty _ D) as Hne.
      apply String.eqb_neq in Hne. rewrite Hne.
      split; [now apply set_add_NoDup|].
      intros t. rewrite set_add_In. split.
      * intros [->|H]; auto.
      * intros [H|[_ [= ->]]]; auto.
    + split; [exact Hacc|]. intros t. split; [auto|].
      intros [H|[_ H]]; [exact H|discriminate].
  - split; [exact Hacc|]. intros t. split; [auto|].
    intros [H|[H _]]; [exact H|discriminate].
Qed.

Lemma detected_loop (xs : list AST) (acc : list string) :
  NoDup acc ->
  NoDup (fold_left detect xs acc)
  /\ forall t, In t (fold_left detect xs acc) <->
                In t acc
                \/ exists c, In c xs /\ isinstance c [Call] = true
                             /\ _classify_dependency c = Some t.
Proof.
  revert acc; induction xs as [|x xs IH]; intros acc Hacc.
  - split; [exact Hacc|]. intros t. split; [now left|].
    intros [H|[c [[] _]]]. exact H.
  - destruct (detect_spec x Hacc) as [N1 M1].
    destruct (IH _ N1) as [N M].
    change (fold_left detect (x :: xs) acc)
      with (fold_left detect xs (detect acc x)).
    split; [exact N|]. intros t. rewrite M, M1. split.
    + intros [[H|[H1 H2]]|[c [Hc H]]].
      * now left.
      * right. exists x. split; [now left|auto].
      * right. exists c. split; [now right|auto].
    + intros [H|[c [[<-|Hc] H]]].
      * now left; left.
      * now left; right.
      * right. now exists c.
Qed.

(** One 5-point violation per distinct category of external call in the
    function, none that is a red flag. *)
Lemma external_dependency_per_category (node : AST) (context : AnalysisContext.t) :
  isinstance node [FunctionDef; AsyncFunctionDef] = true ->
  exists categories,
    NoDup categories
    /\ (forall t, In t categories <-> category_of_some_call node t)
    /\ evaluate node context = Ok (map (violation node) categories)
    /\ sum_points (map (violation node) categories)
       = 5 * Z.of_nat (List.length categories).
Proof.
  intros F. exists (detected_types node).
  destruct (detected_loop (walk node) (NoDup_nil string)) as [N M].
  split; [exact N|]. split.
  - intros t. unfold detected_types. rewrite M.
    unfold category_of_some_call. split; [intros [[]|H]; exact H|now right].
  - split.
    + unfold evaluate. now rewrite F.
    + clear. induction (detected_types node) as [|t l IH]; [reflexivity|].
      change (5 + sum_points (map (violation node) l)
              = 5 * Z.of_nat (S (List.length l))).
      rewrite IH. lia.
Qed.

End ExternalDependencyFacts.

(* ------------------------------------------------------------------ *)
(** ** The registry (rules/rule_registry.py) *)

Section RegistryClaims.

Import RuleRegistry.

(** C4, as the code has it: [get_all_rules] returns a fixed, ordered list
    of eleven rule instances: File I/O, Time, Randomness, Global State,
    Mixed I/O, Branch Explosion, Exception Control Flow, Constructor Side
    Effects, Hidden Imports, Parameter Count and Observability, with the
    penalties 10, 10, 10, 10, 8, 2, 5, 15, 5, 5, 5.  The External
    Dependency Count rule, which deducts 5 points for each distinct category
    of external call in a function, is not one of them. *)
Theorem get_all_rules_eleven (bodies : rule_bodies) :
  map TestabilityRule.rule_name (get_all_rules (__init__ bodies))
  = [ "Direct File I/O in Logic";
      "Non-Deterministic Time Usage";
      "Randomness Usage";
      "Global State Mutation";
      "Mixed I/O and Logic";
      "Branch Explosion Risk";
      "Exception-Driven Control Flow";
      "Constructor Side Effects";
      "Hidden Dependencies via Imports-in-Function";
      "Excessive Parameter Count";
      "Low Observability" ]
  /\ map TestabilityRule.penalty_points (get_all_rules (__init__ bodies))
     = [10; 10; 10; 10; 8; 2; 5; 15; 5; 5; 5]
  /\ List.length (get_all_rules (__init__ bodies)) = 11%nat
  /\ TestabilityRule.rule_name ExternalDependencyRule.rule
     = "External Dependency Count"
  /\ TestabilityRule.penalty_points ExternalDependencyRule.rule = 5
  /\ get_rule_by_name (__init__ bodies) "External Dependency Count" = None
  /\ ~ In ExternalDependencyRule.rule (get_all_rules (__init__ bodies))
  /\ (forall node context,
        isinstance node [FunctionDef; AsyncFunctionDef] = true ->
        exists categories,
          NoDup categories
          /\ (forall t, In t categories <-> category_of_some_call node t)
          /\ TestabilityRule.evaluate ExternalDependencyRule.rule node context
             = Ok (map (ExternalDependencyRule.violation node) categories)
          /\ sum_points (map (ExternalDependencyRule.violation node) categories)
             = 5 * Z.of_nat (List.length categories)).
Proof.
  do 6 (split; [reflexivity|]). split.
  - simpl. intros H.
    repeat (destruct H as [H|H]; [discriminate H|]). exact H.
  - intros node context H.
    exact (external_dependency_per_category node context H).
Qed.

End RegistryClaims.

(** C4, as the claim states it, fails: whatever the bodies of the rules, no
    rule of the registry is named External Dependency Count. *)
Lemma external_dependency_rule_not_registered :
  ~ (exists bodies,
       In "External Dependency Count"
          (map TestabilityRule.rule_name
               (RuleRegistry.get_all_rules (RuleRegistry.__init__ bodies)))).
Proof.
  intros [bodies H]. simpl in H.
  repeat (destruct H as [H|H]; [discriminate H|]). exact H.
Qed.

(* ------------------------------------------------------------------ *)
(** ** The file score (analyzer.py, scoring.py) *)

Section FileScoreClaims.

Import TestabilityAnalyzer WorstScore.

Lemma all_scores_same (function_scores : list FunctionScore.t)
    (class_scores : list ClassScore.t) :
  all_scores function_scores class_scores
  = ScoreCalculator.all_scores ScoreCalculator.__init__
                               function_scores class_scores.
Proof. reflexivity. Qed.

Lemma sum_points_nil_inv (c : ClassScore.t) :
  has_constructor_violation c = false ->
  sum_points (ClassScore.constructor_violations c) = 0.
Proof.
  unfold has_constructor_violation.
  destruct (ClassScore.constructor_violations c); [reflexivity|discriminate].
Qed.

(** A score that [analyze_file] collects is one of the pool. *)
Lemma all_scores_in_pool (function_scores : list FunctionScore.t)
    (class_scores : list ClassScore.t) (y : Z) :
  In y (all_scores function_scores class_scores) ->
  In y (pool function_scores class_scores).
Proof.
  unfold all_scores, pool. rewrite <- app_assoc, !in_app_iff.
  intros [H|[H|H]]; [now left|now right; left|right; right].
  apply in_flat_map in H. destruct H as [c [Hc H]].
  destruct (0 <? sum_points (ClassScore.constructor_violations c)) eqn:P;
    [|contradiction].
  destruct H as [<-|[]]. apply Z.ltb_lt in P.
  apply in_map_iff. exists c. split.
  - unfold derived_constructor_score. apply Z.max_comm.
  - apply filter_In. split; [exact Hc|].
    destruct (has_constructor_violation c) eqn:E; [reflexivity|].
    apply sum_points_nil_inv in E. lia.
Qed.

(** A score of the pool is collected by [analyze_file], or is the 100 of a
    constructor whose violations deduct nothing. *)
Lemma pool_in_all_scores (function_scores : list FunctionScore.t)
    (class_scores : list ClassScore.t) (y : Z) :
  (forall c, In c class_scores ->
             Forall deducts_nonneg (ClassScore.constructor_violations c)) ->
  In y (pool function_scores class_scores) ->
  In y (all_scores function_scores class_scores) \/ y = 100.
Proof.
  intros Hnn. unfold all_scores, pool. rewrite <- app_assoc, !in_app_iff.
  intros [H|[H|H]]; [now left; left|now left; right; left|].
  apply in_map_iff in H. destruct H as [c [<- H]].
  apply filter_In in H. destruct H as [Hc _].
  pose proof (sum_points_nonneg (Hnn c Hc)) as P.
  unfold derived_constructor_score.
  destruct (0 <? sum_points (ClassScore.constructor_violations c)) eqn:E.
  - left. right. right. apply in_flat_map. exists c. split; [exact Hc|].
    rewrite E. left. apply Z.max_comm.
  - right. apply Z.ltb_ge in E. lia.
Qed.

Lemma all_scores_le_100 (function_scores : list FunctionScore.t)
    (class_scores : list ClassScore.t) (y : Z) :
  (forall s, In s function_scores -> FunctionScore.final_score s <= 100) ->
  (forall c s, In c class_scores -> In s (ClassScore.method_scores c) ->
               FunctionScore.final_score s <= 100) ->
  In y (all_scores function_scores class_scores) -> y <= 100.
Proof.
  intros Hf Hm. unfold all_scores. rewrite <- app_assoc, !in_app_iff.
  intros [H|[H|H]].
  - apply in_map_iff in H. destruct H as [s [<- H]]. auto.
  - apply in_flat_map in H. destruct H as [c [Hc H]].
    apply in_map_iff in H. destruct H as [s [<- H]]. eauto.
  - apply in_flat_map in H. destruct H as [c [Hc H]].
    destruct (0 <? sum_points (ClassScore.constructor_violations c)) eqn:P;
      [|contradiction].
    destruct H as [<-|[]]. apply Z.ltb_lt in P. lia.
Qed.

(** What [analyze_file] computes from its two lists is the worst score of
    the pool. *)
Lemma worst_score_of_lists (function_scores : list FunctionScore.t)
    (class_scores : list ClassScore.t) :
  (forall s, In s function_scores -> FunctionScore.final_score s <= 100) ->
  (forall c s, In c class_scores -> In s (ClassScore.method_scores c) ->
               FunctionScore.final_score s <= 100) ->
  (forall c, In c class_scores ->
             Forall deducts_nonneg (ClassScore.constructor_violations c)) ->
  worst_score (pool function_scores class_scores)
              match all_scores function_scores class_scores with
              | x :: xs => py_min x xs
              | [] => 100
              end.
Proof.
  intros Hf Hm Hc.
  pose proof (@all_scores_in_pool function_scores class_scores) as In1.
  pose proof (@pool_in_all_scores function_scores class_scores) as In2.
  pose proof (@all_scores_le_100 function_scores class_scores) as Le.
  destruct (all_scores function_scores class_scores) as [|x xs] eqn:E.
  - unfold worst_score.
    destruct (pool function_scores class_scores) as [|y ys]; [reflexivity|].
    assert (All : forall z, In z (y :: ys) -> z = 100).
    { intros z Hz. destruct (In2 z Hc Hz) as [[]|H]. exact H. }
    split.
    + left. apply All. now left.
    + intros z Hz. rewrite (All z Hz). lia.
  - assert (Hmin : In (py_min x xs) (pool function_scores class_scores)).
    { apply In1. apply py_min_In. }
    unfold worst_score.
    destruct (pool function_scores class_scores) as [|y ys]; [contradiction|].
    split; [exact Hmin|].
    intros z Hz. destruct (In2 z Hc Hz) as [H| ->].
    + now apply py_min_lower.
    + apply Le; auto. apply py_min_In.
Qed.

Lemma Forall2_In_r {A B} (R : A -> B -> Prop) (l : list A) (l' : list B)
    (y : B) :
  Forall2 R l l' -> In y l' -> exists x, In x l /\ R x y.
Proof.
  induction 1 as [|x y' l l' HR _ IH]; simpl; [intros []|].
  intros [<-|H]; [eauto|]. destruct (IH H) as [x' [Hx HR']]. eauto.
Qed.

Lemma Forall2_In_l {A B} (R : A -> B -> Prop) (l : list A) (l' : list B)
    (x : A) :
  Forall2 R l l' -> In x l -> exists y, In y l' /\ R x y.
Proof.
  induction 1 as [|x' y l l' HR _ IH]; simpl; [intros []|].
  intros [<-|H]; [eauto|]. destruct (IH H) as [y' [Hy HR']]. eauto.
Qed.

(** The FunctionScore invariant, for the scores the analyzer computes. *)
Lemma score_of_final (rules : list TestabilityRule.t)
    (context : AnalysisContext.t) (node : AST) (s : FunctionScore.t) :
  score_of (with_rules rules) node context = Ok s ->
  FunctionScore.final_score s
  = Z.max 0 (100 - sum_points (FunctionScore.violations s))
  /\ FunctionScore.name s = Ast.name node
  /\ FunctionScore.line_number s = lineno node
  /\ FunctionScore.baseline_score s = 100.
Proof.
  intros H. apply score_of_inv in H. destruct H as [vs [_ ->]].
  simpl. repeat split. apply Z.max_comm.
Qed.

Lemma final_le_100 (s : FunctionScore.t) :
  FunctionScore.final_score s
  = Z.max 0 (100 - sum_points (FunctionScore.violations s)) ->
  Forall deducts_nonneg (FunctionScore.violations s) ->
  FunctionScore.final_score s <= 100.
Proof. intros -> H. apply sum_points_nonneg in H. lia. Qed.

(** The overall score of an analysis that returns is the worst score of
    what its two lists hold, and what [aggregate_file_score] returns on
    them. *)
Lemma overall_score_of_lists_is_worst (w : world) (frames : nat)
    (rules : list TestabilityRule.t) (file_path : string) (tree : AST)
    (fs : FileScore.t) :
  w file_path = Ok tree ->
  analyze_file w frames (with_rules rules) file_path = Ok fs ->
  Forall deducts_nonneg (violations_of fs) ->
  worst_score (pool (FileScore.function_scores fs) (FileScore.class_scores fs))
              (FileScore.overall_score fs)
  /\ FileScore.overall_score fs
     = ScoreCalculator.aggregate_file_score
         ScoreCalculator.__init__
         (FileScore.function_scores fs) (FileScore.class_scores fs).
Proof.
  intros Hw H Hnn. rewrite (@analyze_file_parsed w frames (with_rules rules) file_path tree Hw) in H.
  apply analyze_tree_inv in H.
  destruct H as [function_scores [class_scores
                   [Hf [Hc [Ef [Ec [Eo _]]]]]]].
  rewrite Eo. subst function_scores class_scores.
  apply analyze_functions_inv in Hf. apply analyze_classes_inv in Hc.
  unfold violations_of in Hnn. rewrite Forall_app in Hnn.
  destruct Hnn as [Nf Nc]. rewrite Forall_forall in Nf, Nc.
  split.
  - apply worst_score_of_lists.
    + intros s Hs. destruct (Forall2_In_r s Hf Hs) as [node [_ Hn]].
      apply score_of_final in Hn. destruct Hn as [Hn _].
      apply final_le_100; [exact Hn|].
      apply Forall_forall. intros v Hv. apply Nf.
      apply in_flat_map. eauto.
    + intros c s Hcin Hs. destruct (Forall2_In_r c Hc Hcin) as [node [_ Hn]].
      apply class_score_of_inv in Hn. destruct Hn as [_ [_ [_ Hm]]].
      destruct (Forall2_In_r s Hm Hs) as [item [_ Hi]].
      apply score_of_final in Hi. destruct Hi as [Hi _].
      apply final_le_100; [exact Hi|].
      apply Forall_forall. intros v Hv. apply Nc.
      apply in_flat_map. exists c. split; [exact Hcin|].
      apply in_or_app. right. apply in_flat_map. eauto.
    + intros c Hcin. apply Forall_forall. intros v Hv. apply Nc.
      apply in_flat_map. exists c. split; [exact Hcin|].
      apply in_or_app. now left.
  - unfold ScoreCalculator.aggregate_file_score.
    change (ScoreCalculator.all_scores ScoreCalculator.__init__
              (FileScore.function_scores fs) (FileScore.class_scores fs))
      with (all_scores (FileScore.function_scores fs)
                       (FileScore.class_scores fs)).
    now destruct (all_scores _ _).
Qed.

End FileScoreClaims.

(* ------------------------------------------------------------------ *)
(** ** What the analyzer enumerates (analyzer.py) *)

Section EnumerationClaims.

Import TestabilityAnalyzer.

Variable w : world.
Variable frames : nat.
Variable rules : list TestabilityRule.t.
Variable file_path : string.
Variable tree : AST.
Variable fs : FileScore.t.

Hypothesis parsed : w file_path = Ok tree.
Hypothesis analyzed : analyze_file w frames (with_rules rules) file_path = Ok fs.

Lemma function_scores_of_tree :
  Forall2 (fun node s => score_of (with_rules rules) node (context_of tree) = Ok s)
          (filter is_function (walk tree)) (FileScore.function_scores fs).
Proof.
  pose proof analyzed as H.
  rewrite (@analyze_file_parsed w frames (with_rules rules) file_path tree parsed) in H.
  apply analyze_tree_inv in H.
  destruct H as [function_scores [class_scores [Hf [_ [Ef _]]]]].
  subst function_scores. now apply analyze_functions_inv.
Qed.

Lemma class_scores_of_tree :
  Forall2 (fun node c => class_score_of (with_rules rules) node (context_of tree) = Ok c)
          (filter is_class (walk tree)) (FileScore.class_scores fs).
Proof.
  pose proof analyzed as H.
  rewrite (@analyze_file_parsed w frames (with_rules rules) file_path tree parsed) in H.
  apply analyze_tree_inv in H.
  destruct H as [function_scores [class_scores [_ [Hc [_ [Ec _]]]]]].
  subst class_scores. now apply analyze_classes_inv.
Qed.

Lemma red_flags_of_lists :
  FileScore.red_flags fs
  = flat_map (fun score => filter Violation.is_red_flag
                                  (FunctionScore.violations score))
             (FileScore.function_scores fs)
    ++ flat_map ClassScore.constructor_violations (FileScore.class_scores fs).
Proof.
  pose proof analyzed as H.
  rewrite (@analyze_file_parsed w frames (with_rules rules) file_path tree parsed) in H.
  apply analyze_tree_inv in H.
  destruct H as [function_scores [class_scores
                   [_ [_ [Ef [Ec [_ [Er _]]]]]]]].
  now subst function_scores class_scores.
Qed.

Lemma overall_score_of_lists :
  FileScore.overall_score fs
  = match all_scores (FileScore.function_scores fs)
                     (FileScore.class_scores fs) with
    | x :: xs => py_min x xs
    | [] => 100
    end.
Proof.
  pose proof analyzed as H.
  rewrite (@analyze_file_parsed w frames (with_rules rules) file_path tree parsed) in H.
  apply analyze_tree_inv in H.
  destruct H as [function_scores [class_scores
                   [_ [_ [Ef [Ec [Eo _]]]]]]].
  now subst function_scores class_scores.
Qed.

(** A function or async-function definition anywhere below a class (or
    anywhere else in the tree) is scored as a function. *)
Lemma definition_in_function_scores (node : AST) :
  In node (walk tree) -> is_function node = true ->
  exists s, In s (FileScore.function_scores fs)
            /\ score_of (with_rules rules) node (context_of tree) = Ok s.
Proof.
  intros Hn Hf. apply (Forall2_In_l node function_scores_of_tree).
  apply filter_In. now split.
Qed.

Lemma class_in_class_scores (node : AST) :
  In node (walk tree) -> is_class node = true ->
  exists c, In c (FileScore.class_scores fs)
            /\ class_score_of (with_rules rules) node (context_of tree) = Ok c.
Proof.
  intros Hn Hc. apply (Forall2_In_l node class_scores_of_tree).
  apply filter_In. now split.
Qed.

End EnumerationClaims.

Section FunctionListClaims.

Import TestabilityAnalyzer.

Lemma score_names (rules : list TestabilityRule.t) (context : AnalysisContext.t)
    (nodes : list AST) (scores : list FunctionScore.t) :
  Forall2 (fun node s => score_of (with_rules rules) node context = Ok s)
          nodes scores ->
  map (fun s => (FunctionScore.name s, FunctionScore.line_number s)) scores
  = map (fun node => (Ast.name node, lineno node)) nodes.
Proof.
  induction 1 as [|node s nodes scores H _ IH]; simpl; [reflexivity|].
  apply score_of_final in H. destruct H as [_ [-> [-> _]]]. now rewrite IH.
Qed.

(** A method has the same FunctionScore in [function_scores] and in the
    [method_scores] of its class. *)
Lemma method_scored_as_function (w : world) (frames : nat)
    (rules : list TestabilityRule.t) (file_path : string) (tree : AST)
    (fs : FileScore.t) (class method : AST) :
  w file_path = Ok tree ->
  analyze_file w frames (with_rules rules) file_path = Ok fs ->
  In class (walk tree) -> is_class class = true ->
  In method (field "body" class) -> is_method method = true ->
  exists s c,
    In s (FileScore.function_scores fs)
    /\ FunctionScore.name s = Ast.name method
    /\ FunctionScore.line_number s = lineno method
    /\ In c (FileScore.class_scores fs)
    /\ ClassScore.name c = Ast.name class
    /\ In s (ClassScore.method_scores c).
Proof.
  intros Hw H Hc Hic Hm Him.
  assert (Hf : is_function method = true).
  { unfold is_method in Him. apply andb_true_iff in Him. tauto. }
  destruct (@definition_in_function_scores w frames rules file_path tree fs Hw H
              method) as [s [Hs Es]];
    [eapply walk_field; eauto | exact Hf |].
  destruct (@class_in_class_scores w frames rules file_path tree fs Hw H
              class Hc Hic) as [c [Hcin Ec]].
  exists s, c. pose proof (score_of_final _ _ _ Es) as [_ [Hn [Hl _]]].
  apply class_score_of_inv in Ec. destruct Ec as [Ecn [_ [_ Hms]]].
  repeat split; try assumption.
  assert (Hin : In method (filter is_method (field "body" class))).
  { apply filter_In. now split. }
  destruct (Forall2_In_l method Hms Hin) as [s' [Hs' Es']].
  rewrite Es in Es'. now injection Es' as <-.
Qed.

(** C5, as the code has it: the function scores of a file are those of
    every function or async-function definition that [ast.walk] meets in
    the tree, in that order, and not of the top-level ones only.  A method
    of a class has its FunctionScore in [function_scores] as well as in the
    [method_scores] of its class. *)
Theorem function_scores_list_every_definition (w : world) (frames : nat)
    (rules : list TestabilityRule.t) (file_path : string) (tree : AST)
    (fs : FileScore.t) :
  w file_path = Ok tree ->
  analyze_file w frames (with_rules rules) file_path = Ok fs ->
  map (fun s => (FunctionScore.name s, FunctionScore.line_number s))
      (FileScore.function_scores fs)
  = map (fun node => (Ast.name node, lineno node))
        (filter is_function (walk tree))
  /\ forall class method,
       In class (walk tree) -> is_class class = true ->
       In method (field "body" class) -> is_method method = true ->
       exists s c,
         In s (FileScore.function_scores fs)
         /\ FunctionScore.name s = Ast.name method
         /\ FunctionScore.line_number s = lineno method
         /\ In c (FileScore.class_scores fs)
         /\ ClassScore.name c = Ast.name class
         /\ In s (ClassScore.method_scores c).
Proof.
  intros Hw H. split.
  - apply score_names with (rules := rules) (context := context_of tree).
    exact (@function_scores_of_tree w frames rules file_path tree fs Hw H).
  - intros class method Hc Hic Hm Him.
    now apply (@method_scored_as_function w frames rules file_path tree fs
                 class method).
Qed.

End FunctionListClaims.

Lemma function_scores_list_every_definition_witness :
  exists fs,
    TestabilityAnalyzer.analyze_file
      Fixtures.files 100 Fixtures.returning_analyzer "simple.py" = Ok fs
    /\ map (fun s => (FunctionScore.name s, FunctionScore.line_number s))
           (FileScore.function_scores fs)
       = [ ("calculate_area", 2); ("format_result", 5);
           ("__init__", 9); ("area", 13) ]
    /\ exists s c,
         In s (FileScore.function_scores fs)
         /\ FunctionScore.name s = "area"
         /\ FunctionScore.line_number s = 13
         /\ In c (FileScore.class_scores fs)
         /\ ClassScore.name c = "Rectangle"
         /\ In s (ClassScore.method_scores c).
Proof.
  eexists. split; [vm_compute; reflexivity|].
  destruct (@function_scores_list_every_definition
              Fixtures.files 100 Fixtures.returning_rules "simple.py"
              Fixtures.simple_py _ eq_refl eq_refl) as [Hnames Hmethods].
  split; [exact Hnames|].
  apply (Hmethods Fixtures.Rectangle Fixtures.Rectangle_area).
  - in_list.
  - reflexivity.
  - in_list.
  - reflexivity.
Defined.

Section RedFlagClaims.

Import TestabilityAnalyzer.

(** C6, as the code has it: the red flags of a file are the red-flag
    violations of its function scores followed by every constructor
    violation of its classes, red flag or not.  Since the function scores
    include the methods, a red-flag violation of a non-constructor method is
    one of the file's red flags. *)
Theorem red_flags_include_method_red_flags (w : world) (frames : nat)
    (rules : list TestabilityRule.t) (file_path : string) (tree : AST)
    (fs : FileScore.t) :
  w file_path = Ok tree ->
  analyze_file w frames (with_rules rules) file_path = Ok fs ->
  FileScore.red_flags fs
  = flat_map (fun score => filter Violation.is_red_flag
                                  (FunctionScore.violations score))
             (FileScore.function_scores fs)
    ++ flat_map ClassScore.constructor_violations (FileScore.class_scores fs)
  /\ forall class method,
       In class (walk tree) -> is_class class = true ->
       In method (field "body" class) -> is_method method = true ->
       exists s c,
         In c (FileScore.class_scores fs)
         /\ ClassScore.name c = Ast.name class
         /\ In s (ClassScore.method_scores c)
         /\ FunctionScore.name s = Ast.name method
         /\ forall v, In v (FunctionScore.violations s) ->
                      Violation.is_red_flag v = true ->
                      In v (FileScore.red_flags fs).
Proof.
  intros Hw H.
  pose proof (@red_flags_of_lists w frames rules file_path tree fs Hw H) as Er.
  split; [exact Er|].
  intros class method Hc Hic Hm Him.
  destruct (@method_scored_as_function w frames rules file_path tree fs
              class method Hw H Hc Hic Hm Him)
    as [s [c [Hs [Hn [_ [Hcin [Hcn Hms]]]]]]].
  exists s, c. repeat split; try assumption.
  intros v Hv Hred. rewrite Er. apply in_or_app. left.
  apply in_flat_map. exists s. split; [exact Hs|].
  apply filter_In. now split.
Qed.

End RedFlagClaims.

Lemma red_flags_include_method_red_flags_witness :
  exists fs v,
    TestabilityAnalyzer.analyze_file
      Fixtures.files 100 Fixtures.returning_analyzer "job.py" = Ok fs
    /\ Violation.rule_name v = "Non-Deterministic Time Usage"
    /\ Violation.function_name v = "stamp"
    /\ Violation.is_red_flag v = true
    /\ In v (FileScore.red_flags fs).
Proof.
  eexists. eexists. split; [vm_compute; reflexivity|].
  destruct (@red_flags_include_method_red_flags
              Fixtures.files 100 Fixtures.returning_rules "job.py"
              Fixtures.job_py _ eq_refl eq_refl) as [_ Hmethods].
  destruct (Hmethods Fixtures.Job Fixtures.Job_stamp)
    as [s [c [Hc [_ [Hs [_ Hred]]]]]].
  - in_list.
  - reflexivity.
  - in_list.
  - reflexivity.
  - destruct Hc as [<-|[]]. destruct Hs as [<-|[]].
    split; [|split; [|split]]; [| | |apply Hred; [now left|]];
      reflexivity.
Defined.

Section ConstructorTwiceClaims.

Import TestabilityAnalyzer.

Lemma In_concat_split {A} (x : list A) (l : list (list A)) :
  In x l -> exists pre post, List.concat l = pre ++ x ++ post.
Proof.
  intros H. apply in_split in H. destruct H as [l1 [l2 ->]].
  exists (List.concat l1), (List.concat l2).
  now rewrite concat_app.
Qed.

(** What a returned file score holds for a constructor. *)
Lemma constructor_scored_twice_of_result (w : world) (frames : nat)
    (rules : list TestabilityRule.t) (file_path : string) (tree : AST)
    (fs : FileScore.t) :
  w file_path = Ok tree ->
  analyze_file w frames (with_rules rules) file_path = Ok fs ->
  forall class init,
    In class (walk tree) -> is_class class = true ->
    In init (field "body" class) -> is_constructor init = true ->
    exists vss s c,
      rule_outcomes (with_rules rules) (context_of tree) init vss
      /\ s = ScoreCalculator.calculate_function_score
               ScoreCalculator.__init__ "__init__" (lineno init)
               (List.concat vss)
      /\ In s (FileScore.function_scores fs)
      /\ In c (FileScore.class_scores fs)
      /\ ClassScore.name c = Ast.name class
      /\ (exists pre post,
            ClassScore.constructor_violations c
            = pre ++ List.concat vss ++ post)
      /\ FileScore.overall_score fs <= FunctionScore.final_score s
      /\ (filter is_constructor (field "body" class) = [init] ->
          0 < sum_points (List.concat vss) ->
          ClassScore.constructor_violations c = List.concat vss
          /\ FunctionScore.final_score s
             = Z.max (100 - sum_points (ClassScore.constructor_violations c)) 0
          /\ exists before between after,
               all_scores (FileScore.function_scores fs)
                          (FileScore.class_scores fs)
               = before ++ FunctionScore.final_score s
                           :: between ++ FunctionScore.final_score s :: after).
Proof.
  intros Hw H class init Hc Hic Hi Hii.
  pose proof (is_constructor_function _ Hii) as Hf.
  assert (Ename : Ast.name init = "__init__").
  { unfold is_constructor in Hii. apply andb_true_iff in Hii.
    now apply String.eqb_eq. }
  destruct (@definition_in_function_scores w frames rules file_path tree fs Hw H
              init) as [s [Hs Es]];
    [eapply walk_field; eauto | exact Hf |].
  destruct (@class_in_class_scores w frames rules file_path tree fs Hw H
              class Hc Hic) as [c [Hcin Ec]].
  apply score_of_inv in Es. destruct Es as [vs [Evs Es]].
  destruct (extend_with_rules_inv _ _ _ Evs) as [vss [Hout ->]].
  apply class_score_of_inv in Ec.
  destruct Ec as [Ecn [_ [[css [Hcss Ecv]] _]]].
  assert (Hin : In init (filter is_constructor (field "body" class))).
  { apply filter_In. now split. }
  destruct (Forall2_In_l init Hcss Hin) as [vs' [Hvs' Evs']].
  rewrite Evs in Evs'. injection Evs' as <-.
  assert (Hfinal : In (FunctionScore.final_score s)
                      (map FunctionScore.final_score
                           (FileScore.function_scores fs))).
  { now apply in_map. }
  exists vss, s, c. rewrite Ename in Es. simpl in Es.
  split; [exact Hout|]. split; [exact Es|]. split; [exact Hs|].
  split; [exact Hcin|]. split; [exact Ecn|].
  split; [rewrite Ecv; now apply In_concat_split|].
  split.
  - rewrite (@overall_score_of_lists w frames rules file_path tree fs Hw H).
    assert (Hall : In (FunctionScore.final_score s)
                      (all_scores (FileScore.function_scores fs)
                                  (FileScore.class_scores fs))).
    { unfold all_scores. apply in_or_app. left. apply in_or_app. now left. }
    destruct (all_scores _ _) as [|x xs]; [contradiction|].
    now apply py_min_lower.
  - intros Hone Hpos. rewrite Hone in Hcss.
    inversion Hcss as [|? vs1 ? rest H1 Hrest]; subst.
    inversion Hrest; subst. rewrite Evs in H1. injection H1 as <-.
    simpl in Ecv. rewrite app_nil_r in Ecv.
    split; [exact Ecv|]. split; [rewrite Ecv; reflexivity|].
    assert (Hctor : In (Z.max (100 - sum_points (List.concat vss)) 0)
                       (constructor_part (FileScore.class_scores fs))).
    { unfold constructor_part. apply in_flat_map. exists c.
      split; [exact Hcin|]. rewrite Ecv.
      apply Z.ltb_lt in Hpos. rewrite Hpos. now left. }
    apply in_split in Hfinal. destruct Hfinal as [a1 [a2 Ea]].
    apply in_split in Hctor. destruct Hctor as [c1 [c2 Ec]].
    exists a1,
      (a2 ++ flat_map (fun class_score =>
                         map FunctionScore.final_score
                             (ClassScore.method_scores class_score))
                      (FileScore.class_scores fs) ++ c1), c2.
    change (all_scores (FileScore.function_scores fs)
                       (FileScore.class_scores fs))
      with ((map FunctionScore.final_score (FileScore.function_scores fs)
             ++ flat_map (fun class_score =>
                            map FunctionScore.final_score
                                (ClassScore.method_scores class_score))
                         (FileScore.class_scores fs))
            ++ constructor_part (FileScore.class_scores fs)).
    rewrite Ea, Ec. repeat rewrite <- app_assoc. simpl.
    repeat rewrite <- app_assoc. reflexivity.
Qed.

End ConstructorTwiceClaims.

(** The time, constructor and hidden-import rules return on every node. *)
Lemma returning_rules_return (context : AnalysisContext.t) (tree : AST) :
  rules_return_on Fixtures.returning_analyzer context tree.
Proof.
  intros rule node Hr _ _. simpl in Hr.
  destruct Hr as [<-|[<-|[<-|[]]]]; simpl.
  - unfold TimeUsageRule.evaluate.
    destruct (negb _); [now eexists|].
    destruct (find _ _); now eexists.
  - unfold ConstructorSideEffectsRule.evaluate.
    destruct (negb _); [now eexists|].
    destruct (find _ _); [|now eexists].
    destruct (ConstructorSideEffectsRule._has_constructor_side_effects _);
      now eexists.
  - unfold HiddenImportsRule.evaluate.
    destruct (negb _); [now eexists|].
    destruct (find _ _); now eexists.
Qed.

(* ------------------------------------------------------------------ *)
(** ** The Branch Explosion rule (rules/branch_explosion_rule.py) *)

Section BranchExplosionClaims.

Import BranchExplosionRule.

Local Arguments isinstance : simpl never.
Local Arguments Z.mul : simpl never.

Lemma ast_class_eqb_eq (a b : ast_class) :
  ast_class_eqb a b = true <-> a = b.
Proof.
  split.
  - destruct a, b; simpl; try discriminate; try reflexivity.
    intros H. apply String.eqb_eq in H. now subst.
  - intros <-. destruct a; simpl; try reflexivity. apply String.eqb_refl.
Qed.

Lemma is_function_cls (node : AST) :
  isinstance node [FunctionDef; AsyncFunctionDef] = true ->
  cls node = FunctionDef \/ cls node = AsyncFunctionDef.
Proof.
  unfold isinstance. simpl. rewrite !orb_true_iff, !ast_class_eqb_eq.
  intros [H|[H|H]]; [now left|now right|discriminate].
Qed.

(** On a node that is no If and no For, the loop of [_count_branches]
    reaches [ast.AsyncWhile] and raises. *)
Lemma count_child_raises (branch_count : Z) (child : AST) :
  isinstance child [If; For; AsyncFor] = false ->
  count_child ast_module branch_count child = Raise AttributeError.
Proof.
  unfold isinstance. simpl. rewrite !orb_false_iff.
  intros [H1 [H2 [H3 _]]].
  unfold count_child, isinstance. simpl. now rewrite H1, H2, H3.
Qed.

(** The first node that [_count_branches] visits is the function node
    itself. *)
Lemma count_branches_raises (node : AST) :
  isinstance node [FunctionDef; AsyncFunctionDef] = true ->
  _count_branches ast_module node = Raise AttributeError.
Proof.
  intros H. unfold _count_branches.
  destruct (walk_head node) as [rest ->]. simpl.
  rewrite count_child_raises; [reflexivity|].
  unfold isinstance. simpl.
  destruct (is_function_cls _ H) as [-> | ->]; reflexivity.
Qed.

Lemma evaluate_raises (node : AST) (context : AnalysisContext.t) :
  isinstance node [FunctionDef; AsyncFunctionDef] = true ->
  evaluate node context = Raise AttributeError.
Proof.
  intros H. unfold evaluate, evaluate_in. simpl. rewrite H. simpl.
  now rewrite count_branches_raises.
Qed.

(** C8, as the code has it: on every function or async-function node the
    evaluation of the Branch Explosion rule raises AttributeError, whatever
    the number of branches: the first node that [_count_branches] visits is
    the function node itself, and the test that follows the tests for If and
    For names [ast.AsyncWhile], which the [ast] module does not define. *)
Theorem branch_explosion_raises (node : AST) (context : AnalysisContext.t) :
  isinstance node [FunctionDef; AsyncFunctionDef] = true ->
  _count_branches ast_module node = Raise AttributeError
  /\ evaluate node context = Raise AttributeError.
Proof.
  intros H. split; [now apply count_branches_raises|now apply evaluate_raises].
Qed.

(** With the name [AsyncWhile] in the module, every iteration of the loop
    returns. *)
Lemma count_child_returns (branch_count : Z) (child : AST) :
  returns (count_child ast_module_with_AsyncWhile branch_count child).
Proof.
  unfold count_child, returns. simpl.
  repeat match goal with
         | |- context [if ?b then _ else _] => destruct b
         end; eauto.
Qed.

Lemma for_each_returns {A S} (body : S -> A -> result S) (xs : list A)
    (acc : S) :
  (forall acc x, returns (body acc x)) -> returns (for_each body xs acc).
Proof.
  intros H. revert acc; induction xs as [|x xs IH]; intros acc; simpl.
  - now exists acc.
  - destruct (H acc x) as [acc' ->]. simpl. apply IH.
Qed.

(** What the rule computes once the lookup of [AsyncWhile] succeeds: no
    violation up to three branches, and beyond that one violation of
    2 x (branch_count - 3) points that is no red flag. *)
Lemma branch_explosion_with_AsyncWhile (node : AST)
    (context : AnalysisContext.t) :
  isinstance node [FunctionDef; AsyncFunctionDef] = true ->
  exists branch_count,
    _count_branches ast_module_with_AsyncWhile node = Ok branch_count
    /\ (branch_count <= 3 ->
        evaluate_in ast_module_with_AsyncWhile node context = Ok [])
    /\ (3 < branch_count ->
        exists v,
          evaluate_in ast_module_with_AsyncWhile node context = Ok [v]
          /\ Violation.points_deducted v = 2 * (branch_count - 3)
          /\ Violation.rule_name v = "Branch Explosion Risk"
          /\ Violation.is_red_flag v = false).
Proof.
  intros H.
  destruct (for_each_returns (count_child ast_module_with_AsyncWhile)
              (walk node) 0 count_child_returns) as [n E].
  exists n. split; [exact E|].
  unfold evaluate_in. simpl. rewrite H. simpl.
  unfold _count_branches in E |- *. rewrite E. simpl.
  unfold _branch_threshold, penalty_points. split.
  - intros Hle. apply Z.ltb_ge in Hle. now rewrite Hle.
  - intros Hlt. pose proof Hlt as Hlt'. apply Z.ltb_lt in Hlt'. rewrite Hlt'.
    eexists. split; [reflexivity|].
    split; [cbn [Violation.points_deducted]; lia|]. split; reflexivity.
Qed.

End BranchExplosionClaims.

Lemma branch_explosion_raises_witness :
  BranchExplosionRule.evaluate Fixtures.simple_function AnalysisContext.empty
  = Raise AttributeError
  /\ BranchExplosionRule.evaluate Fixtures.six_branches AnalysisContext.empty
     = Raise AttributeError.
Proof.
  split.
  - apply (branch_explosion_raises
             Fixtures.simple_function AnalysisContext.empty). reflexivity.
  - apply (branch_explosion_raises
             Fixtures.six_branches AnalysisContext.empty). reflexivity.
Defined.

(** A function with exactly six branches: with [AsyncWhile] in the module
    the rule deducts 6 points and the function scores 94. *)
Lemma six_branches_with_AsyncWhile :
  BranchExplosionRule._count_branches
    ast_module_with_AsyncWhile Fixtures.six_branches = Ok 6
  /\ exists v,
       BranchExplosionRule.evaluate_in
         ast_module_with_AsyncWhile Fixtures.six_branches AnalysisContext.empty
       = Ok [v]
       /\ Violation.points_deducted v = 6
       /\ FunctionScore.final_score
            (ScoreCalculator.calculate_function_score
               ScoreCalculator.__init__ "six_branches" 1 [v]) = 94.
Proof.
  split; [vm_compute; reflexivity|].
  eexists. split; [vm_compute; reflexivity|]. split; reflexivity.
Qed.

(** The analyzer that [__init__] builds returns no result for a tree that
    holds a function: the Branch Explosion rule is one of its rules. *)
Lemma analysis_of_a_function_raises (frames : nat) (bodies : rule_bodies)
    (file_path : string) (tree node : AST) :
  In node (walk tree) ->
  TestabilityAnalyzer.is_function node = true ->
  ~ returns (TestabilityAnalyzer.analyze_tree
               frames (TestabilityAnalyzer.__init__ bodies) file_path tree).
Proof.
  intros Hn Hf [fs H]. apply analyze_tree_inv in H.
  destruct H as [function_scores [class_scores [H _]]].
  apply analyze_functions_inv in H.
  assert (Hin : In node (filter TestabilityAnalyzer.is_function (walk tree))).
  { apply filter_In. now split. }
  destruct (Forall2_In_l node H Hin) as [s [_ Es]].
  apply score_of_inv in Es. destruct Es as [vs [Evs _]].
  apply extend_with_rules_inv in Evs. destruct Evs as [vss [Hout _]].
  unfold rule_outcomes in Hout. simpl in Hout.
  do 5 (inversion Hout as [|? ? ? ? _ Hout']; subst; clear Hout;
        rename Hout' into Hout).
  inversion Hout as [|? ? ? ? E _]; subst.
  simpl in E. rewrite (evaluate_raises node _ Hf) in E. discriminate.
Qed.

(* ------------------------------------------------------------------ *)
(** ** The Constructor Side Effects rule
       (rules/constructor_side_effects_rule.py, analyzer.py) *)

Section ConstructorRuleClaims.

Import ConstructorSideEffectsRule.

(** The rule answers class nodes only. *)
Lemma constructor_rule_skips_other_nodes (node : AST)
    (context : AnalysisContext.t) :
  isinstance node [ClassDef] = false -> evaluate node context = Ok [].
Proof. unfold evaluate. now intros ->. Qed.

Lemma function_is_no_class (node : AST) :
  TestabilityAnalyzer.is_function node = true ->
  isinstance node [ClassDef] = false.
Proof.
  intros H. apply is_function_cls in H. unfold isinstance. simpl.
  destruct H as [-> | ->]; reflexivity.
Qed.

(** On a class node, the rule gives one flat violation when some node of
    the constructor is a side effect, however many there are. *)
Lemma constructor_rule_on_class (node init : AST) (context : AnalysisContext.t) :
  isinstance node [ClassDef] = true ->
  find is_init (field "body" node) = Some init ->
  _has_constructor_side_effects init = true ->
  exists v,
    evaluate node context = Ok [v]
    /\ Violation.rule_name v = "Constructor Side Effects"
    /\ Violation.points_deducted v = 15
    /\ Violation.is_red_flag v = true.
Proof.
  intros Hc Hi Hs. unfold evaluate. rewrite Hc, Hi, Hs. simpl.
  eexists. split; [reflexivity|]. repeat split.
Qed.

(** C7, as the code has it.  For the class of
    [test_constructor_with_side_effects], whose constructor opens and reads a
    file: the rule gives its one 15-point red-flag violation when it is given
    the class node, as the unit test does; the analyzer gives every rule the
    constructor's function node, on which this rule, like on every function
    node, returns nothing; so analyzing the file yields no Constructor Side
    Effects violation for the class, with this rule alone in the registry
    (and a recursion limit that leaves the visit of the tree its frames);
    and with the registry that [__init__] builds the analysis of the file
    returns no file score at all. *)
Theorem constructor_side_effects_never_reported :
  evaluate Fixtures.MyClass AnalysisContext.empty
  = Ok [ {| Violation.rule_name := "Constructor Side Effects";
            Violation.description :=
              "Constructor has side effects that make testing difficult";
            Violation.points_deducted := 15;
            Violation.line_number := 3;
            Violation.function_name := "MyClass.__init__";
            Violation.is_red_flag := true |} ]
  /\ (forall node context,
        TestabilityAnalyzer.is_function node = true ->
        evaluate node context = Ok [])
  /\ (forall frames,
        (frames_needed Fixtures.MyClass_module <= frames)%nat ->
        TestabilityAnalyzer.analyze_file
          Fixtures.files frames
          (TestabilityAnalyzer.with_rules [ConstructorSideEffectsRule.rule])
          "my_class.py"
        = Ok {| FileScore.file_path := "my_class.py";
                FileScore.overall_score := 100;
                FileScore.classification := "Healthy";
                FileScore.function_scores :=
                  [ FunctionScore.mk "__init__" 3 100 [] 100 ];
                FileScore.class_scores := [ ClassScore.mk "MyClass" 2 [] [] ];
                FileScore.red_flags := [] |})
  /\ (forall bodies frames,
        ~ returns (TestabilityAnalyzer.analyze_file
                     Fixtures.files frames (TestabilityAnalyzer.__init__ bodies)
                     "my_class.py")).
Proof.
  split; [vm_compute; reflexivity|]. split; [|split].
  - intros node context H.
    apply constructor_rule_skips_other_nodes. now apply function_is_no_class.
  - intros frames H.
    rewrite (@analyze_file_parsed Fixtures.files frames _ "my_class.py"
               Fixtures.MyClass_module eq_refl).
    rewrite (@analyze_tree_enough _ frames "my_class.py" _ H).
    vm_compute; reflexivity.
  - intros bodies frames.
    rewrite (@analyze_file_parsed Fixtures.files frames
               (TestabilityAnalyzer.__init__ bodies) "my_class.py"
               Fixtures.MyClass_module eq_refl).
    apply analysis_of_a_function_raises with (node := Fixtures.MyClass_init);
      [in_list|reflexivity].
Qed.

End ConstructorRuleClaims.

(* ------------------------------------------------------------------ *)
(** ** The Hidden Imports rule (rules/hidden_imports_rule.py) *)

Section HiddenImportsClaims.

Import HiddenImportsRule HiddenImports.

Lemma listed_is_not_allowed (t : string) :
  In t external_indicators -> string_in t _allowed_imports = false.
Proof.
  simpl. intros H.
  repeat (destruct H as [<-|H]; [reflexivity|]). contradiction.
Qed.

Lemma is_external_dependency_iff (m : string) :
  _is_external_dependency m = true
  <-> In (top_level_of m) external_indicators.
Proof.
  unfold _is_external_dependency. split.
  - destruct (string_in (top_level_of m) _allowed_imports); [discriminate|].
    apply string_in_In.
  - intros H. rewrite (listed_is_not_allowed H). now apply string_in_In.
Qed.

Lemma isinstance_one (c : AST) (k : ast_class) :
  isinstance c [k] = true <-> cls c = k.
Proof.
  unfold isinstance. simpl. rewrite orb_false_r. apply ast_class_eqb_eq.
Qed.

(** The test of the loop holds of the imports of listed packages. *)
Lemma problematic_iff (c : AST) :
  isinstance c [Import; ImportFrom] && _is_problematic_import c = true
  <-> imports_listed_package c.
Proof.
  unfold _is_problematic_import, imports_listed_package, imported_module.
  destruct (isinstance c [Import]) eqn:I1.
  - pose proof (proj1 (isinstance_one c Import) I1) as E.
    assert (I : isinstance c [Import; ImportFrom] = true).
    { unfold isinstance. now rewrite E. }
    rewrite I. simpl. rewrite existsb_exists. split.
    + intros [a [Ha Hx]]. apply is_external_dependency_iff in Hx.
      exists (Ast.name a). split; [left; eauto|exact Hx].
    + intros [m [[[_ [a [Ha <-]]]|[E' _]] Hx]]; [|congruence].
      exists a. split; [exact Ha|now apply is_external_dependency_iff].
  - assert (N1 : cls c <> Import).
    { intros E. apply isinstance_one in E. congruence. }
    destruct (isinstance c [ImportFrom]) eqn:I2.
    + pose proof (proj1 (isinstance_one c ImportFrom) I2) as E.
      assert (I : isinstance c [Import; ImportFrom] = true).
      { unfold isinstance. now rewrite E. }
      rewrite I. simpl. destruct (ident c) as [m|] eqn:Em.
      * rewrite andb_true_iff, negb_true_iff, String.eqb_neq,
          is_external_dependency_iff.
        split.
        -- intros [Hne Hx]. exists m. split; [right; auto|exact Hx].
        -- intros [m' [[[E' _]|[_ [[= <-] Hne]]] Hx]]; [congruence|auto].
      * split; [discriminate|].
        intros [m' [[[E' _]|[_ [E' _]]] _]]; congruence.
    + assert (N2 : cls c <> ImportFrom).
      { intros E. apply isinstance_one in E. congruence. }
      rewrite andb_false_r. split; [discriminate|].
      intros [m [[[E _]|[E _]] _]]; contradiction.
Qed.

Lemma find_first {A} (f : A -> bool) (pre post : list A) (c : A) :
  f c = true -> (forall x, In x pre -> f x = false) ->
  find f (pre ++ c :: post) = Some c.
Proof.
  intros Hc. induction pre as [|x pre IH]; simpl; intros Hpre.
  - now rewrite Hc.
  - rewrite (Hpre x (or_introl eq_refl)). apply IH.
    intros y Hy. apply Hpre. now right.
Qed.

Lemma not_true_false (b : bool) : ~ (b = true) -> b = false.
Proof. now destruct b. Qed.

(** C9, as the code has it: on a function whose subtree holds an import of
    a module whose top-level package is one of the fifteen listed external
    packages, the rule yields exactly one violation, of 5 points and no red
    flag, at the first such import in walk order; on a function with no such
    import it yields none, in particular when every import in the function
    names an allowed module. *)
Theorem hidden_import_of_listed_package (node : AST)
    (context : AnalysisContext.t) :
  isinstance node [FunctionDef; AsyncFunctionDef] = true ->
  (forall pre c post,
     walk node = pre ++ c :: post ->
     imports_listed_package c ->
     (forall c', In c' pre -> ~ imports_listed_package c') ->
     evaluate node context
     = Ok [ {| Violation.rule_name :=
                 "Hidden Dependencies via Imports-in-Function";
               Violation.description :=
                 "Hidden dependency via import inside function";
               Violation.points_deducted := 5;
               Violation.line_number := lineno c;
               Violation.function_name := Ast.name node;
               Violation.is_red_flag := false |} ])
  /\ ((forall c, In c (walk node) -> ~ imports_listed_package c) ->
      evaluate node context = Ok [])
  /\ ((forall c m, In c (walk node) -> imported_module c m ->
                   In (top_level_of m) _allowed_imports) ->
      evaluate node context = Ok []).
Proof.
  intros F. unfold evaluate. rewrite F. simpl.
  assert (None_case :
            (forall c, In c (walk node) -> ~ imports_listed_package c) ->
            match find (fun child => isinstance child [Import; ImportFrom]
                                     && _is_problematic_import child)
                       (walk node) with
            | Some child => Ok [violation node child]
            | None => Ok []
            end = Ok []).
  { intros H.
    destruct (find _ (walk node)) as [c|] eqn:E; [|reflexivity].
    apply find_some in E. destruct E as [Hin Hc].
    apply problematic_iff in Hc. now apply H in Hc. }
  split; [|split].
  - intros pre c post E Hc Hpre. rewrite E.
    rewrite find_first; [reflexivity|now apply problematic_iff|].
    intros x Hx. apply not_true_false. intros Hp.
    apply problematic_iff in Hp. now apply (Hpre x).
  - exact None_case.
  - intros H. apply None_case.
    intros c Hin [m [Hm Hx]].
    pose proof (listed_is_not_allowed Hx) as Hno.
    assert (Hyes : string_in (top_level_of m) _allowed_imports = true)
      by (apply string_in_In; exact (H c m Hin Hm)).
    congruence.
Qed.

End HiddenImportsClaims.

Lemma hidden_import_of_listed_package_witness :
  HiddenImportsRule.evaluate Fixtures.process_data AnalysisContext.empty
  = Ok [ {| Violation.rule_name :=
              "Hidden Dependencies via Imports-in-Function";
            Violation.description :=
              "Hidden dependency via import inside function";
            Violation.points_deducted := 5;
            Violation.line_number := 3;
            Violation.function_name := "process_data";
            Violation.is_red_flag := false |} ]
  /\ HiddenImportsRule.evaluate Fixtures.dumps AnalysisContext.empty = Ok [].
Proof.
  destruct (@hidden_import_of_listed_package
              Fixtures.process_data AnalysisContext.empty eq_refl)
    as [Hfirst _].
  destruct (@hidden_import_of_listed_package
              Fixtures.dumps AnalysisContext.empty eq_refl)
    as [_ [_ Hallowed]].
  split.
  - apply (Hfirst [Fixtures.process_data;
                   Build.arguments 2 []]
                  (Build.import_ 3 ["requests"])
                  (skipn 3 (walk Fixtures.process_data))).
    + vm_compute; reflexivity.
    + exists "requests". split; [|in_list].
      left. split; [reflexivity|].
      eexists. split; [left; reflexivity|reflexivity].
    + intros c' [<-|[<-|[]]] [m [[[E _]|[E _]] _]]; discriminate E.
  - apply Hallowed. intros c m Hin Hm.
    vm_compute in Hin.
    repeat (destruct Hin as [<-|Hin];
            [destruct Hm as [[E Hm]|[E _]]; try discriminate E|]);
      try contradiction.
    destruct Hm as [a [[<-|[]] <-]]. in_list.
Defined.

(** C9, as the claim states it, fails: [list_home] imports [os] in its
    body, [os] is not an allowed module, and the rule yields no violation. *)
Lemma hidden_import_of_os_not_flagged :
  (exists c, In c (walk Fixtures.list_home)
             /\ HiddenImports.imported_module c "os")
  /\ ~ In (HiddenImportsRule.top_level_of "os")
          HiddenImportsRule._allowed_imports
  /\ HiddenImportsRule.evaluate Fixtures.list_home AnalysisContext.empty
     = Ok [].
Proof.
  split; [|split].
  - exists (Build.import_ 2 ["os"]). split; [in_list|].
    left. split; [reflexivity|].
    eexists. split; [left; reflexivity|reflexivity].
  - simpl. intros H.
    repeat (destruct H as [H|H]; [discriminate H|]). exact H.
  - vm_compute; reflexivity.
Qed.

(* ------------------------------------------------------------------ *)
(** ** The score breakdown (scoring.py) *)

Section BreakdownFacts.

Import ScoreCalculator.

Lemma fold_left_snoc {A B} (f : A -> B -> A) (l : list B) (x : B) (a : A) :
  fold_left f (l ++ [x]) a = f (fold_left f l a) x.
Proof. now rewrite fold_left_app. Qed.

Lemma rule_names_snoc (vs : list Violation.t) (v : Violation.t) :
  rule_names (vs ++ [v]) = set_add (Violation.rule_name v) (rule_names vs).
Proof. unfold rule_names. now rewrite fold_left_snoc. Qed.

Lemma rule_names_In (vs : list Violation.t) (r : string) :
  In r (rule_names vs) <-> exists v, In v vs /\ Violation.rule_name v = r.
Proof.
  induction vs as [|v vs IH] using rev_ind.
  - simpl. split; [intros []|intros [v [[] _]]].
  - rewrite rule_names_snoc, set_add_In, IH. split.
    + intros [->|[w [Hw E]]].
      * exists v. split; [apply in_or_app; right; now left|reflexivity].
      * exists w. split; [apply in_or_app; now left|exact E].
    + intros [w [Hw E]]. apply in_app_or in Hw.
      destruct Hw as [Hw|[<-|[]]]; [right; eauto|now left].
Qed.

Lemma rule_names_NoDup (vs : list Violation.t) : NoDup (rule_names vs).
Proof.
  induction vs as [|v vs IH] using rev_ind.
  - constructor.
  - rewrite rule_names_snoc. now apply set_add_NoDup.
Qed.

Lemma violations_of_rule_snoc (r : string) (vs : list Violation.t)
    (v : Violation.t) :
  violations_of_rule r (vs ++ [v])
  = violations_of_rule r vs
    ++ (if String.eqb (Violation.rule_name v) r then [v] else []).
Proof. unfold violations_of_rule. now rewrite filter_app. Qed.

Lemma violations_of_rule_nil (r : string) (vs : list Violation.t) :
  ~ In r (rule_names vs) -> violations_of_rule r vs = [].
Proof.
  intros H. unfold violations_of_rule.
  induction vs as [|v vs IH]; [reflexivity|]. simpl.
  destruct (String.eqb (Violation.rule_name v) r) eqn:E.
  - exfalso. apply H. apply rule_names_In. exists v.
    split; [now left|now apply String.eqb_eq].
  - apply IH. intros Hin. apply H. apply rule_names_In.
    apply rule_names_In in Hin. destruct Hin as [w [Hw Ew]].
    exists w. split; [now right|exact Ew].
Qed.

Lemma sum_points_snoc (vs : list Violation.t) (v : Violation.t) :
  sum_points (vs ++ [v]) = sum_points vs + Violation.points_deducted v.
Proof.
  rewrite sum_points_app.
  change (sum_points [v]) with (Violation.points_deducted v + 0). lia.
Qed.

(** The group of a rule after one more violation. *)
Lemma group_of_snoc (vs : list Violation.t) (v : Violation.t) (r : string) :
  group_of (vs ++ [v]) r
  = if String.eqb (Violation.rule_name v) r
    then add_to_group v (group_of vs r) else group_of vs r.
Proof.
  unfold group_of. rewrite violations_of_rule_snoc.
  destruct (String.eqb (Violation.rule_name v) r).
  - unfold add_to_group. cbn [RuleBreakdown.count RuleBreakdown.total_points
                              RuleBreakdown.violations].
    rewrite length_app, sum_points_snoc, map_app. simpl.
    f_equal. lia.
  - now rewrite app_nil_r.
Qed.

Lemma dict_has_groups (vs : list Violation.t) (names : list string)
    (key : string) :
  Dict.has key (map (fun r => (r, group_of vs r)) names) = string_in key names.
Proof.
  unfold Dict.has, string_in. induction names as [|r names IH];
    [reflexivity|].
  simpl. rewrite IH. now rewrite String.eqb_sym.
Qed.

Lemma dict_update_groups (vs : list Violation.t) (v : Violation.t)
    (names : list string) :
  Dict.update (Violation.rule_name v) (add_to_group v)
              (map (fun r => (r, group_of vs r)) names)
  = map (fun r => (r, group_of (vs ++ [v]) r)) names.
Proof.
  unfold Dict.update. rewrite map_map. apply map_ext. intros r. simpl.
  rewrite group_of_snoc, (String.eqb_sym r).
  now destruct (String.eqb (Violation.rule_name v) r).
Qed.

(** The loop of [get_score_breakdown] keeps one group per rule name, in
    order of first occurrence. *)
Lemma breakdown_loop_groups (b : ScoreBreakdown.t) (vs : list Violation.t) :
  ScoreBreakdown.violations_by_rule b = [] ->
  ScoreBreakdown.violations_by_rule (fold_left breakdown_step vs b)
  = map (fun r => (r, group_of vs r)) (rule_names vs).
Proof.
  intros Hb. induction vs as [|v vs IH] using rev_ind; [exact Hb|].
  rewrite fold_left_snoc. unfold breakdown_step at 1.
  cbn [ScoreBreakdown.violations_by_rule]. rewrite IH.
  rewrite dict_has_groups, rule_names_snoc. unfold set_add.
  fold (string_in (Violation.rule_name v) (rule_names vs)).
  destruct (string_in (Violation.rule_name v) (rule_names vs)) eqn:E; simpl.
  - apply dict_update_groups.
  - unfold Dict.set. rewrite dict_has_groups, E.
    assert (G : RuleBreakdown.mk 0 0 [] = group_of vs (Violation.rule_name v)).
    { unfold group_of. rewrite violations_of_rule_nil; [reflexivity|].
      intros Hin. apply string_in_In in Hin. congruence. }
    rewrite G.
    change (map (fun r => (r, group_of vs r)) (rule_names vs)
            ++ [(Violation.rule_name v, group_of vs (Violation.rule_name v))])
      with (map (fun r => (r, group_of vs r)) (rule_names vs)
            ++ map (fun r => (r, group_of vs r)) [Violation.rule_name v]).
    rewrite <- map_app. apply dict_update_groups.
Qed.

Lemma breakdown_loop_red_flags (b : ScoreBreakdown.t)
    (vs : list Violation.t) :
  ScoreBreakdown.red_flag_count (fold_left breakdown_step vs b)
  = ScoreBreakdown.red_flag_count b
    + Z.of_nat (List.length (filter Violation.is_red_flag vs)).
Proof.
  induction vs as [|v vs IH] using rev_ind; [simpl; lia|].
  rewrite fold_left_snoc, filter_app, length_app. unfold breakdown_step at 1.
  cbn [ScoreBreakdown.red_flag_count]. rewrite IH. simpl.
  destruct (Violation.is_red_flag v); simpl; lia.
Qed.

Lemma breakdown_loop_baseline (b : ScoreBreakdown.t) (vs : list Violation.t) :
  ScoreBreakdown.baseline_score (fold_left breakdown_step vs b)
  = ScoreBreakdown.baseline_score b.
Proof.
  revert b; induction vs as [|v vs IH]; intros b; [reflexivity|].
  simpl. now rewrite IH.
Qed.

(** A quantity that is additive over violations, summed group by group
    over duplicate-free names that cover the list, is its sum over the
    list. *)
Lemma sum_by_rule_cons (weight : Violation.t -> Z) (names : list string)
    (v : Violation.t) (vs : list Violation.t) :
  NoDup names ->
  fold_right (fun r acc =>
                fold_right (fun w a => weight w + a) 0
                           (violations_of_rule r (v :: vs))
                + acc) 0 names
  = (if string_in (Violation.rule_name v) names then weight v else 0)
    + fold_right (fun r acc =>
                    fold_right (fun w a => weight w + a) 0
                               (violations_of_rule r vs)
                    + acc) 0 names.
Proof.
  induction 1 as [|r names Hr Hnd IH]; [reflexivity|].
  cbn [fold_right]. rewrite IH. unfold string_in. cbn [existsb].
  fold (string_in (Violation.rule_name v) names).
  unfold violations_of_rule at 1. cbn [filter].
  fold (violations_of_rule r vs).
  destruct (String.eqb (Violation.rule_name v) r) eqn:E.
  - apply String.eqb_eq in E. subst r.
    destruct (string_in (Violation.rule_name v) names) eqn:I.
    + apply string_in_In in I. contradiction.
    + cbn [fold_right orb]. lia.
  - cbn [orb]. lia.
Qed.

Lemma sum_by_rule (weight : Violation.t -> Z) (names : list string)
    (vs : list Violation.t) :
  NoDup names ->
  (forall v, In v vs -> In (Violation.rule_name v) names) ->
  fold_right (fun r acc =>
                fold_right (fun w a => weight w + a) 0 (violations_of_rule r vs)
                + acc) 0 names
  = fold_right (fun w a => weight w + a) 0 vs.
Proof.
  intros Hnd. induction vs as [|v vs IH]; intros Hcov.
  - clear. induction names as [|r names IHn]; [reflexivity|].
    simpl in *. now rewrite IHn.
  - rewrite (sum_by_rule_cons weight v vs Hnd).
    rewrite IH by (intros w Hw; apply Hcov; now right).
    assert (Hv : string_in (Violation.rule_name v) names = true).
    { apply string_in_In. apply Hcov. now left. }
    rewrite Hv. reflexivity.
Qed.

Lemma length_as_sum {A} (l : list A) :
  Z.of_nat (List.length l) = fold_right (fun _ a => 1 + a) 0 l.
Proof.
  induction l as [|x l IH]; [reflexivity|].
  cbn [List.length fold_right]. rewrite Nat2Z.inj_succ, IH. lia.
Qed.

Lemma sum_over_groups_map (quantity : RuleBreakdown.t -> Z)
    (vs : list Violation.t) (names : list string) :
  sum_over_groups quantity (map (fun r => (r, group_of vs r)) names)
  = fold_right (fun r acc => quantity (group_of vs r) + acc) 0 names.
Proof.
  unfold sum_over_groups. induction names as [|r names IH]; [reflexivity|].
  simpl. now rewrite IH.
Qed.

End BreakdownFacts.

Section BreakdownProperties.

Import ScoreCalculator.

Lemma dict_get_groups (vs : list Violation.t) (names : list string)
    (key : string) :
  Dict.get key (map (fun r => (r, group_of vs r)) names)
  = if string_in key names then Some (group_of vs key) else None.
Proof.
  unfold Dict.get, string_in. induction names as [|r names IH];
    [reflexivity|].
  cbn [map find existsb fst]. rewrite (String.eqb_sym key r).
  destruct (String.eqb r key) eqn:E.
  - apply String.eqb_eq in E. now subst.
  - exact IH.
Qed.

(** X1: [get_score_breakdown] groups the violations by rule without losing
    or repeating any: [violations_by_rule] has one entry per rule name that
    occurs, in order of first occurrence, and the entry of a rule holds
    exactly the violations of that rule, in their order, with their number
    and the sum of their points; a rule without violation has no entry. *)
Theorem get_score_breakdown_groups (self : ScoreCalculator.t)
    (violations : list Violation.t) :
  ScoreBreakdown.violations_by_rule (get_score_breakdown self violations)
  = map (fun r => (r, group_of violations r)) (rule_names violations)
  /\ NoDup (rule_names violations)
  /\ (forall r, In r (rule_names violations)
                <-> exists v, In v violations /\ Violation.rule_name v = r)
  /\ (forall r,
        Dict.get r (ScoreBreakdown.violations_by_rule
                      (get_score_breakdown self violations))
        = if string_in r (map Violation.rule_name violations)
          then Some (group_of violations r) else None).
Proof.
  assert (G : ScoreBreakdown.violations_by_rule
                (get_score_breakdown self violations)
              = map (fun r => (r, group_of violations r))
                    (rule_names violations)).
  { unfold get_score_breakdown. cbn [ScoreBreakdown.violations_by_rule].
    now apply breakdown_loop_groups. }
  split; [exact G|]. split; [apply rule_names_NoDup|].
  split; [apply rule_names_In|].
  intros r. rewrite G, dict_get_groups.
  assert (E : string_in r (rule_names violations)
              = string_in r (map Violation.rule_name violations)).
  { apply eq_true_iff_eq. rewrite !string_in_In, rule_names_In, in_map_iff.
    split; intros [v [H1 H2]]; exists v; auto. }
  now rewrite E.
Qed.

(** X2: The totals of [get_score_breakdown] agree with its groups and with
    [calculate_function_score]: the deductions of the groups add up to
    [total_deductions], which is the sum of the points of the violations;
    the counts of the groups add up to the number of violations;
    [red_flag_count] is the number of violations marked as red flags; and
    [final_score] is the final score that [calculate_function_score] gives
    the same violations. *)
Theorem get_score_breakdown_totals (self : ScoreCalculator.t)
    (violations : list Violation.t) :
  ScoreBreakdown.total_deductions (get_score_breakdown self violations)
  = sum_points violations
  /\ sum_over_groups RuleBreakdown.total_points
       (ScoreBreakdown.violations_by_rule
          (get_score_breakdown self violations))
     = ScoreBreakdown.total_deductions (get_score_breakdown self violations)
  /\ sum_over_groups RuleBreakdown.count
       (ScoreBreakdown.violations_by_rule
          (get_score_breakdown self violations))
     = Z.of_nat (List.length violations)
  /\ ScoreBreakdown.red_flag_count (get_score_breakdown self violations)
     = Z.of_nat (List.length (filter Violation.is_red_flag violations))
  /\ ScoreBreakdown.baseline_score (get_score_breakdown self violations)
     = baseline_score self
  /\ (forall function_name line_number,
        ScoreBreakdown.final_score (get_score_breakdown self violations)
        = FunctionScore.final_score
            (calculate_function_score self function_name line_number
                                      violations)).
Proof.
  assert (G : ScoreBreakdown.violations_by_rule
                (get_score_breakdown self violations)
              = map (fun r => (r, group_of violations r))
                    (rule_names violations)).
  { unfold get_score_breakdown. cbn [ScoreBreakdown.violations_by_rule].
    now apply breakdown_loop_groups. }
  assert (Hcov : forall v, In v violations ->
                           In (Violation.rule_name v) (rule_names violations)).
  { intros v Hv. apply rule_names_In. eauto. }
  split; [reflexivity|]. split; [|split; [|split; [|split]]].
  - rewrite G, sum_over_groups_map.
    cbn [ScoreBreakdown.total_deductions get_score_breakdown].
    unfold group_of. cbn [RuleBreakdown.total_points].
    exact (@sum_by_rule Violation.points_deducted _ _
                        (rule_names_NoDup violations) Hcov).
  - rewrite G, sum_over_groups_map. unfold group_of.
    cbn [RuleBreakdown.count]. rewrite length_as_sum.
    rewrite <- (@sum_by_rule (fun _ => 1) _ _
                             (rule_names_NoDup violations) Hcov).
    clear. induction (rule_names violations) as [|r names IH]; [reflexivity|].
    cbn [fold_right]. now rewrite IH, length_as_sum.
  - unfold get_score_breakdown. cbn [ScoreBreakdown.red_flag_count].
    rewrite breakdown_loop_red_flags. cbn [ScoreBreakdown.red_flag_count]. lia.
  - unfold get_score_breakdown. cbn [ScoreBreakdown.baseline_score].
    now rewrite breakdown_loop_baseline.
  - reflexivity.
Qed.

End BreakdownProperties.

(* ------------------------------------------------------------------ *)
(** ** The file score grows with nothing (scoring.py) *)

Section AggregateProperties.

Import ScoreCalculator.

Lemma all_scores_more (self : ScoreCalculator.t)
    (function_scores more : list FunctionScore.t)
    (class_scores : list ClassScore.t) (y : Z) :
  In y (ScoreCalculator.all_scores self (function_scores ++ more) class_scores)
  <-> In y (ScoreCalculator.all_scores self function_scores class_scores)
      \/ In y (map FunctionScore.final_score more).
Proof.
  unfold ScoreCalculator.all_scores. rewrite map_app, !in_app_iff. tauto.
Qed.

(** X3: More function scores never raise the score of a file:
    [aggregate_file_score] on a longer list of function scores is at most
    its value on the shorter one, as long as the added scores do not exceed
    the baseline. *)
Theorem aggregate_file_score_more_functions (self : ScoreCalculator.t)
    (function_scores more : list FunctionScore.t)
    (class_scores : list ClassScore.t) :
  Forall (fun s => FunctionScore.final_score s <= baseline_score self) more ->
  aggregate_file_score self (function_scores ++ more) class_scores
  <= aggregate_file_score self function_scores class_scores.
Proof.
  intros Hmore. rewrite Forall_forall in Hmore.
  unfold aggregate_file_score.
  pose proof (all_scores_more self function_scores more class_scores) as M.
  destruct (ScoreCalculator.all_scores self (function_scores ++ more)
                                       class_scores) as [|x' xs'] eqn:E';
    destruct (ScoreCalculator.all_scores self function_scores class_scores)
      as [|x xs] eqn:E.
  - lia.
  - exfalso. apply (proj2 (M x)). left. now left.
  - destruct (proj1 (M (py_min x' xs')) (py_min_In xs' x')) as [[]|H].
    apply in_map_iff in H. destruct H as [s [<- Hs]]. now apply Hmore.
  - apply py_min_lower. apply (proj2 (M (py_min x xs))). left.
    apply py_min_In.
Qed.

End AggregateProperties.

Lemma aggregate_file_score_more_functions_witness :
  ScoreCalculator.aggregate_file_score ScoreCalculator.__init__
    ([ FunctionScore.mk "f" 1 90 [] 100 ] ++ [ FunctionScore.mk "g" 5 70 [] 100 ])
    []
  <= ScoreCalculator.aggregate_file_score ScoreCalculator.__init__
       [ FunctionScore.mk "f" 1 90 [] 100 ] [].
Proof.
  apply (@aggregate_file_score_more_functions ScoreCalculator.__init__
           [ FunctionScore.mk "f" 1 90 [] 100 ]
           [ FunctionScore.mk "g" 5 70 [] 100 ] []).
  repeat constructor. simpl. lia.
Defined.

(* ------------------------------------------------------------------ *)
(** ** Bands, colours and recommendations
       (threshold_classifier.py, formatters/) *)

Section BandProperties.

Import ThresholdClassifier.

Lemma classify_file_score_formula (score : Z) :
  classify_file_score __init__ score
  = if (score <? 0) || (100 <? score) then "Unknown"
    else if 80 <=? score then "Healthy"
    else if 60 <=? score then "Caution"
    else if 40 <=? score then "High Friction"
    else "Refactor First".
Proof.
  cbv [classify_file_score classify __init__ file_bands find].
  case_bounds; cbn [andb orb]; first [reflexivity | lia].
Qed.

Lemma classify_function_score_formula (score : Z) :
  classify_function_score __init__ score
  = if (score <? 0) || (100 <? score) then "Unknown"
    else if 75 <=? score then "Easy"
    else if 55 <=? score then "Testable"
    else if 35 <=? score then "Hard"
    else "Painful".
Proof.
  cbv [classify_function_score classify __init__ function_bands find].
  case_bounds; cbn [andb orb]; first [reflexivity | lia].
Qed.

(** X4: The bands of the classifier leave no gap and do not overlap on the
    integers: a file score is Refactor First from 0 to 39, High Friction
    from 40 to 59, Caution from 60 to 79 and Healthy from 80 to 100; a
    function score is Painful from 0 to 34, Hard from 35 to 54, Testable
    from 55 to 74 and Easy from 75 to 100; a score below 0 or above 100 is
    Unknown. *)
Theorem classify_score_bands (score : Z) :
  classify_file_score __init__ score
  = (if (score <? 0) || (100 <? score) then "Unknown"
     else if 80 <=? score then "Healthy"
     else if 60 <=? score then "Caution"
     else if 40 <=? score then "High Friction"
     else "Refactor First")
  /\ classify_function_score __init__ score
     = (if (score <? 0) || (100 <? score) then "Unknown"
        else if 75 <=? score then "Easy"
        else if 55 <=? score then "Testable"
        else if 35 <=? score then "Hard"
        else "Painful").
Proof.
  split; [apply classify_file_score_formula
         |apply classify_function_score_formula].
Qed.


(** X6: The colour that the text report gives a score stands for the band of
    [classify_file_score] exactly for the scores from 0 to 100: green for
    Healthy, yellow for Caution, magenta for High Friction and red for
    Refactor First. *)
Theorem text_score_color_agrees (score : Z) :
  band_of_color (TextFormatter._get_score_color score)
  = classify_file_score __init__ score
  <-> 0 <= score <= 100.
Proof.
  rewrite classify_file_score_formula.
  unfold TextFormatter._get_score_color.
  case_bounds; cbn [andb orb]; split; intros Hyp;
    first [reflexivity | lia | discriminate Hyp].
Qed.

(** X7: Every band that the classifier can return for a score from 0 to 100
    has its own recommendations; the band of any other score has only the
    default one. *)
Theorem recommendations_of_bands (score : Z) :
  (get_file_recommendations __init__ (classify_file_score __init__ score)
   = [ "No specific recommendations available" ]
   <-> score < 0 \/ 100 < score)
  /\ (get_function_recommendations __init__
        (classify_function_score __init__ score)
      = [ "No specific recommendations available" ]
      <-> score < 0 \/ 100 < score).
Proof.
  rewrite classify_file_score_formula, classify_function_score_formula.
  split.
  - case_bounds; cbn [andb orb]; split; intros Hyp;
      first [reflexivity | lia | discriminate Hyp].
  - case_bounds; cbn [andb orb]; split; intros Hyp;
      first [reflexivity | lia | discriminate Hyp].
Qed.

End BandProperties.

(* ------------------------------------------------------------------ *)
(** ** The classification of an analysis (analyzer.py) *)

Section ClassificationProperties.

Import TestabilityAnalyzer.

Lemma all_scores_nonneg (function_scores : list FunctionScore.t)
    (class_scores : list ClassScore.t) (y : Z) :
  (forall s, In s function_scores -> 0 <= FunctionScore.final_score s) ->
  (forall c s, In c class_scores -> In s (ClassScore.method_scores c) ->
               0 <= FunctionScore.final_score s) ->
  In y (all_scores function_scores class_scores) -> 0 <= y.
Proof.
  intros Hf Hm. unfold all_scores. rewrite <- app_assoc, !in_app_iff.
  intros [H|[H|H]].
  - apply in_map_iff in H. destruct H as [s [<- H]]. auto.
  - apply in_flat_map in H. destruct H as [c [Hc H]].
    apply in_map_iff in H. destruct H as [s [<- H]]. eauto.
  - apply in_flat_map in H. destruct H as [c [Hc H]].
    destruct (0 <? sum_points (ClassScore.constructor_violations c));
      [|contradiction].
    destruct H as [<-|[]]. lia.
Qed.

(** The overall score of a file that parses lies between 0 and 100. *)
Lemma overall_score_bounds (frames : nat) (rules : list TestabilityRule.t)
    (file_path : string) (tree : AST) (fs : FileScore.t) :
  analyze_tree frames (with_rules rules) file_path tree = Ok fs ->
  Forall deducts_nonneg (violations_of fs) ->
  0 <= FileScore.overall_score fs <= 100.
Proof.
  intros H Hnn. apply analyze_tree_inv in H.
  destruct H as [function_scores [class_scores
                   [Hf [Hc [Ef [Ec [Eo _]]]]]]].
  rewrite Eo. subst function_scores class_scores.
  apply analyze_functions_inv in Hf. apply analyze_classes_inv in Hc.
  unfold violations_of in Hnn. rewrite Forall_app in Hnn.
  destruct Hnn as [Nf Nc]. rewrite Forall_forall in Nf, Nc.
  assert (Ff : forall s, In s (FileScore.function_scores fs) ->
                         0 <= FunctionScore.final_score s <= 100).
  { intros s Hs. destruct (Forall2_In_r s Hf Hs) as [node [_ Hn]].
    apply score_of_final in Hn. destruct Hn as [Hn _].
    split; [rewrite Hn; lia|].
    apply final_le_100; [exact Hn|].
    apply Forall_forall. intros v Hv. apply Nf.
    apply in_flat_map. eauto. }
  assert (Fm : forall c s, In c (FileScore.class_scores fs) ->
                           In s (ClassScore.method_scores c) ->
                           0 <= FunctionScore.final_score s <= 100).
  { intros c s Hcin Hs. destruct (Forall2_In_r c Hc Hcin) as [node [_ Hn]].
    apply class_score_of_inv in Hn. destruct Hn as [_ [_ [_ Hm]]].
    destruct (Forall2_In_r s Hm Hs) as [item [_ Hi]].
    apply score_of_final in Hi. destruct Hi as [Hi _].
    split; [rewrite Hi; lia|].
    apply final_le_100; [exact Hi|].
    apply Forall_forall. intros v Hv. apply Nc.
    apply in_flat_map. exists c. split; [exact Hcin|].
    apply in_or_app. right. apply in_flat_map. eauto. }
  destruct (all_scores (FileScore.function_scores fs)
                       (FileScore.class_scores fs)) as [|x xs] eqn:E;
    [lia|].
  pose proof (py_min_In xs x) as Hin. rewrite <- E in Hin. split.
  - eapply all_scores_nonneg; [| |exact Hin].
    + intros s Hs. now apply Ff.
    + intros c s Hcin Hs. now apply (Fm c s).
  - eapply all_scores_le_100; [| |exact Hin].
    + intros s Hs. now apply Ff.
    + intros c s Hcin Hs. now apply (Fm c s).
Qed.

(** X8: Every result of [analyze_file] has a known classification: when the
    file parses and the violations deduct non-negative points, the overall
    score lies between 0 and 100 and the classification is one of the four
    file bands, the band of the overall score; otherwise the file failed to
    parse, and the result is the Parse Error result with an overall score
    of 0.  The classification is never Unknown. *)
Theorem analyze_file_classification (w : world) (frames : nat)
    (rules : list TestabilityRule.t) (file_path : string) (fs : FileScore.t) :
  analyze_file w frames (with_rules rules) file_path = Ok fs ->
  Forall deducts_nonneg (violations_of fs) ->
  0 <= FileScore.overall_score fs <= 100
  /\ In (FileScore.classification fs)
        [ "Healthy"; "Caution"; "High Friction"; "Refactor First";
          "Parse Error" ]
  /\ (FileScore.classification fs = "Parse Error"
      <-> w file_path = Raise SyntaxError
          \/ w file_path = Raise UnicodeDecodeError)
  /\ (FileScore.classification fs <> "Parse Error" ->
      FileScore.classification fs
      = ThresholdClassifier.classify_file_score
          ThresholdClassifier.__init__ (FileScore.overall_score fs)).
Proof.
  intros H Hnn. destruct (w file_path) as [tree|e] eqn:W.
  - rewrite (@analyze_file_parsed w frames (with_rules rules) file_path tree W) in H.
    pose proof (@overall_score_bounds _ _ _ _ _ H Hnn) as B.
    apply analyze_tree_inv in H.
    destruct H as [function_scores [class_scores
                     [_ [_ [_ [_ [_ [_ [Ecl _]]]]]]]]].
    change (threshold_classifier (with_rules rules))
      with ThresholdClassifier.__init__ in Ecl.
    assert (K : In (FileScore.classification fs)
                   [ "Healthy"; "Caution"; "High Friction"; "Refactor First" ]).
    { rewrite Ecl, classify_file_score_formula.
      case_bounds; cbn [andb orb]; first [lia | in_list]. }
    split; [exact B|]. split; [|split].
    + simpl in K |- *. tauto.
    + split.
      * intros E. rewrite E in K. simpl in K.
        repeat (destruct K as [K|K]; [discriminate K|]). contradiction.
      * intros [E|E]; discriminate E.
    + intros _. exact Ecl.
  - unfold analyze_file, parse_file in H. rewrite W in H.
    destruct e; try discriminate H; injection H as <-; simpl;
      (split; [lia|]); (split; [tauto|]);
      (split; [split; [intros _; auto|reflexivity]|]);
      intros N; now contradiction N.
Qed.

End ClassificationProperties.

Lemma analyze_file_classification_witness :
  exists fs,
    TestabilityAnalyzer.analyze_file
      Fixtures.files 100 Fixtures.returning_analyzer "job.py" = Ok fs
    /\ FileScore.overall_score fs = 90
    /\ FileScore.classification fs = "Healthy"
    /\ In (FileScore.classification fs)
          [ "Healthy"; "Caution"; "High Friction"; "Refactor First";
            "Parse Error" ].
Proof.
  eexists. split; [vm_compute; reflexivity|].
  split; [reflexivity|]. split; [reflexivity|].
  apply (@analyze_file_classification
           Fixtures.files 100 Fixtures.returning_rules "job.py").
  - vm_compute; reflexivity.
  - repeat constructor; unfold deducts_nonneg; simpl; lia.
Defined.

(* ------------------------------------------------------------------ *)
(** ** Lookups in the registry (rules/rule_registry.py) *)

Section RegistryProperties.

Import RuleRegistry.

Lemma find_none_iff {A} (f : A -> bool) (l : list A) :
  find f l = None <-> forall x, In x l -> f x = false.
Proof.
  split; [apply find_none|].
  induction l as [|x l IH]; intros H; [reflexivity|]. simpl.
  rewrite (H x (or_introl eq_refl)). apply IH.
  intros y Hy. apply H. now right.
Qed.

(** X9: [get_rule_by_name] finds every rule of the registry under its own
    name: the eleven names are distinct.  In any registry, the rule it
    returns is a registered rule with the name asked for, and it returns
    None exactly for the names that no registered rule has. *)
Theorem get_rule_by_name_lookup (bodies : rule_bodies) :
  (forall rule,
     In rule (get_all_rules (__init__ bodies)) ->
     get_rule_by_name (__init__ bodies) (TestabilityRule.rule_name rule)
     = Some rule)
  /\ NoDup (map TestabilityRule.rule_name (get_all_rules (__init__ bodies)))
  /\ (forall self name rule,
        get_rule_by_name self name = Some rule ->
        In rule (get_all_rules self)
        /\ TestabilityRule.rule_name rule = name)
  /\ (forall self name,
        get_rule_by_name self name = None
        <-> ~ In name (map TestabilityRule.rule_name (get_all_rules self))).
Proof.
  split; [|split; [|split]].
  - intros rule H. simpl in H.
    repeat (destruct H as [<-|H]; [reflexivity|]). contradiction.
  - simpl. repeat (constructor; [simpl; intros H;
      repeat (destruct H as [H|H]; [discriminate H|]); exact H|]).
    constructor.
  - intros self name rule H. unfold get_rule_by_name in H.
    apply find_some in H. destruct H as [H E].
    split; [exact H|now apply String.eqb_eq].
  - intros self name. unfold get_rule_by_name, get_all_rules.
    rewrite find_none_iff, in_map_iff. split.
    + intros H [rule [E Hin]]. specialize (H rule Hin).
      rewrite E, String.eqb_refl in H. discriminate.
    + intros H rule Hin. apply String.eqb_neq. intros E. apply H. eauto.
Qed.

(** X10: [get_red_flag_rules] returns five rules of the registry, in registry
    order: Non-Deterministic Time Usage, Global State Mutation, Mixed I/O
    and Logic, Exception-Driven Control Flow and Constructor Side Effects.
    Their names are exactly the [red_flag_rules] of the threshold
    classifier; Randomness Usage is not one of them.  In any registry the
    result is a sub-list of the registered rules. *)
Theorem get_red_flag_rules_registry (bodies : rule_bodies) :
  get_red_flag_rules (__init__ bodies)
  = [ TimeUsageRule.rule; GlobalStateRule bodies; MixedIOLogicRule bodies;
      ExceptionControlFlowRule bodies; ConstructorSideEffectsRule.rule ]
  /\ (forall name,
        In name (map TestabilityRule.rule_name
                     (get_red_flag_rules (__init__ bodies)))
        <-> In name (ThresholdClassifier.red_flag_rules
                       ThresholdClassifier.__init__))
  /\ ~ In "Randomness Usage"
          (map TestabilityRule.rule_name (get_red_flag_rules (__init__ bodies)))
  /\ (forall self rule,
        In rule (get_red_flag_rules self) -> In rule (get_all_rules self)).
Proof.
  split; [reflexivity|]. split; [|split].
  - intros name. simpl. tauto.
  - simpl. intros H.
    repeat (destruct H as [H|H]; [discriminate H|]). exact H.
  - intros self rule H. unfold get_red_flag_rules in H.
    apply filter_In in H. tauto.
Qed.

End RegistryProperties.

(* ------------------------------------------------------------------ *)
(** ** Refactoring suggestions (threshold_classifier.py) *)

Section SuggestionProperties.

Import ThresholdClassifier.

Lemma dict_has_In {V} (key : string) (d : Dict.t V) :
  Dict.has key d = true <-> In key (Dict.keys d).
Proof.
  unfold Dict.has, Dict.keys. rewrite existsb_exists, in_map_iff. split.
  - intros [e [He E]]. apply String.eqb_eq in E. eauto.
  - intros [e [E He]]. exists e. split; [exact He|].
    now apply String.eqb_eq.
Qed.

Lemma dict_update_keys {V} (key : string) (f : V -> V) (d : Dict.t V) :
  Dict.keys (Dict.update key f d) = Dict.keys d.
Proof.
  unfold Dict.keys, Dict.update. rewrite map_map. apply map_ext.
  intros e. now destruct (String.eqb (fst e) key).
Qed.

Lemma dict_update_In {V} (key : string) (f : V -> V) (d : Dict.t V)
    (k : string) (v : V) :
  In (k, v) (Dict.update key f d)
  <-> (k <> key /\ In (k, v) d)
      \/ (k = key /\ exists v0, In (k, v0) d /\ v = f v0).
Proof.
  unfold Dict.update. rewrite in_map_iff. split.
  - intros [[k0 v0] [E Hin]]. simpl in E.
    destruct (String.eqb k0 key) eqn:K.
    + apply String.eqb_eq in K. injection E as <- <-. right. eauto.
    + apply String.eqb_neq in K. injection E as <- <-. now left.
  - intros [[N Hin]|[-> [v0 [Hin ->]]]].
    + exists (k, v). simpl. apply String.eqb_neq in N. now rewrite N.
    + exists (key, v0). simpl. now rewrite String.eqb_refl.
Qed.

Lemma dict_set_keys {V} (key : string) (value : V) (d : Dict.t V) :
  Dict.keys (Dict.set key value d) = set_add key (Dict.keys d).
Proof.
  unfold Dict.set, set_add.
  assert (E : Dict.has key d = existsb (String.eqb key) (Dict.keys d)).
  { unfold Dict.has, Dict.keys. induction d as [|e d IH]; [reflexivity|].
    simpl. now rewrite IH, String.eqb_sym. }
  rewrite <- E. destruct (Dict.has key d).
  - apply dict_update_keys.
  - unfold Dict.keys. now rewrite map_app.
Qed.

Lemma dict_set_In {V} (key : string) (value : V) (d : Dict.t V)
    (k : string) (v : V) :
  In (k, v) (Dict.set key value d)
  <-> (k <> key /\ In (k, v) d) \/ (k = key /\ v = value).
Proof.
  unfold Dict.set. destruct (Dict.has key d) eqn:H.
  - rewrite dict_update_In. apply dict_has_In in H.
    unfold Dict.keys in H. apply in_map_iff in H.
    destruct H as [[k0 v0] [E Hin]]. simpl in E. subst k0. split.
    + intros [L|[-> [v1 [_ ->]]]]; [now left|now right].
    + intros [L|[-> ->]]; [now left|right; eauto].
  - rewrite in_app_iff. simpl. split.
    + intros [Hin|[[= <- <-]|[]]]; [|now right].
      left. split; [|exact Hin]. intros ->.
      assert (Dict.has key d = true); [|congruence].
      apply dict_has_In. unfold Dict.keys. apply in_map_iff.
      now exists (key, v).
    + intros [[_ Hin]|[-> ->]]; [now left|right; now left].
Qed.

Lemma suggest_loop (vs : list Violation.t) :
  NoDup (Dict.keys (fold_left suggest vs []))
  /\ forall name l,
       In (name, l) (fold_left suggest vs [])
       <-> (exists v, In v vs /\ Violation.rule_name v = name)
           /\ l = suggestions_of name /\ l <> [].
Proof.
  induction vs as [|v vs [IHn IH]] using rev_ind.
  - split; [constructor|]. intros name l. simpl. split; [intros []|].
    intros [[v [[] _]] _].
  - rewrite fold_left_snoc. unfold suggest at 1 3.
    fold (suggestions_of (Violation.rule_name v)).
    destruct (suggestions_of (Violation.rule_name v)) as [|s0 ss] eqn:S.
    + split; [exact IHn|]. intros name l. rewrite IH. split.
      * intros [[w [Hw E]] R]. split; [|exact R].
        exists w. split; [apply in_or_app; now left|exact E].
      * intros [[w [Hw E]] [R N]]. split; [|now split].
        apply in_app_or in Hw. destruct Hw as [Hw|[<-|[]]]; [eauto|].
        subst name. congruence.
    + split.
      * rewrite dict_set_keys. now apply set_add_NoDup.
      * intros name l. rewrite dict_set_In, IH. split.
        -- intros [[N [[w [Hw E]] R]]|[-> ->]].
           ++ split; [|exact R]. exists w.
              split; [apply in_or_app; now left|exact E].
           ++ split; [exists v; split;
                      [apply in_or_app; right; now left|reflexivity]|].
              split; [now rewrite S|discriminate].
        -- intros [[w [Hw E]] [R N]].
           destruct (String.eqb name (Violation.rule_name v)) eqn:K.
           ++ apply String.eqb_eq in K. right. split; [exact K|].
              rewrite R, K. exact S.
           ++ apply String.eqb_neq in K. left. split; [exact K|].
              split; [|now split].
              apply in_app_or in Hw. destruct Hw as [Hw|[<-|[]]]; [eauto|].
              congruence.
Qed.

(** X11: [get_refactoring_suggestions] has one entry per rule name that occurs
    among the violations and has suggestions, holding the suggestions of
    that rule.  Every rule of the registry, and the External Dependency
    Count rule, has suggestions, so every violation that these rules report
    is covered. *)
Theorem get_refactoring_suggestions_cover (bodies : rule_bodies)
    (violations : list Violation.t) :
  NoDup (Dict.keys (get_refactoring_suggestions __init__ violations))
  /\ (forall name l,
        In (name, l) (get_refactoring_suggestions __init__ violations)
        <-> (exists v, In v violations /\ Violation.rule_name v = name)
            /\ Dict.get name suggestions = Some l /\ l <> [])
  /\ (forall rule,
        In rule (ExternalDependencyRule.rule
                 :: RuleRegistry.get_all_rules (RuleRegistry.__init__ bodies)) ->
        exists l,
          Dict.get (TestabilityRule.rule_name rule) suggestions = Some l
          /\ l <> []).
Proof.
  destruct (suggest_loop violations) as [N H].
  split; [exact N|]. split.
  - intros name l. unfold get_refactoring_suggestions. rewrite H.
    unfold suggestions_of. split.
    + intros [E [R Hne]]. split; [exact E|].
      destruct (Dict.get name suggestions) as [l'|]; [|congruence].
      split; [now subst|exact Hne].
    + intros [E [R Hne]]. split; [exact E|]. now rewrite R.
  - intros rule Hr. simpl in Hr.
    repeat (destruct Hr as [<-|Hr];
            [eexists; split; [reflexivity|discriminate]|]).
    contradiction.
Qed.

End SuggestionProperties.

(* ------------------------------------------------------------------ *)
(** ** What the registered rules report (rules/) *)

Section RuleReports.

Variable node : AST.
Variable context : AnalysisContext.t.

Lemma file_io_reports :
  exists vs, FileIO.evaluate node context = Ok vs
             /\ reports_as (FileIORule source_bodies) node vs.
Proof. unfold FileIO.evaluate. report. Qed.

Lemma time_usage_reports :
  exists vs, TimeUsageRule.evaluate node context = Ok vs
             /\ reports_as TimeUsageRule.rule node vs.
Proof. unfold TimeUsageRule.evaluate. report. Qed.

Lemma randomness_reports :
  exists vs, Randomness.evaluate node context = Ok vs
             /\ reports_as (RandomnessRule source_bodies) node vs.
Proof. unfold Randomness.evaluate. report. Qed.

Lemma global_state_reports :
  exists vs, GlobalState.evaluate node context = Ok vs
             /\ reports_as (GlobalStateRule source_bodies) node vs.
Proof. unfold GlobalState.evaluate. report. Qed.

Lemma mixed_io_logic_reports :
  exists vs, MixedIOLogic.evaluate node context = Ok vs
             /\ reports_as (MixedIOLogicRule source_bodies) node vs.
Proof. unfold MixedIOLogic.evaluate. report. Qed.

Lemma exception_control_flow_reports :
  exists vs, ExceptionControlFlow.evaluate node context = Ok vs
             /\ reports_as (ExceptionControlFlowRule source_bodies) node vs.
Proof. unfold ExceptionControlFlow.evaluate. report. Qed.

Lemma constructor_side_effects_reports :
  exists vs, ConstructorSideEffectsRule.evaluate node context = Ok vs
             /\ reports_as ConstructorSideEffectsRule.rule node vs.
Proof. unfold ConstructorSideEffectsRule.evaluate. report. Qed.

Lemma hidden_imports_reports :
  exists vs, HiddenImportsRule.evaluate node context = Ok vs
             /\ reports_as HiddenImportsRule.rule node vs.
Proof. unfold HiddenImportsRule.evaluate. report. Qed.

Lemma parameter_count_reports :
  exists vs, ParameterCount.evaluate node context = Ok vs
             /\ reports_as (ParameterCountRule source_bodies) node vs.
Proof. unfold ParameterCount.evaluate. report. Qed.

Lemma observability_reports :
  exists vs, Observability.evaluate node context = Ok vs
             /\ reports_as (ObservabilityRule source_bodies) node vs.
Proof. unfold Observability.evaluate. report. Qed.

End RuleReports.

Section RegisteredRules.

Import RuleRegistry.

Local Arguments isinstance : simpl never.

(** A registered rule other than Branch Explosion returns on every node,
    and reports as its class says. *)
Lemma registered_rule_reports (rule : TestabilityRule.t) (node : AST)
    (context : AnalysisContext.t) :
  In rule (get_all_rules (__init__ source_bodies)) ->
  TestabilityRule.rule_name rule <> "Branch Explosion Risk" ->
  exists vs, TestabilityRule.evaluate rule node context = Ok vs
             /\ reports_as rule node vs.
Proof.
  intros H N. simpl in H.
  destruct H as [<-|[<-|[<-|[<-|[<-|[<-|[<-|[<-|[<-|[<-|[<-|[]]]]]]]]]]]].
  - apply file_io_reports.
  - apply time_usage_reports.
  - apply randomness_reports.
  - apply global_state_reports.
  - apply mixed_io_logic_reports.
  - now contradiction N.
  - apply exception_control_flow_reports.
  - apply constructor_side_effects_reports.
  - apply hidden_imports_reports.
  - apply parameter_count_reports.
  - apply observability_reports.
Qed.

(** When the Branch Explosion rule returns, it reports nothing. *)
Lemma branch_explosion_returns_nothing (node : AST)
    (context : AnalysisContext.t) (vs : list Violation.t) :
  BranchExplosionRule.evaluate node context = Ok vs -> vs = [].
Proof.
  destruct (isinstance node [FunctionDef; AsyncFunctionDef]) eqn:F.
  - rewrite (evaluate_raises node context F). discriminate.
  - unfold BranchExplosionRule.evaluate, BranchExplosionRule.evaluate_in.
    simpl. rewrite F. simpl. now intros [= <-].
Qed.

(** X12: Every rule of the registry other than Branch Explosion returns on
    every node, whatever the context, and never raises.  It reports at most
    one violation, under its own name, deducting exactly its
    [penalty_points]; the violation is a red flag exactly when the rule is
    one of Time Usage, Randomness, Global State, Mixed I/O, Exception
    Control Flow and Constructor Side Effects; and it reports only on a
    function definition, naming that function, except the constructor rule,
    which reports only on a class definition and names its [__init__]. *)
Theorem registered_rules_report_once (rule : TestabilityRule.t) (node : AST)
    (context : AnalysisContext.t) :
  In rule (get_all_rules (__init__ source_bodies)) ->
  TestabilityRule.rule_name rule <> "Branch Explosion Risk" ->
  exists vs, TestabilityRule.evaluate rule node context = Ok vs
             /\ reports_as rule node vs.
Proof. intros H N. exact (registered_rule_reports node context H N). Qed.

(** X13: The two notions of red flag differ on one rule.  For every registered
    rule but Randomness Usage, the violations that [detect_red_flags] keeps
    (by rule name) are those that the rule marks with [is_red_flag].  Every
    violation of Randomness Usage is marked as a red flag, and
    [detect_red_flags] keeps none of them. *)
Theorem detect_red_flags_of_rules (rule : TestabilityRule.t) (node : AST)
    (context : AnalysisContext.t) (vs : list Violation.t) :
  In rule (get_all_rules (__init__ source_bodies)) ->
  TestabilityRule.evaluate rule node context = Ok vs ->
  (TestabilityRule.rule_name rule <> "Randomness Usage" ->
   ThresholdClassifier.detect_red_flags ThresholdClassifier.__init__ vs
   = filter Violation.is_red_flag vs)
  /\ (TestabilityRule.rule_name rule = "Randomness Usage" ->
      filter Violation.is_red_flag vs = vs
      /\ ThresholdClassifier.detect_red_flags ThresholdClassifier.__init__ vs
         = []).
Proof.
  intros H E.
  destruct (String.eqb (TestabilityRule.rule_name rule)
                       "Branch Explosion Risk") eqn:B.
  - apply String.eqb_eq in B.
    assert (vs = []) as ->.
    { simpl in H.
      repeat (destruct H as [<-|H];
              [first [discriminate B
                     |exact (@branch_explosion_returns_nothing
                               node context vs E)]|]).
      contradiction. }
    split; [reflexivity|]. intros R. rewrite R in B. discriminate B.
  - apply String.eqb_neq in B.
    destruct (registered_rule_reports node context H B) as [vs' [E' [L R]]].
    rewrite E in E'. injection E' as <-.
    assert (Hall : forall v, In v vs ->
              Violation.rule_name v = TestabilityRule.rule_name rule
              /\ Violation.is_red_flag v
                 = string_in (TestabilityRule.rule_name rule) marks_red_flags).
    { intros v Hv. destruct (R v Hv) as [R1 [_ [R3 _]]]. now split. }
    clear E R L B. simpl in H. unfold ThresholdClassifier.detect_red_flags.
    split.
    + intros N. apply filter_ext_in. intros v Hv.
      destruct (Hall v Hv) as [-> ->]. clear Hall Hv.
      repeat (destruct H as [<-|H];
              [first [reflexivity|now contradiction N]|]).
      contradiction.
    + intros N. split.
      * apply forallb_filter_id. apply forallb_forall. intros v Hv.
        destruct (Hall v Hv) as [_ ->]. now rewrite N.
      * assert (F : forall v, In v vs ->
                  existsb (String.eqb (Violation.rule_name v))
                    (ThresholdClassifier.red_flag_rules
                       ThresholdClassifier.__init__) = false).
        { intros v Hv. destruct (Hall v Hv) as [-> _]. now rewrite N. }
        clear Hall. induction vs as [|v vs IH]; [reflexivity|].
        cbn [filter]. rewrite (F v (or_introl eq_refl)). apply IH.
        intros w Hw. apply F. now right.
Qed.

End RegisteredRules.

Lemma registered_rules_report_once_witness :
  exists vs,
    TestabilityRule.evaluate (ParameterCountRule source_bodies)
                             Examples.configure AnalysisContext.empty = Ok vs
    /\ reports_as (ParameterCountRule source_bodies) Examples.configure vs.
Proof.
  apply (@registered_rules_report_once
           (ParameterCountRule source_bodies) Examples.configure
           AnalysisContext.empty).
  - do 9 right. left. reflexivity.
  - discriminate.
Defined.

Lemma detect_red_flags_of_rules_witness :
  TestabilityRule.evaluate (RandomnessRule source_bodies)
                           Examples.roll AnalysisContext.empty
  = Ok [ Randomness.violation Examples.roll
           (Build.call 2 (Build.attribute 2 (Build.name_ 2 "random") "randint")
                       [Build.constant 2; Build.constant 2]) ]
  /\ filter Violation.is_red_flag
            [ Randomness.violation Examples.roll
                (Build.call 2
                   (Build.attribute 2 (Build.name_ 2 "random") "randint")
                   [Build.constant 2; Build.constant 2]) ]
     = [ Randomness.violation Examples.roll
           (Build.call 2 (Build.attribute 2 (Build.name_ 2 "random") "randint")
                       [Build.constant 2; Build.constant 2]) ]
  /\ ThresholdClassifier.detect_red_flags ThresholdClassifier.__init__
       [ Randomness.violation Examples.roll
           (Build.call 2 (Build.attribute 2 (Build.name_ 2 "random") "randint")
                       [Build.constant 2; Build.constant 2]) ]
     = [].
Proof.
  split; [vm_compute; reflexivity|].
  apply (@detect_red_flags_of_rules
           (RandomnessRule source_bodies) Examples.roll AnalysisContext.empty).
  - do 2 right. left. reflexivity.
  - vm_compute; reflexivity.
  - reflexivity.
Defined.

(* ------------------------------------------------------------------ *)
(** ** The Excessive Parameter Count rule (rules/parameter_count_rule.py) *)

Section ParameterCountProperties.

Import ParameterCount.

Local Arguments isinstance : simpl never.

Lemma count_list_length (args : list AST) (n : Z) :
  count_list args n
  = n + Z.of_nat (List.length
                    (filter (fun p => negb (String.eqb p "self"))
                            (map Ast.name args))).
Proof.
  unfold count_list. revert n; induction args as [|a args IH]; intros n.
  - simpl. lia.
  - cbn [fold_left map filter]. rewrite IH.
    unfold _should_ignore_parameter, _self_param_exempt. cbn [andb].
    destruct (String.eqb (Ast.name a) "self"); cbn [negb List.length];
      [lia|]. rewrite Nat2Z.inj_succ. lia.
Qed.

Lemma count_optional_length (arg : option AST) (n : Z) :
  count_optional arg n
  = n + Z.of_nat (List.length
                    (filter (fun p => negb (String.eqb p "self"))
                            (map Ast.name
                                 match arg with Some a => [a] | None => [] end))).
Proof.
  destruct arg as [a|]; [|simpl; lia].
  exact (count_list_length [a] n).
Qed.

Lemma count_effective_parameters_length (node : AST) :
  isinstance node [FunctionDef; AsyncFunctionDef] = true ->
  _count_effective_parameters node
  = Z.of_nat (List.length (effective_parameters node)).
Proof.
  intros F. unfold _count_effective_parameters, effective_parameters,
    parameter_names.
  rewrite F. cbn [negb]. destruct (child "args" node) as [args|];
    [|reflexivity].
  rewrite !count_optional_length, !count_list_length.
  rewrite !map_app, !filter_app, !length_app, !Nat2Z.inj_add. lia.
Qed.

(** X14: A function definition is reported by the Excessive Parameter Count
    rule exactly when it has more than five parameters that are not named
    [self], counting positional, positional-only and keyword-only
    parameters, [*args] and [**kwargs]; the one violation then deducts 5
    points, is no red flag, and its description gives the count. *)
Theorem parameter_count_threshold (node : AST) (context : AnalysisContext.t) :
  isinstance node [FunctionDef; AsyncFunctionDef] = true ->
  evaluate node context
  = Ok (if 5 <? Z.of_nat (List.length (effective_parameters node))
        then [ violation node
                 (Z.of_nat (List.length (effective_parameters node))) ]
        else [])
  /\ Violation.points_deducted
       (violation node (Z.of_nat (List.length (effective_parameters node))))
     = 5
  /\ Violation.is_red_flag
       (violation node (Z.of_nat (List.length (effective_parameters node))))
     = false.
Proof.
  intros F. split; [|split; reflexivity].
  unfold evaluate. rewrite F. cbn [negb].
  rewrite (count_effective_parameters_length node F).
  unfold _parameter_threshold.
  now destruct (5 <? Z.of_nat (List.length (effective_parameters node))).
Qed.

End ParameterCountProperties.

Lemma parameter_count_threshold_witness :
  (exists v,
     ParameterCount.evaluate Examples.configure AnalysisContext.empty = Ok [v]
     /\ Violation.description v = "Excessive parameters: 6 (threshold: 5)")
  /\ ParameterCount.evaluate Examples.configure_method AnalysisContext.empty
     = Ok [].
Proof.
  split.
  - eexists. split.
    + apply (@parameter_count_threshold
               Examples.configure AnalysisContext.empty). reflexivity.
    + vm_compute; reflexivity.
  - apply (@parameter_count_threshold
             Examples.configure_method AnalysisContext.empty). reflexivity.
Defined.

(* ------------------------------------------------------------------ *)
(** ** The Exception-Driven Control Flow rule
       (rules/exception_control_flow_rule.py) *)

Section ExceptionControlFlowProperties.

Import ExceptionControlFlow.

Local Arguments isinstance : simpl never.

Lemma find_exists {A} (f : A -> bool) (l : list A) (x : A) :
  In x l -> f x = true -> exists y, find f l = Some y /\ f y = true.
Proof.
  intros Hin Hf. destruct (find f l) as [y|] eqn:E.
  - exists y. split; [reflexivity|]. now apply find_some in E.
  - rewrite (find_none _ _ E x Hin) in Hf. discriminate.
Qed.


(** A function without any [try] statement is never reported. *)
Lemma no_try_is_not_reported (node : AST) (context : AnalysisContext.t) :
  (forall n, In n (walk node) -> isinstance n [Try] = false) ->
  evaluate node context = Ok [].
Proof.
  intros H. unfold evaluate.
  destruct (negb (isinstance node [FunctionDef; AsyncFunctionDef]));
    [reflexivity|].
  destruct (find _ (walk node)) as [y|] eqn:E; [|reflexivity].
  apply find_some in E. destruct E as [Hin E].
  rewrite (H y Hin) in E. discriminate.
Qed.

End ExceptionControlFlowProperties.


(* ------------------------------------------------------------------ *)
(** ** The analysis context (ast_utils.py) *)

Section TreeFacts.

Lemma preorder_eq (n : AST) :
  preorder n = n :: flat_map preorder (iter_child_nodes n).
Proof.
  destruct n as [c l i ids fs]. unfold iter_child_nodes.
  cbn [preorder fields]. f_equal.
  induction fs as [|p r IH]; [reflexivity|].
  cbn [map flat_map]. now rewrite IH.
Qed.

(** [ast.walk] yields the nodes of the tree, each once: the nodes of the
    depth-first order, in another order. *)
Lemma walk_from_preorder (fuel : nat) (todo : list AST) :
  (size_all todo <= fuel)%nat ->
  Permutation (walk_from fuel todo) (flat_map preorder todo).
Proof.
  revert todo; induction fuel as [|fuel IH]; intros todo Hle.
  - destruct todo as [|x q]; [constructor|].
    simpl in Hle. pose proof (size_pos x). lia.
  - destruct todo as [|x q]; [constructor|].
    cbn [walk_from flat_map]. rewrite (preorder_eq x).
    cbn [app]. constructor.
    rewrite IH.
    + rewrite flat_map_app. apply Permutation_app_comm.
    + simpl in Hle. rewrite size_all_app.
      rewrite (size_children x) in Hle. lia.
Qed.

Lemma walk_preorder (n : AST) : Permutation (walk n) (preorder n).
Proof.
  unfold walk. rewrite walk_from_preorder by (simpl; lia).
  cbn [flat_map]. now rewrite app_nil_r.
Qed.

Lemma walk_preorder_In (n x : AST) : In x (walk n) <-> In x (preorder n).
Proof.
  split; apply Permutation_in;
    [apply walk_preorder|apply Permutation_sym, walk_preorder].
Qed.

Lemma Permutation_filter {A} (f : A -> bool) (l l' : list A) :
  Permutation l l' -> Permutation (filter f l) (filter f l').
Proof.
  induction 1 as [|x l l' _ IH|x y l|l l' l'' _ IH1 _ IH2]; simpl.
  - constructor.
  - destruct (f x); [now constructor|exact IH].
  - destruct (f x), (f y); try reflexivity. constructor.
  - now transitivity (filter f l').
Qed.

Lemma child_smaller (n c : AST) :
  In c (iter_child_nodes n) -> (size c < size n)%nat.
Proof.
  rewrite (size_children n). generalize (iter_child_nodes n).
  intros l H. induction l as [|x l IH]; [contradiction|].
  simpl. destruct H as [->|H]; [lia|]. specialize (IH H). lia.
Qed.

(** Induction on trees: a property that a node inherits from its children
    holds of every node. *)
Lemma AST_children_ind (P : AST -> Prop) :
  (forall n, (forall c, In c (iter_child_nodes n) -> P c) -> P n) ->
  forall n, P n.
Proof.
  intros H n.
  assert (G : forall k m, (size m < k)%nat -> P m).
  { induction k as [|k IH]; intros m Hm; [lia|].
    apply H. intros c Hc. apply IH.
    pose proof (child_smaller _ _ Hc). lia. }
  apply (G (S (size n))). lia.
Qed.

End TreeFacts.

Section VisitFacts.

Import AnalysisContext ASTVisitor.

Lemma visit_all_app (l r : list AST) (c : t) :
  visit_all (l ++ r) c = visit_all r (visit_all l c).
Proof. unfold visit_all. apply fold_left_app. Qed.

(** A quantity of the context that [completed_visit] only ever extends at the end,
    by what the node it enters contributes. *)
Variable part : t -> list string.
Variable of_node : AST -> list string.
Hypothesis enter_part :
  forall n c, part (enter n c) = part c ++ of_node n.
Hypothesis leave_part :
  forall n before after, part (leave n before after) = part after.

Lemma visit_part (n : AST) :
  forall c, part (completed_visit n c) = part c ++ flat_map of_node (preorder n).
Proof.
  induction n as [n IH] using AST_children_ind. intros c.
  rewrite visit_eq, leave_part, (preorder_eq n). cbn [flat_map].
  assert (G : forall l c0,
            (forall ch, In ch l -> In ch (iter_child_nodes n)) ->
            part (visit_all l c0)
            = part c0 ++ flat_map of_node (flat_map preorder l)).
  { induction l as [|x l IHl]; intros c0 Hl.
    - simpl. now rewrite app_nil_r.
    - unfold visit_all. cbn [fold_left flat_map]. fold (visit_all l (completed_visit x c0)).
      rewrite IHl by (intros ch Hch; apply Hl; now right).
      rewrite (IH x) by (apply Hl; now left).
      now rewrite flat_map_app, app_assoc. }
  rewrite G by auto. rewrite enter_part. now rewrite app_assoc.
Qed.

End VisitFacts.

Section ContextFacts.

Import AnalysisContext ASTVisitor.

Lemma fold_add_import_other (names : list AST) (c : t) :
  let c' := fold_left (fun ctx a => add_import (Ast.name a) ctx) names c in
  functions c' = functions c /\ classes c' = classes c
  /\ global_variables c' = global_variables c
  /\ current_function c' = current_function c
  /\ current_class c' = current_class c.
Proof.
  revert c; induction names as [|a names IH]; intros c; [now simpl|].
  cbn [fold_left]. destruct (IH (add_import (Ast.name a) c))
    as [H1 [H2 [H3 [H4 H5]]]].
  cbv zeta. rewrite H1, H2, H3, H4, H5. now simpl.
Qed.

Lemma fold_add_global_other (names : list string) (c : t) :
  let c' := fold_left (fun ctx g => add_global g ctx) names c in
  functions c' = functions c /\ classes c' = classes c
  /\ imports c' = imports c
  /\ current_function c' = current_function c
  /\ current_class c' = current_class c.
Proof.
  revert c; induction names as [|a names IH]; intros c; [now simpl|].
  cbn [fold_left]. destruct (IH (add_global a c)) as [H1 [H2 [H3 [H4 H5]]]].
  cbv zeta. rewrite H1, H2, H3, H4, H5. now simpl.
Qed.

Lemma enter_functions (n : AST) (c : t) :
  functions (enter n c)
  = functions c
    ++ (if TestabilityAnalyzer.is_function n then [Ast.name n] else []).
Proof.
  unfold enter, TestabilityAnalyzer.is_function, isinstance.
  destruct (cls n); cbn [existsb ast_class_eqb orb];
    try (now rewrite app_nil_r); try reflexivity.
  - rewrite app_nil_r. apply fold_add_import_other.
  - rewrite app_nil_r.
    destruct (ident n) as [m|]; [|reflexivity].
    now destruct (String.eqb m "").
  - rewrite app_nil_r. apply fold_add_global_other.
Qed.

Lemma enter_classes (n : AST) (c : t) :
  classes (enter n c)
  = classes c
    ++ (if TestabilityAnalyzer.is_class n then [Ast.name n] else []).
Proof.
  unfold enter, TestabilityAnalyzer.is_class, isinstance.
  destruct (cls n); cbn [existsb ast_class_eqb orb];
    try (now rewrite app_nil_r); try reflexivity.
  - rewrite app_nil_r. apply fold_add_import_other.
  - rewrite app_nil_r.
    destruct (ident n) as [m|]; [|reflexivity].
    now destruct (String.eqb m "").
  - rewrite app_nil_r. apply fold_add_global_other.
Qed.

Lemma leave_functions (n : AST) (before after : t) :
  functions (leave n before after) = functions after.
Proof. unfold leave. now destruct (cls n). Qed.

Lemma leave_classes (n : AST) (before after : t) :
  classes (leave n before after) = classes after.
Proof. unfold leave. now destruct (cls n). Qed.

Lemma flat_map_if {A B} (f : A -> bool) (g : A -> B) (l : list A) :
  flat_map (fun x => if f x then [g x] else []) l = map g (filter f l).
Proof.
  induction l as [|x l IH]; [reflexivity|]. simpl.
  destruct (f x); simpl; now rewrite IH.
Qed.

Lemma visit_functions (n : AST) (c : t) :
  functions (completed_visit n c)
  = functions c
    ++ map Ast.name (filter TestabilityAnalyzer.is_function (preorder n)).
Proof.
  rewrite <- flat_map_if.
  apply (visit_part functions
           (fun n => if TestabilityAnalyzer.is_function n
                     then [Ast.name n] else [])
           enter_functions leave_functions).
Qed.

Lemma visit_classes (n : AST) (c : t) :
  classes (completed_visit n c)
  = classes c
    ++ map Ast.name (filter TestabilityAnalyzer.is_class (preorder n)).
Proof.
  rewrite <- flat_map_if.
  apply (visit_part classes
           (fun n => if TestabilityAnalyzer.is_class n
                     then [Ast.name n] else [])
           enter_classes leave_classes).
Qed.

End ContextFacts.

Section VisitSetFacts.

Import AnalysisContext ASTVisitor.

(** A set of the context that [completed_visit] only ever adds to, by what the node
    it enters contributes. *)
Variable part : t -> list string.
Variable of_node : AST -> list string.
Hypothesis enter_In :
  forall n c m, In m (part (enter n c)) <-> In m (part c) \/ In m (of_node n).
Hypothesis enter_NoDup :
  forall n c, NoDup (part c) -> NoDup (part (enter n c)).
Hypothesis leave_part :
  forall n before after, part (leave n before after) = part after.

Lemma visit_set (n : AST) :
  forall c,
    (NoDup (part c) -> NoDup (part (completed_visit n c)))
    /\ forall m, In m (part (completed_visit n c))
                 <-> In m (part c) \/ In m (flat_map of_node (preorder n)).
Proof.
  induction n as [n IH] using AST_children_ind. intros c.
  rewrite visit_eq, leave_part, (preorder_eq n). cbn [flat_map].
  assert (G : forall l c0,
            (forall ch, In ch l -> In ch (iter_child_nodes n)) ->
            (NoDup (part c0) -> NoDup (part (visit_all l c0)))
            /\ forall m, In m (part (visit_all l c0))
                         <-> In m (part c0)
                             \/ In m (flat_map of_node (flat_map preorder l))).
  { induction l as [|x l IHl]; intros c0 Hl.
    - simpl. split; [auto|]. intros m. tauto.
    - unfold visit_all. cbn [fold_left flat_map].
      fold (visit_all l (completed_visit x c0)).
      destruct (IHl (completed_visit x c0)) as [N M];
        [intros ch Hch; apply Hl; now right|].
      destruct (IH x (Hl x (or_introl eq_refl)) c0) as [Nx Mx].
      split; [auto|]. intros m.
      rewrite M, Mx, flat_map_app, in_app_iff. tauto. }
  destruct (G (iter_child_nodes n) (enter n c)) as [N M]; [auto|].
  split; [auto|]. intros m. rewrite M, enter_In, in_app_iff. tauto.
Qed.

End VisitSetFacts.

Section ContextSetFacts.

Import AnalysisContext ASTVisitor.

Lemma fold_set_add {A} (f : A -> string) (l : list A) (s : list string) :
  (NoDup s -> NoDup (fold_left (fun acc x => set_add (f x) acc) l s))
  /\ forall m, In m (fold_left (fun acc x => set_add (f x) acc) l s)
               <-> In m s \/ In m (map f l).
Proof.
  revert s; induction l as [|x l IH]; intros s.
  - simpl. split; [auto|]. intros m. tauto.
  - cbn [fold_left map]. destruct (IH (set_add (f x) s)) as [N M].
    split.
    + intros H. apply N. now apply set_add_NoDup.
    + intros m. rewrite M, set_add_In. simpl. intuition.
Qed.

Lemma fold_add_import_imports (names : list AST) (c : t) :
  imports (fold_left (fun ctx a => add_import (Ast.name a) ctx) names c)
  = fold_left (fun acc a => set_add (Ast.name a) acc) names (imports c).
Proof.
  revert c; induction names as [|a names IH]; intros c; [reflexivity|].
  cbn [fold_left]. now rewrite IH.
Qed.

Lemma fold_add_global_globals (names : list string) (c : t) :
  global_variables (fold_left (fun ctx g => add_global g ctx) names c)
  = fold_left (fun acc g => set_add g acc) names (global_variables c).
Proof.
  revert c; induction names as [|a names IH]; intros c; [reflexivity|].
  cbn [fold_left]. now rewrite IH.
Qed.

Lemma fold_add_global_imports (names : list string) (c : t) :
  imports (fold_left (fun ctx g => add_global g ctx) names c) = imports c.
Proof. apply fold_add_global_other. Qed.

Lemma fold_add_import_globals (names : list AST) (c : t) :
  global_variables
    (fold_left (fun ctx a => add_import (Ast.name a) ctx) names c)
  = global_variables c.
Proof. apply fold_add_import_other. Qed.

Lemma enter_imports (n : AST) (c : t) :
  (NoDup (imports c) -> NoDup (imports (enter n c)))
  /\ forall m, In m (imports (enter n c))
               <-> In m (imports c) \/ In m (modules_of n).
Proof.
  unfold enter, modules_of.
  destruct (cls n); try (split; [auto|]; intros m; simpl; tauto).
  - rewrite fold_add_import_imports.
    apply (fold_set_add Ast.name (field "names" n) (imports c)).
  - destruct (ident n) as [m0|]; [|split; [auto|]; intros m; simpl; tauto].
    destruct (String.eqb m0 ""); [split; [auto|]; intros m; simpl; tauto|].
    cbn [imports add_import]. split; [apply set_add_NoDup|].
    intros m. rewrite set_add_In. simpl. intuition.
  - rewrite fold_add_global_imports. split; [auto|]. intros m. simpl. tauto.
Qed.

Lemma enter_globals (n : AST) (c : t) :
  (NoDup (global_variables c) -> NoDup (global_variables (enter n c)))
  /\ forall g, In g (global_variables (enter n c))
               <-> In g (global_variables c) \/ In g (globals_of n).
Proof.
  unfold enter, globals_of.
  destruct (cls n); try (split; [auto|]; intros m; simpl; tauto).
  - rewrite fold_add_import_globals. split; [auto|]. intros m. simpl. tauto.
  - destruct (ident n) as [m0|]; [|split; [auto|]; intros m; simpl; tauto].
    destruct (String.eqb m0 ""); split; auto; intros m; simpl; tauto.
  - rewrite fold_add_global_globals.
    destruct (fold_set_add (fun g => g) (idents n) (global_variables c))
      as [N M].
    split; [exact N|]. intros g. rewrite M, map_id. tauto.
Qed.

Lemma leave_imports (n : AST) (before after : t) :
  imports (leave n before after) = imports after.
Proof. unfold leave. now destruct (cls n). Qed.

Lemma leave_globals (n : AST) (before after : t) :
  global_variables (leave n before after) = global_variables after.
Proof. unfold leave. now destruct (cls n). Qed.

Lemma modules_of_imported (n : AST) (m : string) :
  In m (modules_of n) <-> HiddenImports.imported_module n m.
Proof.
  unfold modules_of, HiddenImports.imported_module.
  destruct (cls n) eqn:K;
    try (split; [intros []|intros [[E _]|[E _]]; discriminate E]).
  - rewrite in_map_iff. split.
    + intros [a [E H]]. left. split; [reflexivity|eauto].
    + intros [[_ [a [H E]]]|[E _]]; [eauto|discriminate E].
  - split.
    + destruct (ident n) as [m0|]; [|intros []].
      destruct (String.eqb m0 "") eqn:E; [intros []|].
      intros [->|[]]. right. apply String.eqb_neq in E. auto.
    + intros [[E _]|[_ [-> N]]]; [discriminate E|].
      apply String.eqb_neq in N. rewrite N. now left.
Qed.

Lemma visit_imports (n : AST) (c : t) :
  (NoDup (imports c) -> NoDup (imports (completed_visit n c)))
  /\ forall m, In m (imports (completed_visit n c))
               <-> In m (imports c) \/ imported_in n m.
Proof.
  destruct (visit_set imports modules_of
              (fun n c => proj2 (enter_imports n c))
              (fun n c => proj1 (enter_imports n c))
              leave_imports n c) as [N M].
  split; [exact N|]. intros m. rewrite M, in_flat_map.
  unfold imported_in. split.
  - intros [H|[x [Hx Hm]]]; [now left|right].
    exists x. split; [now apply walk_preorder_In|now apply modules_of_imported].
  - intros [H|[x [Hx Hm]]]; [now left|right].
    exists x. split; [now apply walk_preorder_In|now apply modules_of_imported].
Qed.

Lemma visit_globals (n : AST) (c : t) :
  (NoDup (global_variables c) -> NoDup (global_variables (completed_visit n c)))
  /\ forall g, In g (global_variables (completed_visit n c))
               <-> In g (global_variables c) \/ declared_global n g.
Proof.
  destruct (visit_set global_variables globals_of
              (fun n c => proj2 (enter_globals n c))
              (fun n c => proj1 (enter_globals n c))
              leave_globals n c) as [N M].
  split; [exact N|]. intros g. rewrite M, in_flat_map.
  unfold declared_global, globals_of. split.
  - intros [H|[x [Hx Hg]]]; [now left|right].
    exists x. split; [now apply walk_preorder_In|].
    destruct (cls x) eqn:K; try contradiction. now split.
  - intros [H|[x [Hx [K Hg]]]]; [now left|right].
    exists x. split; [now apply walk_preorder_In|]. now rewrite K.
Qed.

(** [completed_visit] leaves [current_function] and [current_class] as it found
    them. *)
Lemma visit_current (n : AST) :
  forall c, current_function (completed_visit n c) = current_function c
            /\ current_class (completed_visit n c) = current_class c.
Proof.
  induction n as [n IH] using AST_children_ind. intros c.
  rewrite visit_eq.
  assert (G : forall l c0,
            (forall ch, In ch l -> In ch (iter_child_nodes n)) ->
            current_function (visit_all l c0) = current_function c0
            /\ current_class (visit_all l c0) = current_class c0).
  { induction l as [|x l IHl]; intros c0 Hl; [now split|].
    unfold visit_all. cbn [fold_left]. fold (visit_all l (completed_visit x c0)).
    destruct (IHl (completed_visit x c0)) as [F C];
      [intros ch Hch; apply Hl; now right|].
    destruct (IH x (Hl x (or_introl eq_refl)) c0) as [Fx Cx].
    split; congruence. }
  destruct (G (iter_child_nodes n) (enter n c)) as [F C]; [auto|].
  unfold leave, enter in *.
  destruct (cls n); cbn [current_function current_class set_current_function
                         set_current_class] in *;
    try (split; [exact F|exact C]); try (split; [reflexivity|exact C]);
    try (split; [exact F|reflexivity]).
  - rewrite F, C. split; apply fold_add_import_other.
  - rewrite F, C. destruct (ident n) as [m|]; [|now split].
    now destruct (String.eqb m "").
  - rewrite F, C. split; apply fold_add_global_other.
Qed.

End ContextSetFacts.

(** What the context of a tree holds in its two sets. *)
Lemma context_of_sets (tree : AST) :
  NoDup (AnalysisContext.imports (context_of tree))
  /\ (forall m, In m (AnalysisContext.imports (context_of tree))
                <-> imported_in tree m)
  /\ NoDup (AnalysisContext.global_variables (context_of tree))
  /\ (forall g, In g (AnalysisContext.global_variables (context_of tree))
                <-> declared_global tree g).
Proof.
  unfold context_of.
  destruct (visit_imports tree AnalysisContext.empty) as [Ni Mi].
  destruct (visit_globals tree AnalysisContext.empty) as [Ng Mg].
  split; [apply Ni; constructor|]. split; [|split].
  - intros m. rewrite Mi. simpl. tauto.
  - apply Ng; constructor.
  - intros g. rewrite Mg. simpl. tauto.
Qed.

(** What the context of a tree holds in its two lists. *)
Lemma context_of_lists (tree : AST) :
  AnalysisContext.functions (context_of tree)
  = map Ast.name (filter TestabilityAnalyzer.is_function (preorder tree))
  /\ AnalysisContext.classes (context_of tree)
     = map Ast.name (filter TestabilityAnalyzer.is_class (preorder tree))
  /\ AnalysisContext.current_function (context_of tree) = None
  /\ AnalysisContext.current_class (context_of tree) = None.
Proof.
  unfold context_of.
  pose proof (visit_functions tree AnalysisContext.empty) as F.
  pose proof (visit_classes tree AnalysisContext.empty) as C.
  cbn [AnalysisContext.functions AnalysisContext.classes
       AnalysisContext.empty app] in F, C.
  split; [exact F|]. split; [exact C|].
  exact (visit_current tree AnalysisContext.empty).
Qed.

Section ContextProperties.

Import AnalysisContext.

(** X16: [build_context] returns exactly when the recursion limit leaves the
    visit the frames that it needs.  The context that it returns records
    every function definition and every class definition of the tree by
    name, nested ones and methods included, once per definition and in
    depth-first order, which is source order; these are the definitions
    among the nodes that [ast.walk] yields.  [current_function] and
    [current_class] are None again. *)
Theorem build_context_lists (frames : nat) (tree : AST) :
  (returns (build_context frames tree) <-> (frames_needed tree <= frames)%nat)
  /\ forall context,
       build_context frames tree = Ok context ->
       functions context
       = map Ast.name (filter TestabilityAnalyzer.is_function (preorder tree))
       /\ classes context
          = map Ast.name (filter TestabilityAnalyzer.is_class (preorder tree))
       /\ Permutation (functions context)
                      (map Ast.name
                           (filter TestabilityAnalyzer.is_function (walk tree)))
       /\ Permutation (classes context)
                      (map Ast.name
                           (filter TestabilityAnalyzer.is_class (walk tree)))
       /\ current_function context = None
       /\ current_class context = None.
Proof.
  split; [apply build_context_returns_iff|].
  intros context B. apply build_context_Ok in B. subst context.
  destruct (context_of_lists tree) as [F [C [Cf Cc]]].
  split; [exact F|]. split; [exact C|]. split; [|split; [|now split]].
  - rewrite F. apply Permutation_map, Permutation_filter.
    apply Permutation_sym, walk_preorder.
  - rewrite C. apply Permutation_map, Permutation_filter.
    apply Permutation_sym, walk_preorder.
Qed.

(** X17: The context that [build_context] returns holds in [imports] exactly
    the modules that the import statements of the tree name, wherever they
    stand, and in [global_variables] exactly the names that its [global]
    statements declare; neither holds a name twice.  The only exception
    that [build_context] raises is RecursionError, on a tree whose visit
    needs more frames than the recursion limit leaves. *)
Theorem build_context_sets (frames : nat) (tree : AST) :
  (forall context,
     build_context frames tree = Ok context ->
     NoDup (imports context)
     /\ (forall m, In m (imports context) <-> imported_in tree m)
     /\ NoDup (global_variables context)
     /\ (forall g, In g (global_variables context)
                   <-> declared_global tree g))
  /\ (forall e, build_context frames tree = Raise e ->
                e = RecursionError /\ (frames < frames_needed tree)%nat)
  /\ ((frames_needed tree <= frames)%nat -> returns (build_context frames tree)).
Proof.
  split; [|split].
  - intros context B. apply build_context_Ok in B. subst context.
    apply context_of_sets.
  - intros e B. split; [exact (call_Raise _ _ _ _ B)|].
    destruct (Nat.lt_ge_cases frames (frames_needed tree)) as [L|L];
      [exact L|].
    rewrite (@build_context_enough frames tree L) in B. discriminate B.
  - apply build_context_returns_iff.
Qed.

End ContextProperties.

Section ContextAndScores.

Import TestabilityAnalyzer.

Lemma scores_named (rules : list TestabilityRule.t)
    (context : AnalysisContext.t) (nodes : list AST)
    (scores : list FunctionScore.t) :
  Forall2 (fun node s => score_of (with_rules rules) node context = Ok s)
          nodes scores ->
  map FunctionScore.name scores = map Ast.name nodes.
Proof.
  induction 1 as [|node s nodes scores H _ IH]; simpl; [reflexivity|].
  apply score_of_final in H. destruct H as [_ [-> _]]. now rewrite IH.
Qed.

Lemma classes_named (rules : list TestabilityRule.t)
    (context : AnalysisContext.t) (nodes : list AST)
    (scores : list ClassScore.t) :
  Forall2 (fun node c => class_score_of (with_rules rules) node context = Ok c)
          nodes scores ->
  map ClassScore.name scores = map Ast.name nodes.
Proof.
  induction 1 as [|node s nodes scores H _ IH]; simpl; [reflexivity|].
  apply class_score_of_inv in H. destruct H as [-> _]. now rewrite IH.
Qed.

(** X18: An analysis that returns has built a context, and scores exactly
    the definitions that this context records: the names of
    [function_scores] are those of [context.functions], each as many times,
    and the names of [class_scores] are those of [context.classes]; the
    function scores come in the order of [ast.walk] (breadth first), the
    context's in depth-first order. *)
Theorem scores_match_context (frames : nat) (rules : list TestabilityRule.t)
    (file_path : string) (tree : AST) (fs : FileScore.t) :
  analyze_tree frames (with_rules rules) file_path tree = Ok fs ->
  exists context,
    build_context frames tree = Ok context
    /\ Permutation (map FunctionScore.name (FileScore.function_scores fs))
                   (AnalysisContext.functions context)
    /\ Permutation (map ClassScore.name (FileScore.class_scores fs))
                   (AnalysisContext.classes context)
    /\ List.length (FileScore.function_scores fs)
       = List.length (AnalysisContext.functions context)
    /\ List.length (FileScore.class_scores fs)
       = List.length (AnalysisContext.classes context).
Proof.
  intros H. exists (context_of tree).
  split; [exact (@analyze_tree_context _ _ _ _ _ H)|].
  apply analyze_tree_inv in H.
  destruct H as [function_scores [class_scores [Hf [Hc [Ef [Ec _]]]]]].
  subst function_scores class_scores.
  apply analyze_functions_inv, scores_named in Hf.
  apply analyze_classes_inv, classes_named in Hc.
  destruct (context_of_lists tree) as [F [C _]].
  assert (PF : Permutation
                 (map FunctionScore.name (FileScore.function_scores fs))
                 (AnalysisContext.functions (context_of tree))).
  { rewrite Hf, F. apply Permutation_map, Permutation_filter, walk_preorder. }
  assert (PC : Permutation
                 (map ClassScore.name (FileScore.class_scores fs))
                 (AnalysisContext.classes (context_of tree))).
  { rewrite Hc, C. apply Permutation_map, Permutation_filter, walk_preorder. }
  split; [exact PF|]. split; [exact PC|]. split.
  - apply Permutation_length in PF. now rewrite length_map in PF.
  - apply Permutation_length in PC. now rewrite length_map in PC.
Qed.

End ContextAndScores.

Lemma scores_match_context_witness :
  exists fs context,
    TestabilityAnalyzer.analyze_tree
      100 Fixtures.returning_analyzer "simple.py" Fixtures.simple_py = Ok fs
    /\ build_context 100 Fixtures.simple_py = Ok context
    /\ map FunctionScore.name (FileScore.function_scores fs)
       = [ "calculate_area"; "format_result"; "__init__"; "area" ]
    /\ AnalysisContext.functions context
       = [ "calculate_area"; "format_result"; "__init__"; "area" ]
    /\ List.length (FileScore.function_scores fs)
       = List.length (AnalysisContext.functions context).
Proof.
  destruct (@scores_match_context
              100 Fixtures.returning_rules "simple.py" Fixtures.simple_py _
              eq_refl) as [context [B [_ [_ [L _]]]]].
  eexists. exists context. split; [reflexivity|]. split; [exact B|].
  split; [reflexivity|]. split; [|exact L].
  vm_compute in B. now injection B as <-.
Defined.

(* ------------------------------------------------------------------ *)
(** ** The Global State Mutation rule and the context
       (rules/global_state_rule.py, ast_utils.py) *)

Section GlobalStateProperties.

Import GlobalState.

Local Arguments isinstance : simpl never.

(** X19: With the context that [build_context] returns for the file, the
    Global State Mutation rule reports a function that holds an assignment
    statement [x = ...] with the plain name [x] as one of its targets, when
    some [global] statement of the file declares [x], in this function or in
    any other, or when [x] is the top-level name of a module that the file
    imports somewhere: one red-flag violation of 10 points.  A name that is
    assigned inside a tuple target, by an annotated assignment or as a loop
    variable is not one of the targets that the rule looks at. *)
Theorem assignment_to_global_is_reported (frames : nat)
    (tree node assignment target : AST) (context : AnalysisContext.t) :
  build_context frames tree = Ok context ->
  isinstance node [FunctionDef; AsyncFunctionDef] = true ->
  In assignment (walk node) ->
  isinstance assignment [Assign] = true ->
  In target (field "targets" assignment) ->
  isinstance target [Name] = true ->
  declared_global tree (Ast.name target)
  \/ (exists m, imported_in tree m
                /\ Ast.name target = HiddenImportsRule.top_level_of m) ->
  exists child,
    evaluate node context = Ok [violation node child]
    /\ In child (walk node)
    /\ Violation.points_deducted (violation node child) = 10
    /\ Violation.is_red_flag (violation node child) = true.
Proof.
  intros B F Ha A Ht T G. apply build_context_Ok in B. subst context.
  destruct (context_of_sets tree) as [_ [Mi [_ Mg]]].
  assert (M : _contains_global_mutation assignment (context_of tree)
              = true).
  { unfold _contains_global_mutation. rewrite A.
    assert (existsb (fun target =>
                       _is_global_assignment target (context_of tree))
                    (field "targets" assignment) = true) as ->.
    { apply existsb_exists. exists target. split; [exact Ht|].
      unfold _is_global_assignment. rewrite T.
      apply orb_true_iff. destruct G as [G|[m [Hm E]]].
      - left. apply string_in_In. now apply Mg.
      - right. apply existsb_exists. exists m. split; [now apply Mi|].
        now apply String.eqb_eq. }
    cbn [andb]. now rewrite orb_true_r. }
  destruct (@find_exists _
              (fun child => _contains_global_mutation child (context_of tree))
              (walk node) assignment Ha M) as [y [E _]].
  exists y. unfold evaluate. rewrite F. cbn [negb]. rewrite E.
  apply find_some in E. destruct E as [E _].
  repeat split; assumption.
Qed.

End GlobalStateProperties.

Lemma assignment_to_global_is_reported_witness :
  exists context child,
    build_context 100 Examples.counter_py = Ok context
    /\ GlobalState.evaluate Examples.bump context
       = Ok [GlobalState.violation Examples.bump child]
    /\ In child (walk Examples.bump)
    /\ Violation.points_deducted (GlobalState.violation Examples.bump child)
       = 10
    /\ Violation.is_red_flag (GlobalState.violation Examples.bump child)
       = true.
Proof.
  eexists.
  destruct (@assignment_to_global_is_reported
              100 Examples.counter_py Examples.bump Examples.bump_assign
              (Build.target 6 "counter") _ eq_refl) as [child H].
  - reflexivity.
  - in_list.
  - reflexivity.
  - in_list.
  - reflexivity.
  - left. exists (Node Global (Some 2) None ["counter"] []).
    split; [in_list|]. split; [reflexivity|in_list].
  - exists child. split; [reflexivity|exact H].
Defined.

(** The same name assigned inside a tuple target is not reported. *)
Lemma tuple_target_is_not_reported :
  exists context,
    build_context 100 Examples.pair_py = Ok context
    /\ In "counter" (AnalysisContext.global_variables context)
    /\ GlobalState.evaluate Examples.bump_pair context = Ok [].
Proof.
  eexists. split; [vm_compute; reflexivity|].
  split; [now left|vm_compute; reflexivity].
Qed.

(* ------------------------------------------------------------------ *)
(** ** The analysis of a directory (analyzer.py, file_utils.py) *)

Section DirectoryProperties.

Import TestabilityAnalyzer.

Variable w : world.
Variable frames : nat.
Variable os : file_system.
Variable self : t.
Variable directory_path : string.

Lemma analyze_file_path (file_path : string) (fs : FileScore.t) :
  analyze_file w frames self file_path = Ok fs -> FileScore.file_path fs = file_path.
Proof.
  unfold analyze_file. intros H. apply bind_Ok in H.
  destruct H as [[tree|] [_ H]].
  - apply analyze_tree_inv in H.
    destruct H as [? [? [_ [_ [_ [_ [_ [_ [_ H]]]]]]]]]. exact H.
  - now injection H as <-.
Qed.

Lemma is_substring_prefix (sub s : string) :
  ExternalDependencyRule.is_substring sub s = false ->
  String.prefix sub s = false.
Proof.
  destruct s; cbn [ExternalDependencyRule.is_substring];
    intros H; apply orb_false_iff in H; tauto.
Qed.

Lemma not_test_file (path : Path.t) :
  FileUtils.is_likely_test_file path = false ->
  forall indicator, In indicator FileUtils.test_indicators ->
    Str.contains (Str.lower (Path.name path)) indicator = false.
Proof.
  unfold FileUtils.is_likely_test_file. intros H indicator Hi.
  destruct (Str.contains (Str.lower (Path.name path)) indicator) eqn:E;
    [|reflexivity].
  assert (existsb (fun indicator =>
                     Str.contains (Str.lower (Path.name path)) indicator)
                  FileUtils.test_indicators = true); [|congruence].
  apply existsb_exists. eauto.
Qed.

Lemma analysed_files_spec (path : Path.t) :
  In path (analysed_files os directory_path)
  <-> In path (find_python_files os [directory_path])
      /\ FileUtils.is_likely_test_file path = false
      /\ is_file os path = true.
Proof.
  unfold analysed_files, FileUtils.filter_non_test_files.
  rewrite !filter_In, negb_true_iff. tauto.
Qed.

Lemma directory_loop (results : list FileScore.t) :
  analyze_directory w frames os self directory_path = Ok results ->
  Forall2 (fun path fs => analyze_file w frames self (Path.str path) = Ok fs)
          (analysed_files os directory_path) results.
Proof.
  unfold analyze_directory. intros H.
  apply (for_each_collect (is_file os)
           (fun path => analyze_file w frames self (Path.str path))) in H.
  destruct H as [new [-> H]]. exact H.
Qed.

(** X20: When [analyze_directory] returns, it returns one result per file of
    the listing that is no test file and is a regular file, in the order of
    the listing, each the result of [analyze_file] on that path and
    carrying that path; a file that fails to parse has its Parse Error
    result like any other.  No result is for a file whose lower-cased name
    is [__init__.py] or [conftest.py], or starts with [test_]. *)
Theorem analyze_directory_results (results : list FileScore.t) :
  analyze_directory w frames os self directory_path = Ok results ->
  Forall2 (fun path fs => analyze_file w frames self (Path.str path) = Ok fs)
          (analysed_files os directory_path) results
  /\ map FileScore.file_path results
     = map Path.str (analysed_files os directory_path)
  /\ (forall path,
        In path (analysed_files os directory_path) ->
        In path (find_python_files os [directory_path])
        /\ is_file os path = true
        /\ Str.lower (Path.name path) <> "__init__.py"
        /\ Str.lower (Path.name path) <> "conftest.py"
        /\ String.prefix "test_" (Str.lower (Path.name path)) = false).
Proof.
  intros H. apply directory_loop in H. split; [exact H|]. split.
  - induction H as [|path fs paths results E _ IH]; [reflexivity|].
    cbn [map]. rewrite IH. f_equal. now apply analyze_file_path.
  - intros path Hp. apply analysed_files_spec in Hp.
    destruct Hp as [Hl [Ht Hf]]. split; [exact Hl|]. split; [exact Hf|].
    pose proof (not_test_file path Ht) as N. split; [|split].
    + intros E. specialize (N "__init__.py"). rewrite E in N.
      assert (In "__init__.py" FileUtils.test_indicators) as I by in_list.
      specialize (N I). discriminate N.
    + intros E. specialize (N "conftest.py"). rewrite E in N.
      assert (In "conftest.py" FileUtils.test_indicators) as I by in_list.
      specialize (N I). discriminate N.
    + apply is_substring_prefix. apply N. in_list.
Qed.

(** X21: [analyze_directory] returns exactly when [analyze_file] returns on
    every file it analyses: an exception of one analysis is not caught, and
    the results of the other files are lost with it. *)
Theorem analyze_directory_returns_iff :
  returns (analyze_directory w frames os self directory_path)
  <-> forall path, In path (analysed_files os directory_path) ->
                   returns (analyze_file w frames self (Path.str path)).
Proof.
  split.
  - intros [results H] path Hp. apply directory_loop in H.
    destruct (Forall2_In_l path H Hp) as [fs [_ E]]. now exists fs.
  - intros H. unfold analyze_directory.
    apply (for_each_collect_returns (is_file os)
             (fun path => analyze_file w frames self (Path.str path))).
    intros path Hp Hf. apply H. apply analysed_files_spec.
    unfold FileUtils.filter_non_test_files in Hp.
    apply filter_In in Hp. destruct Hp as [Hl Ht].
    apply negb_true_iff in Ht. auto.
Qed.

End DirectoryProperties.

Lemma analyze_directory_results_witness :
  exists results,
    TestabilityAnalyzer.analyze_directory
      Fixtures.files 100 Examples.directory Fixtures.returning_analyzer "."
    = Ok results
    /\ map FileScore.classification results
       = [ "Healthy"; "Parse Error"; "Healthy" ]
    /\ map FileScore.file_path results
       = map Path.str (analysed_files Examples.directory ".").
Proof.
  eexists. split; [vm_compute; reflexivity|].
  split; [reflexivity|].
  apply (@analyze_directory_results
           Fixtures.files 100 Examples.directory Fixtures.returning_analyzer ".").
  vm_compute; reflexivity.
Defined.

(* ------------------------------------------------------------------ *)
(** ** When the analyzer returns (analyzer.py, rules/rule_registry.py) *)

Section AnalyzerReturns.

Import TestabilityAnalyzer.

Variable frames : nat.
Variable bodies : rule_bodies.
Variable file_path : string.
Variable tree : AST.

Hypothesis no_function :
  forall n, In n (walk tree) -> is_function n = false.

Lemma filter_nil {A} (f : A -> bool) (l : list A) :
  (forall x, In x l -> f x = false) -> filter f l = [].
Proof.
  induction l as [|x l IH]; intros H; [reflexivity|].
  simpl. rewrite (H x (or_introl eq_refl)). apply IH.
  intros y Hy. apply H. now right.
Qed.

Lemma no_function_returns :
  returns (build_context frames tree) ->
  returns (analyze_tree frames (__init__ bodies) file_path tree).
Proof.
  intros B. apply analyze_tree_returns; [exact B|].
  intros rule node _ Hn Hf.
  rewrite (no_function node Hn) in Hf. discriminate.
Qed.

Lemma no_function_class (node : AST) (c : ClassScore.t) :
  In node (walk tree) ->
  class_score_of (__init__ bodies) node (context_of tree) = Ok c ->
  ClassScore.constructor_violations c = []
  /\ ClassScore.method_scores c = [].
Proof.
  intros Hn H. apply class_score_of_inv in H.
  destruct H as [_ [_ [[vss [Hv ->]] Hm]]].
  assert (Hitems : forall item, In item (field "body" node) ->
                                is_function item = false).
  { intros item Hi. apply no_function. eapply walk_field; eauto. }
  rewrite filter_nil in Hv, Hm.
  - inversion Hv. inversion Hm. now split.
  - intros item Hi. unfold is_method. rewrite (Hitems item Hi).
    apply andb_false_r.
  - intros item Hi. destruct (is_constructor item) eqn:C; [|reflexivity].
    apply is_constructor_function in C. rewrite (Hitems item Hi) in C.
    discriminate.
Qed.

Lemma empty_classes_score_nothing (class_scores : list ClassScore.t) :
  Forall (fun c => ClassScore.constructor_violations c = []
                   /\ ClassScore.method_scores c = []) class_scores ->
  all_scores [] class_scores = []
  /\ flat_map ClassScore.constructor_violations class_scores = [].
Proof.
  unfold all_scores. cbn [map app].
  induction 1 as [|c cs [Hc1 Hc2] _ [IH IHr]]; [now split|].
  apply app_eq_nil in IH. destruct IH as [IH1 IH2].
  cbn [flat_map]. rewrite Hc1, Hc2, IH1, IH2, IHr. now split.
Qed.

Lemma no_function_result (fs : FileScore.t) :
  analyze_tree frames (__init__ bodies) file_path tree = Ok fs ->
  FileScore.function_scores fs = []
  /\ Forall (fun c => ClassScore.constructor_violations c = []
                      /\ ClassScore.method_scores c = [])
            (FileScore.class_scores fs)
  /\ FileScore.overall_score fs = 100
  /\ FileScore.classification fs = "Healthy"
  /\ FileScore.red_flags fs = [].
Proof.
  intros H. apply analyze_tree_inv in H.
  destruct H as [function_scores [class_scores
                   [Hf [Hc [Ef [Ec [Eo [Er [Ecl _]]]]]]]]].
  subst function_scores class_scores.
  apply analyze_functions_inv in Hf. apply analyze_classes_inv in Hc.
  rewrite (filter_nil is_function (walk tree) no_function) in Hf.
  inversion Hf as [E1 E2|]. symmetry in E2.
  assert (Hcls : Forall (fun c => ClassScore.constructor_violations c = []
                                  /\ ClassScore.method_scores c = [])
                        (FileScore.class_scores fs)).
  { apply Forall_forall. intros c Hin.
    destruct (Forall2_In_r c Hc Hin) as [node [Hn E]].
    apply filter_In in Hn. destruct Hn as [Hn _].
    exact (no_function_class node Hn E). }
  destruct (empty_classes_score_nothing Hcls) as [Hall Hred].
  rewrite E2 in Eo, Er. rewrite Hall in Eo. cbn [flat_map app] in Er.
  rewrite Hred in Er.
  split; [first [exact E2|reflexivity]|].
  split; [exact Hcls|]. split; [exact Eo|].
  split; [|exact Er]. rewrite Ecl, Eo. reflexivity.
Qed.

End AnalyzerReturns.

(** X22: The analyzer that [__init__] builds returns a result for a parsed
    file exactly when [build_context] returns on its tree and the file has no
    function definition at all, no method either: the Branch Explosion rule
    is evaluated on every function definition and raises there, and the
    context builder raises RecursionError on a tree whose visit needs more
    frames than the recursion limit leaves, which is then the exception of
    the analysis.  A result is always the same but for the classes it lists:
    no function score, overall score 100, classification Healthy, no red
    flag, and classes without constructor violations and without method
    scores. *)
Theorem analyzer_returns_iff_no_function (frames : nat) (bodies : rule_bodies)
    (file_path : string) (tree : AST) :
  (returns (TestabilityAnalyzer.analyze_tree
              frames (TestabilityAnalyzer.__init__ bodies) file_path tree)
   <-> returns (build_context frames tree)
       /\ forall n, In n (walk tree) ->
                    TestabilityAnalyzer.is_function n = false)
  /\ (returns (build_context frames tree)
      <-> (frames_needed tree <= frames)%nat)
  /\ ((frames < frames_needed tree)%nat ->
      TestabilityAnalyzer.analyze_tree
        frames (TestabilityAnalyzer.__init__ bodies) file_path tree
      = Raise RecursionError)
  /\ (forall fs,
        TestabilityAnalyzer.analyze_tree
          frames (TestabilityAnalyzer.__init__ bodies) file_path tree = Ok fs ->
        FileScore.function_scores fs = []
        /\ Forall (fun c => ClassScore.constructor_violations c = []
                            /\ ClassScore.method_scores c = [])
                  (FileScore.class_scores fs)
        /\ FileScore.overall_score fs = 100
        /\ FileScore.classification fs = "Healthy"
        /\ FileScore.red_flags fs = []).
Proof.
  assert (N : returns (TestabilityAnalyzer.analyze_tree
                         frames (TestabilityAnalyzer.__init__ bodies)
                         file_path tree)
              -> forall n, In n (walk tree) ->
                           TestabilityAnalyzer.is_function n = false).
  { intros R n Hn.
    destruct (TestabilityAnalyzer.is_function n) eqn:F; [|reflexivity].
    exfalso. exact (@analysis_of_a_function_raises frames bodies file_path
                      tree n Hn F R). }
  split; [|split; [|split]].
  - split.
    + intros R. split; [|exact (N R)].
      destruct R as [fs R]. exists (context_of tree).
      exact (@analyze_tree_context _ _ _ _ _ R).
    + intros [B H]. now apply no_function_returns.
  - apply build_context_returns_iff.
  - intros L. now apply analyze_tree_no_context.
  - intros fs H.
    apply (@no_function_result frames bodies file_path tree); [|exact H].
    apply N. now exists fs.
Qed.

(* ------------------------------------------------------------------ *)
(** ** The file score and the constructors, with the registry of [__init__]
       (analyzer.py, rules/rule_registry.py) *)

Section ShippedRegistry.

Import TestabilityAnalyzer WorstScore.

Local Arguments isinstance : simpl never.

(** A loop in which an iteration returns or raises [e], and some iteration
    raises [e] whatever the state, raises [e]. *)
Lemma for_each_raises_at {A S} (body : S -> A -> result S) (e : exception)
    (xs : list A) (acc : S) (x : A) :
  (forall acc y, In y xs -> body acc y = Raise e \/ returns (body acc y)) ->
  In x xs -> (forall acc, body acc x = Raise e) ->
  for_each body xs acc = Raise e.
Proof.
  revert acc; induction xs as [|y xs IH]; intros acc H Hx Hr; [contradiction|].
  simpl. destruct Hx as [-> | Hx]; [now rewrite Hr|].
  destruct (H acc y (or_introl eq_refl)) as [-> | [acc' ->]];
    [reflexivity|].
  simpl. apply IH; [|exact Hx|exact Hr]. intros a z Hz. apply H. now right.
Qed.

(** With the rules as the source has them, the score of a function
    definition is never computed: the five rules registered before the
    Branch Explosion rule return, and that rule raises. *)
Lemma shipped_score_of_raises (node : AST) (context : AnalysisContext.t) :
  is_function node = true ->
  score_of (__init__ source_bodies) node context = Raise AttributeError.
Proof.
  intros F. unfold score_of, extend_with_rules.
  cbn [rule_registry __init__ RuleRegistry.get_all_rules RuleRegistry.__init__
       RuleRegistry._rules for_each].
  destruct (file_io_reports node context) as [v1 [E1 _]].
  destruct (time_usage_reports node context) as [v2 [E2 _]].
  destruct (randomness_reports node context) as [v3 [E3 _]].
  destruct (global_state_reports node context) as [v4 [E4 _]].
  destruct (mixed_io_logic_reports node context) as [v5 [E5 _]].
  cbn [TestabilityRule.evaluate FileIORule RandomnessRule GlobalStateRule
       MixedIOLogicRule TimeUsageRule.rule BranchExplosionRule.rule
       source_bodies FileIORule_evaluate RandomnessRule_evaluate
       GlobalStateRule_evaluate MixedIOLogicRule_evaluate].
  rewrite E1. cbn [bind]. rewrite E2. cbn [bind]. rewrite E3. cbn [bind].
  rewrite E4. cbn [bind]. rewrite E5. cbn [bind].
  now rewrite (evaluate_raises node context F).
Qed.

(** The analysis of a tree that holds a function definition raises
    AttributeError when the context builder returns, and the
    RecursionError of the context builder otherwise. *)
Lemma shipped_analysis_raises (frames : nat) (file_path : string)
    (tree node : AST) :
  In node (walk tree) -> is_function node = true ->
  analyze_tree frames (__init__ source_bodies) file_path tree
  = Raise (if (frames_needed tree <=? frames)%nat
           then AttributeError else RecursionError).
Proof.
  intros Hn F. destruct (Nat.leb_spec (frames_needed tree) frames) as [L|L].
  - unfold analyze_tree. rewrite (@build_context_enough frames tree L).
    cbn [bind]. unfold _analyze_functions.
    rewrite (@for_each_raises_at _ _ _ AttributeError (walk tree) [] node);
      [reflexivity| |exact Hn|].
    + intros acc y _. destruct (is_function y) eqn:Fy.
      * left. now rewrite shipped_score_of_raises.
      * right. now exists acc.
    + intros acc. rewrite F. now rewrite shipped_score_of_raises.
  - now apply analyze_tree_no_context.
Qed.

Lemma top_level_in_walk (tree node : AST) :
  In node (top_level_functions tree) ->
  In node (walk tree) /\ is_function node = true.
Proof.
  unfold top_level_functions. intros H. apply filter_In in H.
  destruct H as [H F]. split; [|exact F].
  eapply walk_field; [apply walk_self|exact H].
Qed.

(** C1, as the code has it.  The function scores of an analysis that
    returns are those of every function definition that [ast.walk] meets in
    the tree, and the overall score is the minimum over their final scores,
    the final scores of the methods and the derived constructor scores (100
    when there is none), which is what [aggregate_file_score] returns.  The
    set of the claim holds the scores of the top-level functions only, so
    the overall score is at most the claimed minimum, and below it when a
    function defined inside another one scores worst.  With the registry of
    [__init__], the analysis of a file that holds a function definition
    returns no score at all.  The violations deduct non-negative points, as
    the data model has them. *)
Theorem overall_score_over_every_definition (w : world) (frames : nat)
    (rules : list TestabilityRule.t) (file_path : string) (tree : AST)
    (fs : FileScore.t) (top_level : list FunctionScore.t) (claimed : Z) :
  w file_path = Ok tree ->
  analyze_file w frames (with_rules rules) file_path = Ok fs ->
  Forall deducts_nonneg (violations_of fs) ->
  top_level_scores (with_rules rules) tree top_level ->
  worst_score (pool top_level (FileScore.class_scores fs)) claimed ->
  Forall2 (fun node s =>
             score_of (with_rules rules) node (context_of tree) = Ok s)
          (filter is_function (walk tree)) (FileScore.function_scores fs)
  /\ worst_score (pool (FileScore.function_scores fs)
                       (FileScore.class_scores fs))
                 (FileScore.overall_score fs)
  /\ FileScore.overall_score fs
     = ScoreCalculator.aggregate_file_score
         ScoreCalculator.__init__
         (FileScore.function_scores fs) (FileScore.class_scores fs)
  /\ FileScore.overall_score fs <= claimed
  /\ (forall bodies node,
        In node (walk tree) -> is_function node = true ->
        ~ returns (analyze_file w frames (__init__ bodies) file_path)).
Proof.
  intros Hw H Hnn Htop Hclaimed.
  pose proof (@function_scores_of_tree w frames rules file_path tree fs Hw H)
    as Hall.
  destruct (@overall_score_of_lists_is_worst w frames rules file_path tree fs
              Hw H Hnn) as [W A].
  split; [exact Hall|]. split; [exact W|]. split; [exact A|]. split.
  - assert (Incl : forall y,
              In y (pool top_level (FileScore.class_scores fs)) ->
              In y (pool (FileScore.function_scores fs)
                         (FileScore.class_scores fs))).
    { unfold pool. intros y. rewrite !in_app_iff.
      intros [Hy|Hy]; [left|now right].
      apply in_map_iff in Hy. destruct Hy as [s [<- Hs]].
      destruct (Forall2_In_r s Htop Hs) as [node [Hnode Es]].
      apply top_level_in_walk in Hnode. destruct Hnode as [Hn F].
      destruct (@definition_in_function_scores w frames rules file_path tree
                  fs Hw H node Hn F) as [s' [Hs' Es']].
      rewrite Es in Es'. injection Es' as <-. now apply in_map. }
    rewrite (@analyze_file_parsed w frames (with_rules rules) file_path tree Hw)
      in H.
    pose proof (@overall_score_bounds _ _ _ _ _ H Hnn) as B.
    unfold worst_score in Hclaimed, W.
    destruct (pool top_level (FileScore.class_scores fs)) as [|z zs];
      [lia|].
    destruct Hclaimed as [Hin _]. apply Incl in Hin.
    destruct (pool (FileScore.function_scores fs) (FileScore.class_scores fs))
      as [|y ys]; [contradiction|].
    destruct W as [_ Hmin]. now apply Hmin.
  - intros bodies node Hn F.
    rewrite (@analyze_file_parsed w frames (__init__ bodies) file_path tree Hw).
    now apply analysis_of_a_function_raises with (node := node).
Qed.

(** C10, as the code has it.  For a class whose body defines [__init__]:
    with the registry of [__init__] the analysis of the file returns no
    file score, whatever the bodies of the rules, and with the rules as the
    source has them it raises AttributeError (or the RecursionError of the
    context builder), because the constructor is a function definition and
    the Branch Explosion rule raises on it.  With any registry with which
    the analysis returns, the function enumeration, which walks the whole
    tree, gives that [__init__] a FunctionScore of its own, computed from
    the answers of every registered rule and listed in [function_scores];
    the same violations are part of the class's [constructor_violations];
    the file score is at most that FunctionScore's final score; and when the
    class has this one constructor and its violations deduct points, the
    same score stands at two places of the list the minimum is taken over,
    once as the FunctionScore's final score and once as the derived
    constructor score. *)
Theorem constructor_scored_twice (w : world) (frames : nat)
    (file_path : string) (tree class init : AST) :
  w file_path = Ok tree ->
  In class (walk tree) -> is_class class = true ->
  In init (field "body" class) -> is_constructor init = true ->
  (forall bodies,
     ~ returns (analyze_file w frames (__init__ bodies) file_path))
  /\ analyze_file w frames (__init__ source_bodies) file_path
     = Raise (if (frames_needed tree <=? frames)%nat
              then AttributeError else RecursionError)
  /\ (forall rules fs,
        analyze_file w frames (with_rules rules) file_path = Ok fs ->
        exists vss s c,
          rule_outcomes (with_rules rules) (context_of tree) init vss
          /\ s = ScoreCalculator.calculate_function_score
                   ScoreCalculator.__init__ "__init__" (lineno init)
                   (List.concat vss)
          /\ In s (FileScore.function_scores fs)
          /\ In c (FileScore.class_scores fs)
          /\ ClassScore.name c = Ast.name class
          /\ (exists pre post,
                ClassScore.constructor_violations c
                = pre ++ List.concat vss ++ post)
          /\ FileScore.overall_score fs <= FunctionScore.final_score s
          /\ (filter is_constructor (field "body" class) = [init] ->
              0 < sum_points (List.concat vss) ->
              ClassScore.constructor_violations c = List.concat vss
              /\ FunctionScore.final_score s
                 = Z.max (100 - sum_points (ClassScore.constructor_violations c))
                         0
              /\ exists before between after,
                   all_scores (FileScore.function_scores fs)
                              (FileScore.class_scores fs)
                   = before ++ FunctionScore.final_score s
                               :: between ++ FunctionScore.final_score s
                               :: after)).
Proof.
  intros Hw Hc Hic Hi Hii.
  assert (Hn : In init (walk tree)) by (eapply walk_field; eauto).
  pose proof (is_constructor_function _ Hii) as F.
  split; [|split].
  - intros bodies.
    rewrite (@analyze_file_parsed w frames (__init__ bodies) file_path tree Hw).
    now apply analysis_of_a_function_raises with (node := init).
  - rewrite (@analyze_file_parsed w frames (__init__ source_bodies) file_path
               tree Hw).
    now apply shipped_analysis_raises with (node := init).
  - intros rules fs H.
    now apply (@constructor_scored_twice_of_result
                 w frames rules file_path tree fs Hw H class init).
Qed.

End ShippedRegistry.

Lemma overall_score_over_every_definition_witness :
  exists fs outer_score,
    TestabilityAnalyzer.analyze_file
      Fixtures.files 100
      (TestabilityAnalyzer.with_rules Fixtures.rules_with_AsyncWhile)
      "nested.py" = Ok fs
    /\ top_level_functions Fixtures.nested_py = [Fixtures.outer]
    /\ top_level_scores
         (TestabilityAnalyzer.with_rules Fixtures.rules_with_AsyncWhile)
         Fixtures.nested_py [outer_score]
    /\ WorstScore.worst_score
         (WorstScore.pool [outer_score] (FileScore.class_scores fs)) 100
    /\ map FunctionScore.name (FileScore.function_scores fs)
       = ["outer"; "inner"]
    /\ FileScore.overall_score fs = 95
    /\ FileScore.overall_score fs <= 100
    /\ ~ returns (TestabilityAnalyzer.analyze_file
                    Fixtures.files 100
                    (TestabilityAnalyzer.__init__ source_bodies) "nested.py").
Proof.
  destruct (TestabilityAnalyzer.analyze_file
              Fixtures.files 100
              (TestabilityAnalyzer.with_rules Fixtures.rules_with_AsyncWhile)
              "nested.py") as [fs|e] eqn:E;
    [|vm_compute in E; discriminate E].
  pose proof (@overall_score_over_every_definition
                Fixtures.files 100 Fixtures.rules_with_AsyncWhile "nested.py"
                Fixtures.nested_py fs [FunctionScore.mk "outer" 1 100 [] 100]
                100 eq_refl E) as H.
  vm_compute in E. injection E as E. subst fs.
  assert (T : top_level_scores
                (TestabilityAnalyzer.with_rules Fixtures.rules_with_AsyncWhile)
                Fixtures.nested_py
                [FunctionScore.mk "outer" 1 100 [] 100]).
  { constructor; [vm_compute; reflexivity|constructor]. }
  assert (C : WorstScore.worst_score [100] 100).
  { split; [now left|]. intros y [<-|[]]. lia. }
  destruct H as [_ [_ [_ [L R]]]].
  - repeat constructor; unfold deducts_nonneg; simpl; lia.
  - exact T.
  - exact C.
  - eexists. eexists. split; [reflexivity|]. split; [reflexivity|].
    split; [exact T|]. split; [exact C|]. split; [reflexivity|].
    split; [reflexivity|]. split; [exact L|].
    apply (R source_bodies Fixtures.inner); [in_list|reflexivity].
Defined.

Lemma constructor_scored_twice_witness :
  TestabilityAnalyzer.analyze_file
    Fixtures.files 100 (TestabilityAnalyzer.__init__ source_bodies) "job.py"
  = Raise AttributeError
  /\ exists fs s c,
       TestabilityAnalyzer.analyze_file
         Fixtures.files 100
         (TestabilityAnalyzer.with_rules Fixtures.rules_with_AsyncWhile)
         "job.py" = Ok fs
       /\ FunctionScore.name s = "__init__"
       /\ FunctionScore.final_score s = 90
       /\ In s (FileScore.function_scores fs)
       /\ In c (FileScore.class_scores fs)
       /\ ClassScore.constructor_violations c = FunctionScore.violations s
       /\ FileScore.overall_score fs <= FunctionScore.final_score s.
Proof.
  destruct (@constructor_scored_twice
              Fixtures.files 100 "job.py" Fixtures.job_py
              Fixtures.Job Fixtures.Job_init eq_refl)
    as [_ [Hraise Hall]].
  - in_list.
  - reflexivity.
  - in_list.
  - reflexivity.
  - split; [exact Hraise|].
    destruct (TestabilityAnalyzer.analyze_file
                Fixtures.files 100
                (TestabilityAnalyzer.with_rules Fixtures.rules_with_AsyncWhile)
                "job.py") as [fs|e] eqn:E;
      [|vm_compute in E; discriminate E].
    destruct (Hall Fixtures.rules_with_AsyncWhile fs E)
      as [vss [s [c [_ [Es [Hs [Hc [_ [_ [Hle _]]]]]]]]]].
    vm_compute in E. injection E as E. subst fs.
    eexists. exists s, c. split; [reflexivity|].
    pose proof Hs as Hs0. pose proof Hc as Hc0.
    cbn [FileScore.function_scores FileScore.class_scores] in Hs, Hc.
    destruct Hc as [<-|[]].
    destruct Hs as [<-|[<-|[]]].
    + repeat split; try reflexivity; assumption.
    + exfalso. rewrite Es in Hle. revert Es Hle. clear. intros Es.
      assert (N : FunctionScore.name
                    (FunctionScore.mk "stamp" 6 90
                       [Violation.mk "Non-Deterministic Time Usage"
                          "Non-deterministic time usage makes testing difficult"
                          10 7 "stamp" true] 100) = "__init__").
      { rewrite Es. reflexivity. }
      discriminate N.
Defined.

(* ------------------------------------------------------------------ *)
(** ** Bounds on deductions (scoring.py, rules/external_dependency_rule.py) *)

Section DeductionBounds.



(** X24: More violations never raise a function's score: the final score that
    [calculate_function_score] gives a list of violations and further
    violations that deduct non-negative points is at most the score of the
    list alone. *)
Theorem more_violations_lower_score (self : ScoreCalculator.t)
    (function_name : string) (line_number : Z)
    (violations more : list Violation.t) :
  Forall deducts_nonneg more ->
  FunctionScore.final_score
    (ScoreCalculator.calculate_function_score
       self function_name line_number (violations ++ more))
  <= FunctionScore.final_score
       (ScoreCalculator.calculate_function_score
          self function_name line_number violations).
Proof.
  intros H. apply sum_points_nonneg in H.
  unfold ScoreCalculator.calculate_function_score.
  cbn [FunctionScore.final_score]. rewrite sum_points_app. lia.
Qed.

End DeductionBounds.

Lemma more_violations_lower_score_witness :
  FunctionScore.final_score
    (ScoreCalculator.calculate_function_score
       ScoreCalculator.__init__ "test_func" 1
       (Fixtures.three_violations ++ Fixtures.thirty_violations))
  <= FunctionScore.final_score
       (ScoreCalculator.calculate_function_score
          ScoreCalculator.__init__ "test_func" 1 Fixtures.three_violations).
Proof.
  apply (@more_violations_lower_score ScoreCalculator.__init__ "test_func" 1
           Fixtures.three_violations Fixtures.thirty_violations).
  apply Forall_forall. intros v Hv. unfold Fixtures.thirty_violations in Hv.
  apply in_map_iff in Hv. destruct Hv as [i [<- _]].
  unfold deducts_nonneg. simpl. lia.
Defined.
